(** * Work-order backend (backend/server.py): model and properties

    The request handlers of [backend/server.py] are embedded as functions in
    a state-and-exception monad over the document store.  A collection is
    the list of its documents in insertion order; the pydantic models are
    records; [uuid.uuid4()], [datetime.now()], the bcrypt hash and the JWT
    encoder are inputs of the request (record [Env]).  FastAPI resolves
    [Depends(get_current_user)] before the handler runs, so a handler takes
    the resolved user as an argument. *)

From Stdlib Require Import ZArith List String Ascii Bool Arith Lia.
From Stdlib Require Import Permutation Decimal DecimalNat DecimalString.
From Stdlib Require Import Floats.
Import ListNotations.

Local Open Scope string_scope.
Local Open Scope list_scope.

(** ** Enumerations *)

Inductive UserRole := ADMIN | SUPERVISOR | TECHNICIAN | CLIENT.

Inductive WorkOrderStatus :=
  PENDING | IN_PROGRESS | COMPLETED | APPROVED | CANCELLED.

Inductive SLAType := NORMAL | URGENT | CRITICAL.

Inductive RequestType := MEP | CIVIL | PLUMBING | ELECTRICAL | HVAC | OTHER.

Definition role_eqb (a b : UserRole) : bool :=
  match a, b with
  | ADMIN, ADMIN | SUPERVISOR, SUPERVISOR
  | TECHNICIAN, TECHNICIAN | CLIENT, CLIENT => true
  | _, _ => false
  end.

Definition status_eqb (a b : WorkOrderStatus) : bool :=
  match a, b with
  | PENDING, PENDING | IN_PROGRESS, IN_PROGRESS | COMPLETED, COMPLETED
  | APPROVED, APPROVED | CANCELLED, CANCELLED => true
  | _, _ => false
  end.

(** The [str] value of a status member.  It is also what the handlers'
    f-strings are taken to print for a member (interpreters from 3.11 on
    print the member's qualified name instead; no property below reads the
    message text). *)
Definition status_value (s : WorkOrderStatus) : string :=
  match s with
  | PENDING => "pending"
  | IN_PROGRESS => "in_progress"
  | COMPLETED => "completed"
  | APPROVED => "approved"
  | CANCELLED => "cancelled"
  end.

(** ** Python values used by the handlers *)

(** Truth value of an [Optional[str]]: [None] and the empty string are
    false. *)
Definition truthy (o : option string) : bool :=
  match o with
  | Some s => negb (s =? "")
  | None => false
  end.

(** [a != b] for an [Optional[str]] document field against a [str]. *)
Definition opt_str_neq (o : option string) (s : string) : bool :=
  match o with
  | Some t => negb (t =? s)
  | None => true
  end.

Fixpoint zeros (k : nat) : string :=
  match k with
  | O => ""
  | S k' => String "0" (zeros k')
  end.

(** [f"{n:05d}"] for a non-negative [n]: decimal digits, zero-filled on the
    left up to width five (longer numbers are printed in full). *)
Definition format_05d (n : nat) : string :=
  let s := NilEmpty.string_of_uint (Nat.to_uint n) in
  zeros (5 - String.length s) ++ s.

(** *** Floats

    [float] fields are IEEE binary64 numbers (Rocq's primitive floats). *)

(** [sum(xs)] over floats: left-to-right addition starting from [0].  (The
    interpreter starts from the integer [0]; [0 + x] is the float addition
    [0.0 + x], and every call site that stores the result sums a non-empty
    list.) *)
Definition py_sum (xs : list float) : float :=
  fold_left PrimFloat.add xs 0%float.

(** [a / b] on non-negative integers (true division): the binary64 number
    nearest to the exact quotient.  The handlers only divide by a positive
    count. *)
Definition int_as_SF (n : nat) : spec_float :=
  match Z.of_nat n with
  | Zpos p => S754_finite false p 0
  | _ => S754_zero false
  end.

Definition py_truediv (a b : nat) : float :=
  SF2Prim (SFdiv prec emax (int_as_SF a) (int_as_SF b)).

(** Nearest integer to [num / den] ([den > 0]), ties to even. *)
Definition round_half_even (num den : Z) : Z :=
  let q := (num / den)%Z in
  let r := (num mod den)%Z in
  match (2 * r ?= den)%Z with
  | Lt => q
  | Gt => (q + 1)%Z
  | Eq => if Z.even q then q else (q + 1)%Z
  end.

(** [round(x, ndigits)] on a float with [ndigits >= 0]: the exact value of
    [x] is rounded half-even to [ndigits] decimals, and the decimal result
    is converted back to the nearest binary64 number, keeping the sign. *)
Definition py_round (x : float) (ndigits : nat) : float :=
  match Prim2SF x with
  | S754_finite s m e =>
      let p := (10 ^ Z.of_nat ndigits)%Z in
      let scaled :=
        if (0 <=? e)%Z
        then round_half_even (Zpos m * 2 ^ e * p) 1
        else round_half_even (Zpos m * p) (2 ^ (- e)) in
      match scaled with
      | Zpos r =>
          SF2Prim (SFdiv prec emax (S754_finite s r 0)
                                   (S754_finite false (Z.to_pos p) 0))
      | _ => SF2Prim (S754_zero s)
      end
  | _ => x
  end.

(** ** Models *)

Module User.
Record t := mk {
    id : string;
    email : string;
    name : string;
    role : UserRole;
    password_hash : option string;
    picture : option string;
    is_active : bool;
    created_at : string
  }.
End User.

Module UserCreate.
Record t := mk {
    email : string;
    name : string;
    password : string;
    role : UserRole
  }.
End UserCreate.

Module WorkOrder.
Record t := mk {
    id : string;
    request_id : string;
    title : string;
    description : string;
    status : WorkOrderStatus;
    request_type : RequestType;
    sla_type : SLAType;
    location : string;
    department : option string;
    client_id : string;
    client_name : string;
    assigned_to_id : option string;
    assigned_to_name : option string;
    start_date : option string;
    due_date : option string;
    completed_at : option string;
    duration_days : option Z;
    is_delayed : bool;
    total_cost : float;
    created_by_id : string;
    created_by_name : string;
    created_at : string;
    updated_at : string
  }.
End WorkOrder.

Module WorkOrderCreate.
Record t := mk {
    title : string;
    description : string;
    request_type : RequestType;
    sla_type : SLAType;
    location : string;
    department : option string;
    client_id : string;
    assigned_to_id : option string;
    start_date : option string;
    due_date : option string;
    duration_days : option Z
  }.
End WorkOrderCreate.

Module WorkOrderUpdate.
Record t := mk {
    title : option string;
    description : option string;
    status : option WorkOrderStatus;
    request_type : option RequestType;
    sla_type : option SLAType;
    location : option string;
    department : option string;
    assigned_to_id : option string;
    start_date : option string;
    due_date : option string;
    completed_at : option string;
    duration_days : option Z;
    total_cost : option float
  }.

(** The body with every field left out. *)
Definition empty : t :=
    mk None None None None None None None None None None None None None.
End WorkOrderUpdate.

Module CostEntry.
Record t := mk {
    id : string;
    work_order_id : string;
    description : string;
    cost_type : string;
    amount : float;
    created_by_id : string;
    created_by_name : string;
    created_at : string
  }.
End CostEntry.

Module CostEntryCreate.
Record t := mk {
    work_order_id : string;
    description : string;
    cost_type : string;
    amount : float
  }.
End CostEntryCreate.

Module Notification.
Record t := mk {
    id : string;
    user_id : string;
    title : string;
    message : string;
    link : option string;
    is_read : bool;
    created_at : string
  }.
End Notification.

(** ** The document store *)

Record Database := mkDatabase {
  users : list User.t;
  work_orders : list WorkOrder.t;
  cost_entries : list CostEntry.t;
  notifications : list Notification.t
}.

(** A collection of the store: how to read it and how to replace it. *)
Record Collection (A : Type) := mkCollection {
  docs : Database -> list A;
  set_docs : list A -> Database -> Database
}.
Arguments docs {A} _ _.
Arguments set_docs {A} _ _ _.

Definition db_users : Collection User.t :=
  mkCollection _ users
    (fun l d => mkDatabase l (work_orders d) (cost_entries d) (notifications d)).

Definition db_work_orders : Collection WorkOrder.t :=
  mkCollection _ work_orders
    (fun l d => mkDatabase (users d) l (cost_entries d) (notifications d)).

Definition db_cost_entries : Collection CostEntry.t :=
  mkCollection _ cost_entries
    (fun l d => mkDatabase (users d) (work_orders d) l (notifications d)).

Definition db_notifications : Collection Notification.t :=
  mkCollection _ notifications
    (fun l d => mkDatabase (users d) (work_orders d) (cost_entries d) l).

(** ** Handlers: state over the store, exceptions as HTTP errors *)

Record HTTPException := mkHTTPException {
  status_code : nat;
  detail : string
}.

Definition Handler (A : Type) : Type :=
  Database -> (HTTPException + A) * Database.

Definition ret {A} (a : A) : Handler A := fun d => (inr a, d).

Definition raise {A} (e : HTTPException) : Handler A := fun d => (inl e, d).

Definition bind {A B} (m : Handler A) (k : A -> Handler B) : Handler B :=
  fun d =>
    match m d with
    | (inl e, d') => (inl e, d')
    | (inr a, d') => k a d'
    end.

Notation "x <- m ;; k" := (bind m (fun x => k))
  (at level 61, m at next level, right associativity).
Notation "m ;;; k" := (bind m (fun _ => k))
  (at level 61, right associativity).

(** *** Collection operations *)

Fixpoint update_first {A} (q : A -> bool) (f : A -> A) (l : list A) : list A :=
  match l with
  | [] => []
  | x :: l' => if q x then f x :: l' else x :: update_first q f l'
  end.

Fixpoint delete_first {A} (q : A -> bool) (l : list A) : list A :=
  match l with
  | [] => []
  | x :: l' => if q x then l' else x :: delete_first q l'
  end.

Definition find_one {A} (c : Collection A) (q : A -> bool)
  : Handler (option A) :=
  fun d => (inr (List.find q (docs c d)), d).

(** The cursor of [find(query)], in natural order. *)
Definition find {A} (c : Collection A) (q : A -> bool) : Handler (list A) :=
  fun d => (inr (filter q (docs c d)), d).

Definition count_documents {A} (c : Collection A) (q : A -> bool)
  : Handler nat :=
  fun d => (inr (List.length (filter q (docs c d))), d).

Definition insert_one {A} (c : Collection A) (doc : A) : Handler unit :=
  fun d => (inr tt, set_docs c (docs c d ++ [doc]) d).

(** [update_one] changes the first match and reports [matched_count]. *)
Definition update_one {A} (c : Collection A) (q : A -> bool) (f : A -> A)
  : Handler nat :=
  fun d =>
    (inr (if existsb q (docs c d) then 1 else 0),
     set_docs c (update_first q f (docs c d)) d).

(** [delete_one] removes the first match and reports [deleted_count]. *)
Definition delete_one {A} (c : Collection A) (q : A -> bool) : Handler nat :=
  fun d =>
    (inr (if existsb q (docs c d) then 1 else 0),
     set_docs c (delete_first q (docs c d)) d).

(** [cursor.to_list(length)]: at most [length] documents. *)
Definition to_list {A} (length : nat) (cursor : list A) : list A :=
  firstn length cursor.

(** [cursor.sort(key, -1)]: descending on a string key.  Documents with
    equal keys keep their natural order. *)
Fixpoint insert_desc {A} (key : A -> string) (x : A) (l : list A) : list A :=
  match l with
  | [] => [x]
  | y :: l' =>
      if String.ltb (key x) (key y)
      then y :: insert_desc key x l'
      else x :: l
  end.

Definition sort_desc {A} (key : A -> string) (cursor : list A) : list A :=
  fold_right (insert_desc key) [] cursor.

(** ** Inputs of a request besides its body *)

(** [uuid4 k] is the id drawn at the [k]-th place of a handler that
    builds a model object, [utcnow k] the clock read at the [k]-th place
    that asks for the time (places are counted from 0 in the order of the
    handler's text);
    [hashpw] is [hash_password] (bcrypt with the salt drawn for the
    request) and [jwt_encode] signs a token for a user id, an email and the
    time of issue. *)
Record Env := mkEnv {
  uuid4 : nat -> string;
  utcnow : nat -> string;
  hashpw : string -> string;
  jwt_encode : string -> string -> string -> string
}.

(** ** Queries on work orders

    A query document is a list of field conditions, all of which must
    hold; [{}] is the empty list and [{**query, k: v}] appends a
    condition. *)

Inductive Clause :=
| client_id_is (v : string)
| assigned_to_id_is (v : string)
| status_is (v : WorkOrderStatus).

Definition Query := list Clause.

Definition holds (w : WorkOrder.t) (c : Clause) : bool :=
  match c with
  | client_id_is v => WorkOrder.client_id w =? v
  | assigned_to_id_is v =>
      match WorkOrder.assigned_to_id w with
      | Some a => a =? v
      | None => false
      end
  | status_is v => status_eqb (WorkOrder.status w) v
  end.

Definition matches (q : Query) (w : WorkOrder.t) : bool := forallb (holds w) q.

Definition wo_id_is (work_order_id : string) (w : WorkOrder.t) : bool :=
  WorkOrder.id w =? work_order_id.

Definition user_id_is (user_id : string) (u : User.t) : bool :=
  User.id u =? user_id.

(** ** Helper functions of the server *)

Definition require_role (allowed_roles : list UserRole) (current_user : User.t)
  : Handler User.t :=
  if negb (existsb (role_eqb (User.role current_user)) allowed_roles)
  then raise (mkHTTPException 403 "Insufficient permissions")
  else ret current_user.

(** [k] and [t] are the positions of the notification's id and timestamp
    among the draws of the request. *)
Definition create_notification (env : Env) (k t : nat)
    (user_id title message : string) (link : option string) : Handler unit :=
  insert_one db_notifications
    (Notification.mk (uuid4 env k) user_id title message link false
                     (utcnow env t)).

(** ** Auth routes *)

Record AuthResponse := mkAuthResponse {
  token : string;
  auth_id : string;
  auth_email : string;
  auth_name : string;
  auth_role : UserRole
}.

Definition register (env : Env) (user_data : UserCreate.t)
  : Handler AuthResponse :=
  existing <- find_one db_users
                (fun u => User.email u =? UserCreate.email user_data) ;;
  match existing with
  | Some _ => raise (mkHTTPException 400 "Email already registered")
  | None =>
      let user :=
        User.mk (uuid4 env 0)
                (UserCreate.email user_data)
                (UserCreate.name user_data)
                (UserCreate.role user_data)
                (Some (hashpw env (UserCreate.password user_data)))
                None true (utcnow env 0) in
      insert_one db_users user ;;;
      let token :=
        jwt_encode env (User.id user) (User.email user) (utcnow env 1) in
      ret (mkAuthResponse token (User.id user) (User.email user)
                          (User.name user) (User.role user))
  end.

(** ** Work order routes *)

(** The query [get_work_orders] and [get_dashboard_stats] build from the
    caller's role. *)
Definition role_query (current_user : User.t) : Query :=
  match User.role current_user with
  | CLIENT => [client_id_is (User.id current_user)]
  | TECHNICIAN => [assigned_to_id_is (User.id current_user)]
  | _ => []
  end.

Definition get_work_orders (current_user : User.t)
  : Handler (list WorkOrder.t) :=
  let query := role_query current_user in
  cursor <- find db_work_orders (matches query) ;;
  ret (to_list 1000 (sort_desc WorkOrder.created_at cursor)).

Definition create_work_order (env : Env) (wo_data : WorkOrderCreate.t)
    (user : User.t) : Handler WorkOrder.t :=
  current_user <- require_role [ADMIN; SUPERVISOR] user ;;
  count <- count_documents db_work_orders (fun _ => true) ;;
  let request_id := ("WO-" ++ format_05d (count + 1))%string in
  client <- find_one db_users (user_id_is (WorkOrderCreate.client_id wo_data)) ;;
  match client with
  | None => raise (mkHTTPException 404 "Client not found")
  | Some client =>
      assigned_to_name <-
        match WorkOrderCreate.assigned_to_id wo_data with
        | Some a =>
            if truthy (Some a)
            then tech <- find_one db_users (user_id_is a) ;;
                 ret (option_map User.name tech)
            else ret None
        | None => ret None
        end ;;
      let work_order :=
        WorkOrder.mk
          (uuid4 env 0)
          request_id
          (WorkOrderCreate.title wo_data)
          (WorkOrderCreate.description wo_data)
          PENDING
          (WorkOrderCreate.request_type wo_data)
          (WorkOrderCreate.sla_type wo_data)
          (WorkOrderCreate.location wo_data)
          (WorkOrderCreate.department wo_data)
          (WorkOrderCreate.client_id wo_data)
          (User.name client)
          (WorkOrderCreate.assigned_to_id wo_data)
          assigned_to_name
          (WorkOrderCreate.start_date wo_data)
          (WorkOrderCreate.due_date wo_data)
          None
          (WorkOrderCreate.duration_days wo_data)
          false
          0%float
          (User.id current_user)
          (User.name current_user)
          (utcnow env 0)
          (utcnow env 1) in
      let link := Some ("/work-orders/" ++ WorkOrder.id work_order)%string in
      insert_one db_work_orders work_order ;;;
      create_notification env 1 2
        (WorkOrderCreate.client_id wo_data)
        "New Work Order"
        ("Work order " ++ request_id ++ " has been created")%string
        link ;;;
      match WorkOrderCreate.assigned_to_id wo_data with
      | Some a =>
          if truthy (Some a)
          then create_notification env 2 3
                 a
                 "New Assignment"
                 ("You have been assigned to work order " ++ request_id)%string
                 link
          else ret tt
      | None => ret tt
      end ;;;
      ret work_order
  end.

(** The [update_data] dictionary of [update_work_order]: the fields of the
    body that are not [None], plus the two keys the handler adds.  A field
    equal to [None] is a key that is absent. *)
Module UpdateData.
Record t := mk {
    body : WorkOrderUpdate.t;
    assigned_to_name : option string;
    updated_at : option string
  }.
End UpdateData.

Definition or_keep {A} (new : option A) (old : A) : A :=
  match new with
  | Some v => v
  | None => old
  end.

Definition or_keep_opt {A} (new : option A) (old : option A) : option A :=
  match new with
  | Some v => Some v
  | None => old
  end.

(** [{"$set": update_data}] on a work order document. *)
Definition set_fields (u : UpdateData.t) (w : WorkOrder.t) : WorkOrder.t :=
  let b := UpdateData.body u in
  WorkOrder.mk
    (WorkOrder.id w)
    (WorkOrder.request_id w)
    (or_keep (WorkOrderUpdate.title b) (WorkOrder.title w))
    (or_keep (WorkOrderUpdate.description b) (WorkOrder.description w))
    (or_keep (WorkOrderUpdate.status b) (WorkOrder.status w))
    (or_keep (WorkOrderUpdate.request_type b) (WorkOrder.request_type w))
    (or_keep (WorkOrderUpdate.sla_type b) (WorkOrder.sla_type w))
    (or_keep (WorkOrderUpdate.location b) (WorkOrder.location w))
    (or_keep_opt (WorkOrderUpdate.department b) (WorkOrder.department w))
    (WorkOrder.client_id w)
    (WorkOrder.client_name w)
    (or_keep_opt (WorkOrderUpdate.assigned_to_id b) (WorkOrder.assigned_to_id w))
    (or_keep_opt (UpdateData.assigned_to_name u) (WorkOrder.assigned_to_name w))
    (or_keep_opt (WorkOrderUpdate.start_date b) (WorkOrder.start_date w))
    (or_keep_opt (WorkOrderUpdate.due_date b) (WorkOrder.due_date w))
    (or_keep_opt (WorkOrderUpdate.completed_at b) (WorkOrder.completed_at w))
    (or_keep_opt (WorkOrderUpdate.duration_days b) (WorkOrder.duration_days w))
    (WorkOrder.is_delayed w)
    (or_keep (WorkOrderUpdate.total_cost b) (WorkOrder.total_cost w))
    (WorkOrder.created_by_id w)
    (WorkOrder.created_by_name w)
    (WorkOrder.created_at w)
    (or_keep (UpdateData.updated_at u) (WorkOrder.updated_at w)).

Definition update_work_order (env : Env) (work_order_id : string)
    (updates : WorkOrderUpdate.t) (current_user : User.t)
  : Handler (option WorkOrder.t) :=
  found <- find_one db_work_orders (wo_id_is work_order_id) ;;
  match found with
  | None => raise (mkHTTPException 404 "Work order not found")
  | Some work_order =>
      if role_eqb (User.role current_user) CLIENT
      then raise (mkHTTPException 403 "Clients cannot update work orders")
      else
      if role_eqb (User.role current_user) TECHNICIAN
         && opt_str_neq (WorkOrder.assigned_to_id work_order)
                        (User.id current_user)
      then raise (mkHTTPException 403
                    "You can only update your assigned work orders")
      else
        let link := Some ("/work-orders/" ++ work_order_id)%string in
        assigned_to_name <-
          match WorkOrderUpdate.assigned_to_id updates with
          | Some a =>
              if truthy (Some a)
              then
                tech <- find_one db_users (user_id_is a) ;;
                match tech with
                | Some tech =>
                    create_notification env 0 0
                      a
                      "New Assignment"
                      ("You have been assigned to work order "
                         ++ WorkOrder.request_id work_order)%string
                      link ;;;
                    ret (Some (User.name tech))
                | None => ret None
                end
              else ret None
          | None => ret None
          end ;;
        let update_data :=
          UpdateData.mk updates assigned_to_name (Some (utcnow env 1)) in
        update_one db_work_orders (wo_id_is work_order_id)
                   (set_fields update_data) ;;;
        match WorkOrderUpdate.status updates with
        | Some new_status =>
            create_notification env 1 2
              (WorkOrder.client_id work_order)
              "Work Order Updated"
              ("Work order " ++ WorkOrder.request_id work_order
                 ++ " status changed to " ++ status_value new_status)%string
              link
        | None => ret tt
        end ;;;
        updated_work_order <- find_one db_work_orders (wo_id_is work_order_id) ;;
        ret updated_work_order
  end.

Definition delete_work_order (work_order_id : string) (user : User.t)
  : Handler string :=
  current_user <- require_role [ADMIN; SUPERVISOR] user ;;
  deleted_count <- delete_one db_work_orders (wo_id_is work_order_id) ;;
  if Nat.eqb deleted_count 0
  then raise (mkHTTPException 404 "Work order not found")
  else ret "Work order deleted successfully".

(** ** Cost entries *)

Definition cost_of (work_order_id : string) (c : CostEntry.t) : bool :=
  CostEntry.work_order_id c =? work_order_id.

(** [{"$set": {"total_cost": ..., "updated_at": ...}}]. *)
Definition set_total_cost (total_cost : float) (now : string)
  : WorkOrder.t -> WorkOrder.t :=
  set_fields
    (UpdateData.mk
       (WorkOrderUpdate.mk None None None None None None None None None None
                           None None (Some total_cost))
       None (Some now)).

Definition create_cost_entry (env : Env) (work_order_id : string)
    (cost_data : CostEntryCreate.t) (user : User.t) : Handler CostEntry.t :=
  current_user <- require_role [ADMIN; SUPERVISOR; TECHNICIAN] user ;;
  work_order <- find_one db_work_orders (wo_id_is work_order_id) ;;
  match work_order with
  | None => raise (mkHTTPException 404 "Work order not found")
  | Some _ =>
      let cost_entry :=
        CostEntry.mk (uuid4 env 0)
                     work_order_id
                     (CostEntryCreate.description cost_data)
                     (CostEntryCreate.cost_type cost_data)
                     (CostEntryCreate.amount cost_data)
                     (User.id current_user)
                     (User.name current_user)
                     (utcnow env 0) in
      insert_one db_cost_entries cost_entry ;;;
      cursor <- find db_cost_entries (cost_of work_order_id) ;;
      let all_costs := to_list 1000 cursor in
      let total_cost := py_sum (map CostEntry.amount all_costs) in
      update_one db_work_orders (wo_id_is work_order_id)
                 (set_total_cost total_cost (utcnow env 1)) ;;;
      ret cost_entry
  end.

(** ** User management *)

(** The projection [{"password_hash": 0}]: the key is left out of the
    document, and the response model reads a missing key as [None]. *)
Definition without_password_hash (u : User.t) : User.t :=
  User.mk (User.id u) (User.email u) (User.name u) (User.role u)
          None (User.picture u) (User.is_active u) (User.created_at u).

Definition get_users (user : User.t) : Handler (list User.t) :=
  current_user <- require_role [ADMIN; SUPERVISOR] user ;;
  cursor <- find db_users (fun _ => true) ;;
  ret (to_list 1000 (map without_password_hash cursor)).

(** ** Dashboard *)

Record DashboardStats := mkDashboardStats {
  total_orders : nat;
  pending : nat;
  in_progress : nat;
  completed : nat;
  approved : nat;
  stats_total_cost : float;
  completion_rate : float
}.

(** The integer [0] that the handler uses for an empty scope (as the
    start of [sum] and as the rate) is written as the float [0]. *)
Definition get_dashboard_stats (current_user : User.t)
  : Handler DashboardStats :=
  let query := role_query current_user in
  total_orders <- count_documents db_work_orders (matches query) ;;
  pending <- count_documents db_work_orders
               (matches (query ++ [status_is PENDING])) ;;
  in_progress <- count_documents db_work_orders
                   (matches (query ++ [status_is IN_PROGRESS])) ;;
  completed <- count_documents db_work_orders
                 (matches (query ++ [status_is COMPLETED])) ;;
  approved <- count_documents db_work_orders
                (matches (query ++ [status_is APPROVED])) ;;
  cursor <- find db_work_orders (matches query) ;;
  let work_orders := to_list 1000 cursor in
  let total_cost := py_sum (map WorkOrder.total_cost work_orders) in
  let completion_rate :=
    if Nat.ltb 0 total_orders
    then PrimFloat.mul (py_truediv (completed + approved) total_orders)
                       100%float
    else 0%float in
  ret (mkDashboardStats total_orders pending in_progress completed approved
                        total_cost (py_round completion_rate 2)).

(** * Specification-side definitions and sample data

    The predicates the properties are stated with, and the stores and
    requests the concrete checks run on. *)

(** Three registered users (a client, an admin, a technician) and a store
    that holds them and nothing else, for the concrete checks below. *)
Definition alice : User.t :=
  User.mk "u-alice" "alice@example.com" "Alice" CLIENT (Some "$2b$12$aaaa")
          None true "2024-01-01T00:00:00+00:00".

Definition boss : User.t :=
  User.mk "u-boss" "boss@example.com" "Boss" ADMIN (Some "$2b$12$bbbb")
          None true "2024-01-01T00:00:01+00:00".

Definition tech : User.t :=
  User.mk "u-tech" "tech@example.com" "Tess" TECHNICIAN (Some "$2b$12$cccc")
          None true "2024-01-01T00:00:02+00:00".

Definition env0 : Env :=
  mkEnv (fun k => "id-" ++ format_05d k)%string
        (fun k => "2024-02-01T10:00:00." ++ format_05d k)%string
        (fun p => "$2b$12$" ++ p)%string
        (fun uid mail iat => uid ++ "." ++ mail ++ "." ++ iat)%string.

Definition db0 : Database := mkDatabase [alice; boss; tech] [] [] [].

(** The notifications a creation appends: one for the client, and one for
    the assignee when the assignee id is a non-empty string. *)
Definition creation_notices (env : Env) (wo_data : WorkOrderCreate.t)
    (w : WorkOrder.t) : list Notification.t :=
  let link := Some ("/work-orders/" ++ WorkOrder.id w)%string in
  Notification.mk (uuid4 env 1) (WorkOrderCreate.client_id wo_data)
    "New Work Order"
    ("Work order " ++ WorkOrder.request_id w ++ " has been created")%string
    link false (utcnow env 2)
  :: match WorkOrderCreate.assigned_to_id wo_data with
     | Some a =>
         if a =? ""
         then []
         else [Notification.mk (uuid4 env 2) a "New Assignment"
                 ("You have been assigned to work order "
                    ++ WorkOrder.request_id w)%string
                 link false (utcnow env 3)]
     | None => []
     end.

Definition leak_request (assignee : option string) : WorkOrderCreate.t :=
  WorkOrderCreate.mk "Leak" "Pipe leaks" PLUMBING NORMAL "B1" None
                     "u-alice" assignee None None None.

Definition set_password_hash (h : option string) (u : User.t) : User.t :=
  User.mk (User.id u) (User.email u) (User.name u) (User.role u)
          h (User.picture u) (User.is_active u) (User.created_at u).

(** [db0] with every password hash replaced. *)
Definition db0_rehashed : Database :=
  mkDatabase (map (set_password_hash (Some "$2b$12$zzzz")) (users db0)) [] [] [].

(** [db0] with accounts that hold no password hash, as the ones
    [process_google_session] creates. *)
Definition db0_google : Database :=
  mkDatabase (map (set_password_hash None) (users db0)) [] [] [].

(** The ownership predicate of the specification: a client owns the orders
    whose [client_id] is the client's id, a technician the orders assigned
    to the technician's id, an admin or a supervisor every order. *)
Definition visible_to (u : User.t) (w : WorkOrder.t) : bool :=
  match User.role u with
  | CLIENT => WorkOrder.client_id w =? User.id u
  | TECHNICIAN =>
      match WorkOrder.assigned_to_id w with
      | Some a => a =? User.id u
      | None => false
      end
  | ADMIN | SUPERVISOR => true
  end.

(** Descending order on the key, as the cursor's sort leaves it. *)
Inductive descending {A} (key : A -> string) : list A -> Prop :=
| desc_nil : descending key []
| desc_one x : descending key [x]
| desc_cons x y l :
    String.ltb (key x) (key y) = false ->
    descending key (y :: l) -> descending key (x :: y :: l).

(** A store that holds 1001 work orders, created one after the other.
    The timestamp of the [n]-th order is written as the tick [n] of a
    clock, zero-filled, so that later orders compare greater. *)
Definition numbered_order (n : nat) : WorkOrder.t :=
  WorkOrder.mk ("wo-" ++ format_05d n) ("WO-" ++ format_05d (n + 1))
    "Inspection" "Yearly inspection" PENDING OTHER NORMAL "Plant" None
    "u-alice" "Alice" None None None None None None false 0%float
    "u-boss" "Boss" (format_05d n) (format_05d n).

Definition crowded_db : Database :=
  mkDatabase [alice; boss; tech] (map numbered_order (seq 0 1001)) [] [].

(** Reading a printed number back. *)
Definition read_decimal (s : string) : option nat :=
  option_map Nat.of_uint (NilEmpty.uint_of_string s).

(** The request id the handler builds for the number [k]. *)
Definition request_id_of (k : nat) : string := ("WO-" ++ format_05d k)%string.

(** Requests served one after the other. *)
Inductive Operation :=
| Create (env : Env) (wo_data : WorkOrderCreate.t) (user : User.t)
| Delete (work_order_id : string) (user : User.t).

Definition is_create (op : Operation) : Prop :=
  match op with
  | Create _ _ _ => True
  | Delete _ _ => False
  end.

(** [run ops d] serves [ops] in order from the store [d]; it returns the
    request ids of the work orders created on the way, in order of
    creation, and the final store. *)
Fixpoint run (ops : list Operation) (d : Database) : list string * Database :=
  match ops with
  | [] => ([], d)
  | Create env wo_data user :: ops' =>
      match create_work_order env wo_data user d with
      | (inr w, d') =>
          let (ids, d'') := run ops' d' in (WorkOrder.request_id w :: ids, d'')
      | (inl _, d') => run ops' d'
      end
  | Delete work_order_id user :: ops' =>
      run ops' (snd (delete_work_order work_order_id user d))
  end.

(** The inputs of the [r]-th request of a run. *)
Definition env_at (r : nat) : Env :=
  mkEnv (fun k => "id-" ++ format_05d r ++ "-" ++ format_05d k)%string
        (fun k => "2024-02-01T10:" ++ format_05d r ++ "." ++ format_05d k)%string
        (fun p => "$2b$12$" ++ p)%string
        (fun uid mail iat => uid ++ "." ++ mail ++ "." ++ iat)%string.

Definition three_creations : list Operation :=
  [Create (env_at 0) (leak_request None) boss;
   Create (env_at 1) (leak_request (Some "u-tech")) boss;
   Create (env_at 2) (leak_request None) boss].

(** Two creations, the deletion of the first order, and a third creation. *)
Definition create_delete_create : list Operation :=
  [Create (env_at 0) (leak_request None) boss;
   Create (env_at 1) (leak_request None) boss;
   Delete (uuid4 (env_at 0) 0) boss;
   Create (env_at 2) (leak_request None) boss].

(** The user record the handler looks up for a new assignee: none when the
    body has no assignee id or an empty one. *)
Definition assignee_lookup (updates : WorkOrderUpdate.t) (d : Database)
  : option User.t :=
  match WorkOrderUpdate.assigned_to_id updates with
  | Some a => if a =? "" then None else List.find (user_id_is a) (users d)
  | None => None
  end.

(** The [update_data] the handler ends up writing. *)
Definition update_data_of (env : Env) (updates : WorkOrderUpdate.t)
    (d : Database) : UpdateData.t :=
  UpdateData.mk updates (option_map User.name (assignee_lookup updates d))
                (Some (utcnow env 1)).

Definition assignment_notice (env : Env) (work_order_id : string)
    (updates : WorkOrderUpdate.t) (w : WorkOrder.t) (d : Database)
  : list Notification.t :=
  match WorkOrderUpdate.assigned_to_id updates, assignee_lookup updates d with
  | Some a, Some _ =>
      [Notification.mk (uuid4 env 0) a "New Assignment"
         ("You have been assigned to work order " ++ WorkOrder.request_id w)%string
         (Some ("/work-orders/" ++ work_order_id)%string) false (utcnow env 0)]
  | _, _ => []
  end.

Definition status_notice (env : Env) (work_order_id : string)
    (updates : WorkOrderUpdate.t) (w : WorkOrder.t) : list Notification.t :=
  match WorkOrderUpdate.status updates with
  | Some new_status =>
      [Notification.mk (uuid4 env 1) (WorkOrder.client_id w) "Work Order Updated"
         ("Work order " ++ WorkOrder.request_id w ++ " status changed to "
            ++ status_value new_status)%string
         (Some ("/work-orders/" ++ work_order_id)%string) false (utcnow env 2)]
  | None => []
  end.

(** The permission test of [update_work_order] on the stored order. *)
Definition may_update (u : User.t) (w : WorkOrder.t) : Prop :=
  User.role u <> CLIENT
  /\ (User.role u = TECHNICIAN ->
      WorkOrder.assigned_to_id w = Some (User.id u)).

(** A stored order, pending, of client Alice and assigned to Tess. *)
Definition leak_order : WorkOrder.t :=
  WorkOrder.mk "wo-1" "WO-00001" "Leak" "Pipe leaks" PENDING PLUMBING NORMAL
    "B1" None "u-alice" "Alice" (Some "u-tech") (Some "Tess") None None None
    None false 0%float "u-boss" "Boss"
    "2024-01-15T09:00:00+00:00" "2024-01-15T09:00:00+00:00".

Definition db1 : Database := mkDatabase [alice; boss; tech] [leak_order] [] [].

(** The body [{"status": "pending"}]. *)
Definition status_pending_again : WorkOrderUpdate.t :=
  WorkOrderUpdate.mk None None (Some PENDING) None None None None None None
                     None None None None.

Definition cost_line (n : nat) (work_order_id : string) (amount : float)
  : CostEntry.t :=
  CostEntry.mk ("cost-" ++ format_05d n) work_order_id "Parts" "material"
               amount "u-tech" "Tess" ("2024-01-16T09:00:00." ++ format_05d n).

(** [db1] after the costs 10.0 and 25.5 were logged on the order. *)
Definition db2 : Database :=
  mkDatabase [alice; boss; tech]
    [set_total_cost 35.5%float "2024-01-16T09:00:00.00001" leak_order]
    [cost_line 0 "wo-1" 10%float; cost_line 1 "wo-1" 25.5%float] [].

(** The body [{"total_cost": 1.0}]. *)
Definition total_cost_one : WorkOrderUpdate.t :=
  WorkOrderUpdate.mk None None None None None None None None None None None
                     None (Some 1%float).

Definition log_cost (amount : float) : CostEntryCreate.t :=
  CostEntryCreate.mk "wo-1" "Parts" "material" amount.

Definition stored_total (work_order_id : string) (d : Database) : option float :=
  option_map WorkOrder.total_cost
             (List.find (wo_id_is work_order_id) (work_orders d)).

(** A store in which the order "wo-1" already has 1000 cost entries of
    1.0 each, and the total that goes with them. *)
Definition costly_db : Database :=
  mkDatabase [alice; boss; tech]
    [set_total_cost 1000%float "2024-01-16T09:00:00.00999" leak_order]
    (map (fun n => cost_line n "wo-1" 1%float) (seq 0 1000)) [].

Definition after_1001st_entry : (HTTPException + CostEntry.t) * Database :=
  create_cost_entry env0 "wo-1" (log_cost 1%float) tech costly_db.

Definition has_status (st : WorkOrderStatus) (w : WorkOrder.t) : bool :=
  status_eqb (WorkOrder.status w) st.

(** The number of orders of a list that are in a given status. *)
Definition count_status (st : WorkOrderStatus) (l : list WorkOrder.t) : nat :=
  List.length (filter (has_status st) l).

(** The rate the specification gives: 0 for an empty scope, else
    (completed + approved) / total * 100 rounded to 2 decimals. *)
Definition completion_rate_of (scoped : list WorkOrder.t) : float :=
  match List.length scoped with
  | O => 0%float
  | S _ =>
      py_round
        (PrimFloat.mul
           (py_truediv (count_status COMPLETED scoped
                        + count_status APPROVED scoped)
                       (List.length scoped))
           100%float)
        2
  end.

(** The binary64 number a decimal with two places denotes: [m] hundredths
    is the integer [m] (exactly a float below [2 ^ 53]) divided by 100,
    correctly rounded. *)
Definition hundredths (m : Z) : float :=
  PrimFloat.div (PrimFloat.of_uint63 (Uint63.of_Z m)) 100%float.

(** What a shift record knows of the exact value [N / D]: the integer
    part, whether the rest is at least a half, and whether it is neither
    nothing nor exactly a half. *)
Definition shr_inv (N D : Z) (mrs : shr_record) : Prop :=
  (0 < D /\ 0 <= N
   /\ shr_m mrs = N / D
   /\ shr_r mrs = (D <=? 2 * (N mod D))
   /\ shr_s mrs = negb (N mod D =? 0) && negb (2 * (N mod D) =? D))%Z.

(** Three orders of one client: one completed, one approved, one pending. *)
Definition order_in (n : nat) (st : WorkOrderStatus) : WorkOrder.t :=
  WorkOrder.mk ("wo-" ++ format_05d n) (request_id_of (n + 1))
    "Inspection" "Yearly inspection" st OTHER NORMAL "Plant" None
    "u-alice" "Alice" (Some "u-tech") (Some "Tess") None None None None false
    0%float "u-boss" "Boss" (format_05d n) (format_05d n).

Definition db3 : Database :=
  mkDatabase [alice; boss; tech]
    [order_in 0 COMPLETED; order_in 1 APPROVED; order_in 2 PENDING] [] [].

(** * The other routes over the same collections *)

Module UserLogin.
Record t := mk {
  email : string;
  password : string
}.
End UserLogin.

Record LoginResponse := mkLoginResponse {
  login_token : string;
  login_id : string;
  login_email : string;
  login_name : string;
  login_role : UserRole;
  login_picture : option string
}.

(** [login].  [verify_password] is the helper of that name
    ([bcrypt.checkpw] on the password and the stored hash): [Some b] when
    the check returns [b], [None] when it raises (a stored hash or a
    password the library rejects).  [login] does not catch that exception,
    and the server then answers 500. *)
Definition login (env : Env)
    (verify_password : string -> string -> option bool)
    (credentials : UserLogin.t) : Handler LoginResponse :=
  found <- find_one db_users
             (fun u => User.email u =? UserLogin.email credentials) ;;
  match found with
  | None => raise (mkHTTPException 401 "Invalid credentials")
  | Some user_data =>
      match User.password_hash user_data with
      | None => raise (mkHTTPException 401 "Invalid credentials")
      | Some hashed =>
          if negb (truthy (Some hashed))
          then raise (mkHTTPException 401 "Invalid credentials")
          else
          match verify_password (UserLogin.password credentials) hashed with
          | None => raise (mkHTTPException 500 "Internal Server Error")
          | Some verified =>
              if negb verified
              then raise (mkHTTPException 401 "Invalid credentials")
              else
              if negb (User.is_active user_data)
              then raise (mkHTTPException 401 "Account is inactive")
              else
                let token :=
                  jwt_encode env (User.id user_data) (User.email user_data)
                             (utcnow env 0) in
                ret (mkLoginResponse token (User.id user_data)
                       (User.email user_data) (User.name user_data)
                       (User.role user_data) (User.picture user_data))
          end
      end
  end.

Definition get_work_order (work_order_id : string) (current_user : User.t)
  : Handler WorkOrder.t :=
  found <- find_one db_work_orders (wo_id_is work_order_id) ;;
  match found with
  | None => raise (mkHTTPException 404 "Work order not found")
  | Some work_order =>
      if role_eqb (User.role current_user) CLIENT
         && negb (WorkOrder.client_id work_order =? User.id current_user)
      then raise (mkHTTPException 403 "Access denied")
      else
      if role_eqb (User.role current_user) TECHNICIAN
         && opt_str_neq (WorkOrder.assigned_to_id work_order)
                        (User.id current_user)
      then raise (mkHTTPException 403 "Access denied")
      else ret work_order
  end.

Definition get_cost_entries (work_order_id : string) (current_user : User.t)
  : Handler (list CostEntry.t) :=
  cursor <- find db_cost_entries (cost_of work_order_id) ;;
  ret (to_list 100 (sort_desc CostEntry.created_at cursor)).

(** [{"$set": {"is_active": False}}]. *)
Definition set_inactive (u : User.t) : User.t :=
  User.mk (User.id u) (User.email u) (User.name u) (User.role u)
          (User.password_hash u) (User.picture u) false (User.created_at u).

Definition deactivate_user (user_id : string) (user : User.t)
  : Handler string :=
  current_user <- require_role [ADMIN] user ;;
  matched_count <- update_one db_users (user_id_is user_id) set_inactive ;;
  if Nat.eqb matched_count 0
  then raise (mkHTTPException 404 "User not found")
  else ret "User deactivated successfully".

(** [update_many] changes every match and reports [matched_count]. *)
Definition update_many {A} (c : Collection A) (q : A -> bool) (f : A -> A)
  : Handler nat :=
  fun d =>
    (inr (List.length (filter q (docs c d))),
     set_docs c (map (fun x => if q x then f x else x) (docs c d)) d).

(** [cursor.limit(n)]. *)
Definition limit {A} (n : nat) (cursor : list A) : list A := firstn n cursor.

Definition notification_of (user_id : string) (n : Notification.t) : bool :=
  Notification.user_id n =? user_id.

(** [{"$set": {"is_read": True}}]. *)
Definition set_read (n : Notification.t) : Notification.t :=
  Notification.mk (Notification.id n) (Notification.user_id n)
    (Notification.title n) (Notification.message n) (Notification.link n)
    true (Notification.created_at n).

Definition get_notifications (current_user : User.t)
  : Handler (list Notification.t) :=
  cursor <- find db_notifications (notification_of (User.id current_user)) ;;
  ret (to_list 50 (limit 50 (sort_desc Notification.created_at cursor))).

Definition mark_notification_read (notification_id : string)
    (current_user : User.t) : Handler string :=
  matched_count <-
    update_one db_notifications
      (fun n => (Notification.id n =? notification_id)
                && (Notification.user_id n =? User.id current_user))
      set_read ;;
  if Nat.eqb matched_count 0
  then raise (mkHTTPException 404 "Notification not found")
  else ret "Notification marked as read".

Definition mark_all_notifications_read (current_user : User.t)
  : Handler string :=
  update_many db_notifications (notification_of (User.id current_user))
              set_read ;;;
  ret "All notifications marked as read".

(** * The routes over the remaining collections *)

Module SessionData.
Record t := mk {
  id : string;
  user_id : string;
  session_token : string;
  expires_at : string;
  created_at : string
}.
End SessionData.

Module Comment.
Record t := mk {
  id : string;
  work_order_id : string;
  user_id : string;
  user_name : string;
  user_role : UserRole;
  content : string;
  created_at : string
}.
End Comment.

Module CommentCreate.
Record t := mk {
  work_order_id : string;
  content : string
}.
End CommentCreate.

Module PreventiveMaintenance.
Record t := mk {
  id : string;
  title : string;
  description : string;
  location : string;
  frequency : string;
  next_due_date : string;
  assigned_to_id : option string;
  assigned_to_name : option string;
  is_active : bool;
  created_at : string
}.
End PreventiveMaintenance.

Module PreventiveMaintenanceCreate.
Record t := mk {
  title : string;
  description : string;
  location : string;
  frequency : string;
  next_due_date : string;
  assigned_to_id : option string
}.
End PreventiveMaintenanceCreate.

Module CompanySettings.
Record t := mk {
  id : string;
  company_name : string;
  logo_url : option string;
  primary_color : string;
  secondary_color : string;
  timezone : string;
  updated_at : string
}.
End CompanySettings.

Module CompanySettingsUpdate.
Record t := mk {
  company_name : option string;
  logo_url : option string;
  primary_color : option string;
  secondary_color : option string;
  timezone : option string
}.
End CompanySettingsUpdate.

(** The whole document store: the four collections of [Database] and the
    other four. *)
Record Store := mkStore {
  core : Database;
  comments : list Comment.t;
  sessions : list SessionData.t;
  preventive_maintenance : list PreventiveMaintenance.t;
  company_settings : list CompanySettings.t
}.

Definition set_core (d : Database) (s : Store) : Store :=
  mkStore d (comments s) (sessions s) (preventive_maintenance s)
          (company_settings s).

(** A route over the whole store: the same monad as [Handler], on
    [Store]. *)
Definition Route (A : Type) : Type :=
  Store -> (HTTPException + A) * Store.

Definition route_ret {A} (a : A) : Route A := fun s => (inr a, s).

Definition route_raise {A} (e : HTTPException) : Route A :=
  fun s => (inl e, s).

Definition route_bind {A B} (m : Route A) (k : A -> Route B) : Route B :=
  fun s =>
    match m s with
    | (inl e, s') => (inl e, s')
    | (inr a, s') => k a s'
    end.

(** A handler on the four collections of [Database], run inside the whole
    store. *)
Definition on_core {A} (h : Handler A) : Route A :=
  fun s => let (r, d') := h (core s) in (r, set_core d' s).

Declare Scope route_scope.
Delimit Scope route_scope with route.
Notation "x <- m ;; k" := (route_bind m (fun x => k))
  (at level 61, m at next level, right associativity) : route_scope.
Notation "m ;;; k" := (route_bind m (fun _ => k))
  (at level 61, right associativity) : route_scope.

Record StoreCollection (A : Type) := mkStoreCollection {
  sdocs : Store -> list A;
  set_sdocs : list A -> Store -> Store
}.
Arguments sdocs {A} _ _.
Arguments set_sdocs {A} _ _ _.

Definition db_comments : StoreCollection Comment.t :=
  mkStoreCollection _ comments
    (fun l s => mkStore (core s) l (sessions s) (preventive_maintenance s)
                        (company_settings s)).

Definition db_sessions : StoreCollection SessionData.t :=
  mkStoreCollection _ sessions
    (fun l s => mkStore (core s) (comments s) l (preventive_maintenance s)
                        (company_settings s)).

Definition db_preventive_maintenance
  : StoreCollection PreventiveMaintenance.t :=
  mkStoreCollection _ preventive_maintenance
    (fun l s => mkStore (core s) (comments s) (sessions s) l
                        (company_settings s)).

Definition db_company_settings : StoreCollection CompanySettings.t :=
  mkStoreCollection _ company_settings
    (fun l s => mkStore (core s) (comments s) (sessions s)
                        (preventive_maintenance s) l).

(** The collection operations on these collections. *)
Definition store_find_one {A} (c : StoreCollection A) (q : A -> bool)
  : Route (option A) :=
  fun s => (inr (List.find q (sdocs c s)), s).

Definition store_find {A} (c : StoreCollection A) (q : A -> bool)
  : Route (list A) :=
  fun s => (inr (filter q (sdocs c s)), s).

Definition store_insert_one {A} (c : StoreCollection A) (doc : A)
  : Route unit :=
  fun s => (inr tt, set_sdocs c (sdocs c s ++ [doc]) s).

(** [delete_many] removes every match and reports [deleted_count]. *)
Definition store_delete_many {A} (c : StoreCollection A) (q : A -> bool)
  : Route nat :=
  fun s =>
    (inr (List.length (filter q (sdocs c s))),
     set_sdocs c (filter (fun x => negb (q x)) (sdocs c s)) s).

(** [update_one(..., upsert=True)]: the first match is changed; when there
    is none, the document [fresh] (the query's fields and the fields set)
    is inserted. *)
Definition store_update_one_upsert {A} (c : StoreCollection A)
    (q : A -> bool) (f : A -> A) (fresh : A) : Route unit :=
  fun s =>
    (inr tt,
     set_sdocs c
       (if existsb q (sdocs c s)
        then update_first q f (sdocs c s)
        else sdocs c s ++ [fresh]) s).

(** [cursor.sort(key, 1)]: ascending on a string key, equal keys in
    natural order. *)
Fixpoint insert_asc {A} (key : A -> string) (x : A) (l : list A) : list A :=
  match l with
  | [] => [x]
  | y :: l' =>
      if String.ltb (key y) (key x)
      then y :: insert_asc key x l'
      else x :: l
  end.

Definition sort_asc {A} (key : A -> string) (cursor : list A) : list A :=
  fold_right (insert_asc key) [] cursor.

(** ** Who is calling *)

(** What a request carries for authentication: the [session_token] cookie
    and the [Authorization] header. *)
Record Request := mkRequest {
  cookie_session_token : option string;
  header_authorization : option string
}.

(** The outcome of [jwt.decode] on a token: the payload's [user_id] (which
    may be missing), the exception [jwt.ExpiredSignatureError], or another
    of the library's exceptions for a token it rejects (a bad signature, a
    malformed token), all of them [jwt.InvalidTokenError]s. *)
Inductive JwtDecoded :=
| Payload (user_id : option string)
| ExpiredSignatureError
| InvalidTokenError.

(** What authentication reads besides the store: [jwt_decode] is
    [jwt.decode] with the server's key, and [session_live e] tells whether
    the time [e] parses to is later than now. *)
Record AuthEnv := mkAuthEnv {
  jwt_decode : string -> JwtDecoded;
  session_live : string -> bool
}.

(** [decode_token].  Its second handler names [jwt.JWTError], which the
    imported [jwt] module does not define: when [jwt.decode] raises
    anything but an expiry, looking that name up raises [AttributeError]
    in the handler clause, nothing catches it, and the server answers 500
    instead of the 401 "Invalid token" the handler was written for. *)
Definition decode_token (auth : AuthEnv) (token : string)
  : HTTPException + option string :=
  match jwt_decode auth token with
  | Payload user_id => inr user_id
  | ExpiredSignatureError => inl (mkHTTPException 401 "Token has expired")
  | InvalidTokenError => inl (mkHTTPException 500 "Internal Server Error")
  end.

(** [s.split(" ")]. *)
Fixpoint split_space (s : string) : list string :=
  match s with
  | EmptyString => [""]
  | String c s' =>
      if Ascii.eqb c " "
      then "" :: split_space s'
      else match split_space s' with
           | [] => [String c ""]
           | w :: ws => String c w :: ws
           end
  end.

(** [s.startswith("Bearer ")]. *)
Definition starts_with_bearer (s : string) : bool :=
  String.prefix "Bearer " s.

(** The user a stored document stands for, if it is an active one:
    [user_data and user_data.get('is_active')]. *)
Definition active_user (found : option User.t) : option User.t :=
  match found with
  | Some u => if User.is_active u then Some u else None
  | None => None
  end.

(** The cookie branch of [get_current_user]: the user of a stored, live
    session with that token, when that user is active. *)
Definition user_of_cookie (auth : AuthEnv) (request : Request)
  : Route (option User.t) :=
  (match cookie_session_token request with
   | Some session_token =>
       if truthy (Some session_token)
       then
         session <- store_find_one db_sessions
                      (fun x => SessionData.session_token x =? session_token) ;;
         match session with
         | Some session =>
             if session_live auth (SessionData.expires_at session)
             then
               user_data <- on_core (find_one db_users
                              (user_id_is (SessionData.user_id session))) ;;
               route_ret (active_user user_data)
             else route_ret None
         | None => route_ret None
         end
       else route_ret None
   | None => route_ret None
   end)%route.

Definition get_current_user (auth : AuthEnv) (request : Request)
  : Route User.t :=
  (from_cookie <- user_of_cookie auth request ;;
   match from_cookie with
   | Some user => route_ret user
   | None =>
       from_header <-
         match header_authorization request with
         | Some auth_header =>
             if truthy (Some auth_header) && starts_with_bearer auth_header
             then
               let token := nth 1 (split_space auth_header) "" in
               match decode_token auth token with
               | inl e => route_raise e
               | inr payload_user_id =>
                   match payload_user_id with
                   | Some user_id =>
                       user_data <- on_core (find_one db_users
                                               (user_id_is user_id)) ;;
                       route_ret (active_user user_data)
                   | None => route_ret None
                   end
               end
             else route_ret None
         | None => route_ret None
         end ;;
       match from_header with
       | Some user => route_ret user
       | None => route_raise (mkHTTPException 401 "Not authenticated")
       end
   end)%route.


(** ** Comments *)

Definition comment_of (work_order_id : string) (c : Comment.t) : bool :=
  Comment.work_order_id c =? work_order_id.

Definition get_comments (work_order_id : string) (current_user : User.t)
  : Route (list Comment.t) :=
  (cursor <- store_find db_comments (comment_of work_order_id) ;;
   route_ret (to_list 100 (sort_desc Comment.created_at cursor)))%route.

Definition create_comment (env : Env) (work_order_id : string)
    (comment_data : CommentCreate.t) (current_user : User.t)
  : Route Comment.t :=
  (work_order <- on_core (find_one db_work_orders (wo_id_is work_order_id)) ;;
   match work_order with
   | None => route_raise (mkHTTPException 404 "Work order not found")
   | Some _ =>
       let comment :=
         Comment.mk (uuid4 env 0) work_order_id (User.id current_user)
                    (User.name current_user) (User.role current_user)
                    (CommentCreate.content comment_data) (utcnow env 0) in
       store_insert_one db_comments comment ;;;
       route_ret comment
   end)%route.

(** ** Preventive maintenance *)

Definition get_preventive_maintenance (user : User.t)
  : Route (list PreventiveMaintenance.t) :=
  (current_user <- on_core (require_role [ADMIN; SUPERVISOR] user) ;;
   cursor <- store_find db_preventive_maintenance (fun _ => true) ;;
   route_ret
     (to_list 1000 (sort_asc PreventiveMaintenance.next_due_date cursor)))%route.

Definition create_preventive_maintenance (env : Env)
    (pm_data : PreventiveMaintenanceCreate.t) (user : User.t)
  : Route PreventiveMaintenance.t :=
  (current_user <- on_core (require_role [ADMIN; SUPERVISOR] user) ;;
   assigned_to_name <-
     match PreventiveMaintenanceCreate.assigned_to_id pm_data with
     | Some a =>
         if truthy (Some a)
         then tech <- on_core (find_one db_users (user_id_is a)) ;;
              route_ret (option_map User.name tech)
         else route_ret None
     | None => route_ret None
     end ;;
   let pm :=
     PreventiveMaintenance.mk
       (uuid4 env 0)
       (PreventiveMaintenanceCreate.title pm_data)
       (PreventiveMaintenanceCreate.description pm_data)
       (PreventiveMaintenanceCreate.location pm_data)
       (PreventiveMaintenanceCreate.frequency pm_data)
       (PreventiveMaintenanceCreate.next_due_date pm_data)
       (PreventiveMaintenanceCreate.assigned_to_id pm_data)
       assigned_to_name
       true
       (utcnow env 0) in
   store_insert_one db_preventive_maintenance pm ;;;
   match PreventiveMaintenanceCreate.assigned_to_id pm_data with
   | Some a =>
       if truthy (Some a)
       then on_core
              (create_notification env 1 1 a
                 "New Preventive Maintenance Task"
                 ("You have been assigned to: "
                    ++ PreventiveMaintenanceCreate.title pm_data)%string
                 (Some "/preventive-maintenance"))
       else route_ret tt
   | None => route_ret tt
   end ;;;
   route_ret pm)%route.

(** ** Company settings *)

(** [CompanySettings()] built at the time [now]. *)
Definition default_settings (now : string) : CompanySettings.t :=
  CompanySettings.mk "company_settings" "My Company" None "#3b82f6"
                     "#10b981" "UTC" now.

Definition is_company_settings (c : CompanySettings.t) : bool :=
  CompanySettings.id c =? "company_settings".

Definition get_settings (env : Env) (current_user : User.t)
  : Route CompanySettings.t :=
  (settings <- store_find_one db_company_settings is_company_settings ;;
   match settings with
   | None =>
       let default_settings := default_settings (utcnow env 0) in
       store_insert_one db_company_settings default_settings ;;;
       route_ret default_settings
   | Some settings => route_ret settings
   end)%route.

(** [{"$set": update_data}] on the settings document, [update_data] being
    the fields of the body that are not [None] and [updated_at]. *)
Definition set_settings (updates : CompanySettingsUpdate.t) (now : string)
    (c : CompanySettings.t) : CompanySettings.t :=
  CompanySettings.mk
    (CompanySettings.id c)
    (or_keep (CompanySettingsUpdate.company_name updates)
             (CompanySettings.company_name c))
    (or_keep_opt (CompanySettingsUpdate.logo_url updates)
                 (CompanySettings.logo_url c))
    (or_keep (CompanySettingsUpdate.primary_color updates)
             (CompanySettings.primary_color c))
    (or_keep (CompanySettingsUpdate.secondary_color updates)
             (CompanySettings.secondary_color c))
    (or_keep (CompanySettingsUpdate.timezone updates)
             (CompanySettings.timezone c))
    now.

(** [update_settings].  The document an upsert inserts holds the id and
    the fields set; a key it lacks is read back through the response model
    as the field's default, which is what the record holds for it. *)
Definition update_settings (env : Env) (updates : CompanySettingsUpdate.t)
    (user : User.t) : Route string :=
  (current_user <- on_core (require_role [ADMIN] user) ;;
   store_update_one_upsert db_company_settings is_company_settings
     (set_settings updates (utcnow env 0))
     (set_settings updates (utcnow env 0) (default_settings (utcnow env 0))) ;;;
   route_ret "Settings updated successfully")%route.

(** ** Sample data for the other routes *)

(** A second client. *)
Definition bob : User.t :=
  User.mk "u-bob" "bob@example.com" "Bob" CLIENT (Some "$2b$12$dddd")
          None true "2024-01-01T00:00:03+00:00".

(** A second technician, to whom no sample order is assigned. *)
Definition tom : User.t :=
  User.mk "u-tom" "tom@example.com" "Tom" TECHNICIAN (Some "$2b$12$eeee")
          None true "2024-01-01T00:00:04+00:00".

(** The user the cookie of a request stands for in a store: the active
    user of the first live session stored under the cookie's token. *)
Definition cookie_user (auth : AuthEnv) (request : Request) (s : Store)
  : option User.t :=
  match cookie_session_token request with
  | Some t =>
      if t =? "" then None
      else
        match List.find (fun x => SessionData.session_token x =? t)
                        (sessions s) with
        | Some session =>
            if session_live auth (SessionData.expires_at session)
            then active_user
                   (List.find (user_id_is (SessionData.user_id session))
                              (users (core s)))
            else None
        | None => None
        end
  | None => None
  end.

(** The token a request presents as bearer, if any. *)
Definition bearer_token (request : Request) : option string :=
  match header_authorization request with
  | Some h =>
      if negb (h =? "") && starts_with_bearer h
      then Some (nth 1 (split_space h) "")
      else None
  | None => None
  end.

Fixpoint has_space (s : string) : bool :=
  match s with
  | EmptyString => false
  | String c s' => Ascii.eqb c " " || has_space s'
  end.

(** Ascending order on the key, as the cursor's sort leaves it. *)
Inductive ascending {A} (key : A -> string) : list A -> Prop :=
| asc_nil : ascending key []
| asc_one x : ascending key [x]
| asc_cons x y l :
    String.ltb (key y) (key x) = false ->
    ascending key (y :: l) -> ascending key (x :: y :: l).

Definition empty_store (d : Database) : Store := mkStore d [] [] [] [].

(** A session of Alice, and a store that holds it. *)
Definition alice_session : SessionData.t :=
  SessionData.mk "s-1" "u-alice" "tok-alice" "2024-02-08T10:00:00+00:00"
                 "2024-02-01T10:00:00+00:00".

Definition store1 : Store := mkStore db1 [] [alice_session] [] [].

(** A decoder that reads the user id in front of the first dot of a token,
    and a clock before every expiry. *)
Fixpoint before_dot (s : string) : string :=
  match s with
  | EmptyString => ""
  | String c s' => if Ascii.eqb c "." then "" else String c (before_dot s')
  end.

Definition auth0 : AuthEnv :=
  mkAuthEnv (fun token => Payload (Some (before_dot token))) (fun _ => true).


Definition email_is (e : string) (u : User.t) : bool := User.email u =? e.

Definition same_text (a b : string) : bool := a =? b.

Definition carol_signup : UserCreate.t :=
  UserCreate.mk "carol@example.com" "Carol" "s3cret" ADMIN.

Definition is_own_notification (notification_id : string) (u : User.t)
    (n : Notification.t) : bool :=
  (Notification.id n =? notification_id)
  && (Notification.user_id n =? User.id u).

(** What [login] answers to Alice under [env0]. *)
Definition alice_login : LoginResponse :=
  mkLoginResponse
    (jwt_encode env0 "u-alice" "alice@example.com" (utcnow env0 0))
    "u-alice" "alice@example.com" "Alice" CLIENT None.

(** The body [{"company_name": "Acme Facilities"}]. *)
Definition rename_company : CompanySettingsUpdate.t :=
  CompanySettingsUpdate.mk (Some "Acme Facilities") None None None None.

(** A body that sets the time zone only. *)
Definition move_to_dubai : CompanySettingsUpdate.t :=
  CompanySettingsUpdate.mk None None None None (Some "Asia/Dubai").

(** A yearly task for Tess. *)
Definition boiler_check : PreventiveMaintenanceCreate.t :=
  PreventiveMaintenanceCreate.mk "Boiler check" "Check the boiler" "Plant"
    "yearly" "2024-06-01" (Some "u-tech").

(** The body [{"assigned_to_id": a}]. *)
Definition reassign_to (a : string) : WorkOrderUpdate.t :=
  WorkOrderUpdate.mk None None None None None None None (Some a) None None
                     None None None.

(** * Properties *)

(** Unfolds the monad and the collection operations, leaving the tests of
    the handler in place. *)
Ltac run_handler :=
  cbv beta iota zeta delta
    [bind ret raise find_one find count_documents insert_one update_one
     delete_one create_notification docs set_docs
     db_users db_work_orders db_cost_entries db_notifications];
  cbn [users work_orders cost_entries notifications fst snd].

(** ** Basic facts on the collection operations *)

Lemma role_eqb_eq (a b : UserRole) : role_eqb a b = true <-> a = b.
Proof. destruct a, b; simpl; split; congruence. Qed.

Lemma find_hit {A} (q : A -> bool) (l : list A) (x : A) :
  In x l -> q x = true -> exists y, List.find q l = Some y.
Proof.
  intros Hin Hq.
  destruct (List.find q l) as [y|] eqn:E.
  - now exists y.
  - apply (find_none q l E) in Hin. congruence.
Qed.

Lemma find_existsb {A} (q : A -> bool) (l : list A) :
  existsb q l = match List.find q l with Some _ => true | None => false end.
Proof.
  induction l as [|x l IH]; simpl; [reflexivity|].
  destruct (q x); simpl; [reflexivity | exact IH].
Qed.

Lemma find_update_first {A} (q : A -> bool) (f : A -> A) (l : list A) (w : A) :
  (forall x, q (f x) = q x) ->
  List.find q l = Some w ->
  List.find q (update_first q f l) = Some (f w).
Proof.
  intros Hq. induction l as [|x l IH]; simpl; [discriminate|].
  destruct (q x) eqn:Ex; simpl.
  - intros [= <-]. now rewrite Hq, Ex.
  - intros Hf. rewrite Ex. auto.
Qed.

Lemma in_to_list {A} (n : nat) (l : list A) (x : A) :
  In x (to_list n l) -> In x l.
Proof.
  unfold to_list. intros H. rewrite <- (firstn_skipn n l).
  apply in_or_app. now left.
Qed.

(** ** The role gate *)

Lemma require_role_denied (allowed : list UserRole) (u : User.t) (d : Database) :
  existsb (role_eqb (User.role u)) allowed = false ->
  require_role allowed u d =
  (inl (mkHTTPException 403 "Insufficient permissions"), d).
Proof. intros H. unfold require_role. now rewrite H. Qed.

(** ** Registration with a used email *)

(** C7.  When some stored user already has the email of the registration
    request, [register] raises the duplicate-email error (status 400,
    "Email already registered": the error the specification calls
    Conflict), the store is exactly the one it started from, and no
    response carrying a token is returned. *)
Theorem register_duplicate_email
    (env : Env) (user_data : UserCreate.t) (d : Database) :
  (exists u, In u (users d) /\ User.email u = UserCreate.email user_data) ->
  register env user_data d =
    (inl (mkHTTPException 400 "Email already registered"), d)
  /\ (forall r d', register env user_data d <> (inr r, d')).
Proof.
  intros [u [Hin He]].
  assert (E : register env user_data d =
              (inl (mkHTTPException 400 "Email already registered"), d)).
  { unfold register, bind, find_one. simpl.
    destruct (find_hit (fun x => User.email x =? UserCreate.email user_data)
                (users d) u Hin) as [y Hy].
    - now apply String.eqb_eq.
    - now rewrite Hy. }
  split; [exact E|].
  intros r d' H. rewrite E in H. discriminate.
Qed.

Lemma register_duplicate_email_witness :
  register env0 (UserCreate.mk "alice@example.com" "Mallory" "pw" ADMIN) db0 =
    (inl (mkHTTPException 400 "Email already registered"), db0)
  /\ (forall r d',
        register env0 (UserCreate.mk "alice@example.com" "Mallory" "pw" ADMIN)
                 db0 <> (inr r, d')).
Proof.
  apply (register_duplicate_email env0
           (UserCreate.mk "alice@example.com" "Mallory" "pw" ADMIN) db0).
  exists alice. split; [simpl; auto | reflexivity].
Defined.

(** ** Clients and work-order mutations *)

(** C2 (as the code has it).  For a caller whose role is client: creating
    and deleting a work order raise 403 and leave the store as it was;
    updating raises an error and leaves the store as it was, and the error
    is 403 when a work order with the target id is stored and 404 when
    none is (the handler looks the order up before it checks the role). *)
Theorem client_cannot_mutate_work_orders
    (env : Env) (u : User.t) (d : Database)
    (wo_data : WorkOrderCreate.t) (work_order_id : string)
    (updates : WorkOrderUpdate.t) :
  User.role u = CLIENT ->
  create_work_order env wo_data u d =
    (inl (mkHTTPException 403 "Insufficient permissions"), d)
  /\ delete_work_order work_order_id u d =
    (inl (mkHTTPException 403 "Insufficient permissions"), d)
  /\ update_work_order env work_order_id updates u d =
    (inl (if existsb (wo_id_is work_order_id) (work_orders d)
          then mkHTTPException 403 "Clients cannot update work orders"
          else mkHTTPException 404 "Work order not found"), d).
Proof.
  intros Hr. repeat split.
  - unfold create_work_order, bind.
    rewrite require_role_denied; [reflexivity | now rewrite Hr].
  - unfold delete_work_order, bind.
    rewrite require_role_denied; [reflexivity | now rewrite Hr].
  - unfold update_work_order, bind, find_one. simpl.
    rewrite find_existsb.
    destruct (List.find (wo_id_is work_order_id) (work_orders d)); simpl.
    + now rewrite Hr.
    + reflexivity.
Qed.

Lemma client_cannot_mutate_work_orders_witness :
  create_work_order env0
      (WorkOrderCreate.mk "Leak" "Pipe leaks" PLUMBING NORMAL "B1" None
                          "u-alice" None None None None) alice db0 =
    (inl (mkHTTPException 403 "Insufficient permissions"), db0)
  /\ delete_work_order "wo-1" alice db0 =
    (inl (mkHTTPException 403 "Insufficient permissions"), db0)
  /\ update_work_order env0 "wo-1" WorkOrderUpdate.empty alice db0 =
    (inl (if existsb (wo_id_is "wo-1") (work_orders db0)
          then mkHTTPException 403 "Clients cannot update work orders"
          else mkHTTPException 404 "Work order not found"), db0).
Proof.
  apply (client_cannot_mutate_work_orders env0 alice db0). reflexivity.
Defined.

(** C2 as stated fails: a client's update of an id that is not stored is
    answered 404 (not found), not 403. *)
Lemma client_update_absent_is_not_forbidden :
  exists e,
    update_work_order env0 "wo-1" WorkOrderUpdate.empty alice db0 = (inl e, db0)
    /\ User.role alice = CLIENT
    /\ status_code e = 404
    /\ status_code e <> 403.
Proof.
  eexists. split; [reflexivity|]. simpl. repeat split; discriminate.
Qed.

(** ** Creating a work order *)

Lemma filter_everything {A} (l : list A) : filter (fun _ => true) l = l.
Proof. induction l as [|x l IH]; simpl; congruence. Qed.

(** What a successful creation did to the store. *)
Lemma create_work_order_success
    (env : Env) (wo_data : WorkOrderCreate.t) (u : User.t)
    (d d' : Database) (w : WorkOrder.t) :
  create_work_order env wo_data u d = (inr w, d') ->
  d' = mkDatabase (users d) (work_orders d ++ [w]) (cost_entries d)
                  (notifications d ++ creation_notices env wo_data w)
  /\ WorkOrder.request_id w =
       ("WO-" ++ format_05d (List.length (work_orders d) + 1))%string
  /\ WorkOrder.id w = uuid4 env 0
  /\ WorkOrder.status w = PENDING
  /\ WorkOrder.client_id w = WorkOrderCreate.client_id wo_data
  /\ WorkOrder.assigned_to_id w = WorkOrderCreate.assigned_to_id wo_data.
Proof.
  unfold create_work_order, require_role, truthy, creation_notices.
  run_handler.
  destruct (negb _); [discriminate|].
  rewrite filter_everything.
  destruct (List.find _ (users d)) as [client|]; [|discriminate].
  destruct (WorkOrderCreate.assigned_to_id wo_data) as [a|].
  - destruct (a =? ""); run_handler; simpl;
      intros [= <- <-]; simpl; rewrite <- ?app_assoc; simpl;
      repeat split; reflexivity.
  - intros [= <- <-]. simpl. repeat split; reflexivity.
Qed.

(** A creation that fails leaves the store as it was. *)
Lemma create_work_order_failure
    (env : Env) (wo_data : WorkOrderCreate.t) (u : User.t)
    (d d' : Database) (e : HTTPException) :
  create_work_order env wo_data u d = (inl e, d') -> d' = d.
Proof.
  unfold create_work_order, require_role, truthy. run_handler.
  destruct (negb _); [now intros [= _ <-]|].
  destruct (List.find _ (users d)) as [client|]; [|now intros [= _ <-]].
  destruct (WorkOrderCreate.assigned_to_id wo_data) as [a|].
  - destruct (a =? ""); run_handler; discriminate.
  - discriminate.
Qed.

(** A creation succeeds when the caller is an admin or a supervisor and
    the client id names a stored user. *)
Lemma create_work_order_succeeds
    (env : Env) (wo_data : WorkOrderCreate.t) (u : User.t) (d : Database) :
  existsb (role_eqb (User.role u)) [ADMIN; SUPERVISOR] = true ->
  existsb (user_id_is (WorkOrderCreate.client_id wo_data)) (users d) = true ->
  exists w d', create_work_order env wo_data u d = (inr w, d').
Proof.
  intros Hrole Hclient. rewrite find_existsb in Hclient.
  unfold create_work_order, require_role, truthy. rewrite Hrole.
  cbn [negb]. run_handler.
  destruct (List.find _ (users d)) as [client|]; [|discriminate].
  destruct (WorkOrderCreate.assigned_to_id wo_data) as [a|].
  - destruct (a =? ""); run_handler; do 2 eexists; reflexivity.
  - do 2 eexists; reflexivity.
Qed.

(** C6 (as the code has it).  A successful creation appends exactly one
    notification, addressed to the client, when no assignee id is given or
    the one given is the empty string (the handler's truth test treats the
    two alike), and exactly two, the first addressed to the client and the
    second to the assignee, when a non-empty assignee id is given. *)
Theorem create_work_order_notifications
    (env : Env) (wo_data : WorkOrderCreate.t) (u : User.t)
    (d d' : Database) (w : WorkOrder.t) :
  create_work_order env wo_data u d = (inr w, d') ->
  exists n1,
    Notification.user_id n1 = WorkOrderCreate.client_id wo_data
    /\ (WorkOrderCreate.assigned_to_id wo_data = None
        \/ WorkOrderCreate.assigned_to_id wo_data = Some "" ->
        notifications d' = notifications d ++ [n1])
    /\ (forall a,
          WorkOrderCreate.assigned_to_id wo_data = Some a -> a <> "" ->
          exists n2,
            Notification.user_id n2 = a
            /\ notifications d' = notifications d ++ [n1; n2]).
Proof.
  intros H. apply create_work_order_success in H.
  destruct H as [-> _]. simpl.
  unfold creation_notices.
  eexists. split; [|split].
  - shelve.
  - intros [E | E]; rewrite E; simpl; reflexivity.
  - intros a E Ha. rewrite E.
    apply String.eqb_neq in Ha. rewrite Ha.
    eexists. split; [|reflexivity]. reflexivity.
  Unshelve. reflexivity.
Qed.

Lemma create_work_order_notifications_witness :
  exists n1,
    Notification.user_id n1 = "u-alice"
    /\ (Some "u-tech" = None \/ Some "u-tech" = Some "" ->
        notifications
          (snd (create_work_order env0 (leak_request (Some "u-tech")) boss db0))
        = notifications db0 ++ [n1])
    /\ (forall a,
          Some "u-tech" = Some a -> a <> "" ->
          exists n2,
            Notification.user_id n2 = a
            /\ notifications
                 (snd (create_work_order env0 (leak_request (Some "u-tech"))
                         boss db0))
               = notifications db0 ++ [n1; n2]).
Proof.
  destruct (create_work_order env0 (leak_request (Some "u-tech")) boss db0)
    as [[e | w] d'] eqn:E; [vm_compute in E; discriminate|].
  exact (create_work_order_notifications env0 (leak_request (Some "u-tech"))
           boss db0 d' w E).
Defined.

(** C6 as the specification words it fails: a request that gives the empty
    string as assignee id is accepted, the order stores that assignee id,
    and only the client's notification is written, not two. *)
Lemma create_with_empty_assignee_notifies_once :
  exists w d' n1,
    create_work_order env0 (leak_request (Some "")) boss db0 = (inr w, d')
    /\ WorkOrderCreate.assigned_to_id (leak_request (Some "")) = Some ""
    /\ WorkOrder.assigned_to_id w = Some ""
    /\ notifications d' = notifications db0 ++ [n1]
    /\ Notification.user_id n1 = "u-alice"
    /\ List.length (notifications d')
       <> List.length (notifications db0) + 2.
Proof.
  do 3 eexists. split; [vm_compute; reflexivity|].
  repeat split. discriminate.
Qed.

(** ** Listing users *)

Lemma without_password_hash_role (u1 u2 : User.t) :
  without_password_hash u1 = without_password_hash u2 ->
  User.role u1 = User.role u2.
Proof. intros H. exact (f_equal User.role H). Qed.

Lemma get_users_result (u : User.t) (d : Database) :
  get_users u d =
  (if existsb (role_eqb (User.role u)) [ADMIN; SUPERVISOR]
   then inr (to_list 1000 (map without_password_hash (users d)))
   else inl (mkHTTPException 403 "Insufficient permissions"), d).
Proof.
  unfold get_users, require_role. run_handler.
  destruct (existsb _ _); cbn [negb]; run_handler;
    [now rewrite filter_everything | reflexivity].
Qed.

(** C10.  The answer of [get_users] does not depend on any stored password
    hash: two callers and two user stores that agree on everything but the
    [password_hash] fields get the same answer, and every user in an
    answer has an empty [password_hash]. *)
Theorem get_users_hides_password_hash
    (u1 u2 : User.t) (d1 d2 : Database) :
  without_password_hash u1 = without_password_hash u2 ->
  map without_password_hash (users d1) = map without_password_hash (users d2) ->
  fst (get_users u1 d1) = fst (get_users u2 d2)
  /\ (forall l x, fst (get_users u1 d1) = inr l -> In x l ->
                  User.password_hash x = None).
Proof.
  intros Hu Hd. rewrite !get_users_result. unfold fst.
  rewrite (without_password_hash_role _ _ Hu), Hd. split; [reflexivity|].
  intros l x. destruct (existsb _ _); [|discriminate].
  intros E Hin. assert (E' : to_list 1000 (map without_password_hash (users d2)) = l)
    by congruence.
  rewrite <- E' in Hin.
  apply in_to_list in Hin. apply in_map_iff in Hin.
  destruct Hin as [y [<- _]]. reflexivity.
Qed.

Lemma get_users_hides_password_hash_witness :
  users db0 <> users db0_rehashed
  /\ fst (get_users boss db0) =
     fst (get_users (set_password_hash None boss) db0_rehashed)
  /\ (forall l x, fst (get_users boss db0) = inr l -> In x l ->
                  User.password_hash x = None).
Proof.
  split; [discriminate|].
  apply (get_users_hides_password_hash boss (set_password_hash None boss)
           db0 db0_rehashed); reflexivity.
Defined.

(** ** Listing work orders *)

Lemma matches_role_query (u : User.t) (w : WorkOrder.t) :
  matches (role_query u) w = visible_to u w.
Proof.
  unfold matches, role_query, visible_to.
  destruct (User.role u); simpl; try reflexivity; apply andb_true_r.
Qed.

Lemma filter_role_query (u : User.t) (l : list WorkOrder.t) :
  filter (matches (role_query u)) l = filter (visible_to u) l.
Proof. apply filter_ext. intros w. apply matches_role_query. Qed.

Lemma insert_desc_perm {A} (key : A -> string) (x : A) (l : list A) :
  Permutation (insert_desc key x l) (x :: l).
Proof.
  induction l as [|y l IH]; simpl; [reflexivity|].
  destruct (String.ltb (key x) (key y)); [|reflexivity].
  rewrite IH. apply perm_swap.
Qed.

Lemma sort_desc_perm {A} (key : A -> string) (l : list A) :
  Permutation (sort_desc key l) l.
Proof.
  induction l as [|x l IH]; simpl; [reflexivity|].
  rewrite insert_desc_perm. now constructor.
Qed.

Lemma ltb_false_swap (a b : string) :
  String.ltb a b = true -> String.ltb b a = false.
Proof.
  unfold String.ltb. rewrite (String.compare_antisym a b).
  destruct (String.compare b a); simpl; congruence.
Qed.

Lemma insert_desc_descending {A} (key : A -> string) (x : A) (l : list A) :
  descending key l -> descending key (insert_desc key x l).
Proof.
  induction 1 as [|y|y z l Hyz Hd IH]; simpl.
  - constructor.
  - destruct (String.ltb (key x) (key y)) eqn:E.
    + constructor; [now apply ltb_false_swap | constructor].
    + constructor; [exact E | constructor].
  - destruct (String.ltb (key x) (key y)) eqn:E.
    + simpl in IH. destruct (String.ltb (key x) (key z)) eqn:E2.
      * constructor; assumption.
      * constructor; [now apply ltb_false_swap | exact IH].
    + constructor; [exact E|]. now constructor.
Qed.

Lemma sort_desc_descending {A} (key : A -> string) (l : list A) :
  descending key (sort_desc key l).
Proof.
  induction l as [|x l IH]; simpl; [constructor|].
  now apply insert_desc_descending.
Qed.

Lemma descending_firstn {A} (key : A -> string) (n : nat) (l : list A) :
  descending key l -> descending key (firstn n l).
Proof.
  intros H. revert n.
  induction H as [|x|x y l Hxy Hd IH]; intros [|n]; simpl; try constructor.
  - destruct n; constructor.
  - destruct n as [|n]; [constructor|].
    specialize (IH (S n)). simpl in IH. now constructor.
Qed.

(** C1 (as the code has it).  For every caller, listing work orders does
    not change the store and returns the stored orders that match the
    caller's ownership predicate, newest [created_at] first, cut after the
    first 1000: every returned order is stored and matches, at most 1000
    are returned, and when at most 1000 stored orders match, the answer is
    exactly the matching orders (a rearrangement of them). *)
Theorem get_work_orders_scope (u : User.t) (d : Database) :
  let owned := filter (visible_to u) (work_orders d) in
  exists l,
    get_work_orders u d = (inr l, d)
    /\ l = firstn 1000 (sort_desc WorkOrder.created_at owned)
    /\ descending WorkOrder.created_at l
    /\ (forall w, In w l -> In w (work_orders d) /\ visible_to u w = true)
    /\ List.length l = Nat.min 1000 (List.length owned)
    /\ (List.length owned <= 1000 -> Permutation l owned).
Proof.
  intros owned.
  exists (firstn 1000 (sort_desc WorkOrder.created_at owned)).
  split; [|split; [|split; [|split; [|split]]]].
  - unfold get_work_orders. run_handler. unfold to_list, owned.
    now rewrite filter_role_query.
  - reflexivity.
  - apply descending_firstn, sort_desc_descending.
  - intros w Hin. apply (in_to_list 1000) in Hin.
    apply (Permutation_in _ (sort_desc_perm _ _)) in Hin.
    unfold owned in Hin. now apply filter_In in Hin.
  - rewrite length_firstn.
    now rewrite (Permutation_length (sort_desc_perm _ owned)).
  - intros Hle. rewrite firstn_all2; [apply sort_desc_perm|].
    now rewrite (Permutation_length (sort_desc_perm _ owned)).
Qed.

Lemma existsb_false_not_in (s : string) (l : list string) :
  existsb (String.eqb s) l = false -> ~ In s l.
Proof.
  intros H Hin.
  assert (E : existsb (String.eqb s) l = true).
  { apply existsb_exists. exists s. split; [exact Hin | apply String.eqb_refl]. }
  congruence.
Qed.

(** C1 as stated fails: with 1001 stored orders an admin's listing leaves
    out a stored order that matches the admin's predicate (the oldest
    one). *)
Lemma get_work_orders_drops_beyond_1000 :
  exists l w,
    get_work_orders boss crowded_db = (inr l, crowded_db)
    /\ In w (work_orders crowded_db)
    /\ visible_to boss w = true
    /\ ~ In w l.
Proof.
  eexists. exists (numbered_order 0).
  split; [reflexivity|]. split; [|split].
  - unfold crowded_db, work_orders. apply in_map. apply in_seq. lia.
  - reflexivity.
  - intros Hin. apply (in_map WorkOrder.id) in Hin.
    revert Hin. apply existsb_false_not_in.
    vm_compute. reflexivity.
Qed.

(** ** Request ids *)

Lemma uint_of_string_zeros (k : nat) (s : string) :
  NilEmpty.uint_of_string (zeros k ++ s) =
  option_map (Nat.iter k D0) (NilEmpty.uint_of_string s).
Proof.
  induction k as [|k IH]; simpl.
  - now destruct (NilEmpty.uint_of_string s).
  - rewrite IH. now destruct (NilEmpty.uint_of_string s).
Qed.

Lemma of_uint_leading_zeros (k : nat) (u : uint) :
  Nat.of_uint (Nat.iter k D0 u) = Nat.of_uint u.
Proof. induction k as [|k IH]; simpl; [reflexivity | exact IH]. Qed.

Lemma read_format_05d (n : nat) : read_decimal (format_05d n) = Some n.
Proof.
  unfold read_decimal, format_05d.
  rewrite uint_of_string_zeros, NilEmpty.usu. simpl.
  now rewrite of_uint_leading_zeros, Unsigned.of_to.
Qed.

Lemma format_05d_inj (n m : nat) : format_05d n = format_05d m -> n = m.
Proof.
  intros H. apply (f_equal read_decimal) in H.
  rewrite !read_format_05d in H. congruence.
Qed.

Lemma request_id_of_inj (n m : nat) : request_id_of n = request_id_of m -> n = m.
Proof.
  unfold request_id_of. simpl. intros [= H]. now apply format_05d_inj.
Qed.

Lemma NoDup_request_ids (start len : nat) :
  NoDup (map request_id_of (seq start len)).
Proof.
  revert start. induction len as [|len IH]; intros start; simpl.
  - constructor.
  - constructor; [|apply IH].
    intros Hin. apply in_map_iff in Hin. destruct Hin as [k [Hk Hin]].
    apply request_id_of_inj in Hk. apply in_seq in Hin. lia.
Qed.

Lemma run_creates (ops : list Operation) :
  Forall is_create ops ->
  forall d,
    fst (run ops d) =
    map request_id_of
        (seq (List.length (work_orders d) + 1) (List.length (fst (run ops d)))).
Proof.
  induction 1 as [|op ops Hop _ IH]; intros d; [reflexivity|].
  destruct op as [env wo_data user|]; [|contradiction]. simpl.
  destruct (create_work_order env wo_data user d) as [[e|w] d'] eqn:E.
  - apply create_work_order_failure in E. subst d'. apply IH.
  - apply create_work_order_success in E.
    destruct E as [Ed [Hid _]].
    specialize (IH d'). destruct (run ops d') as [ids d'']. simpl in *.
    rewrite Hid. fold (request_id_of (List.length (work_orders d) + 1)).
    f_equal. rewrite IH at 1. rewrite Ed. simpl.
    rewrite length_app. simpl.
    now replace (List.length (work_orders d) + 1 + 1)
      with (S (List.length (work_orders d) + 1)) by lia.
Qed.

(** C4 (as the code has it).  A successfully created work order gets the
    request id "WO-" followed by the number of stored work orders plus
    one, zero-filled to five digits; and in a sequential run of creations
    with no deletion in between, the ids given are those of consecutive
    increasing numbers, hence pairwise distinct. *)
Theorem request_ids_sequential :
  (forall env wo_data u d w d',
      create_work_order env wo_data u d = (inr w, d') ->
      WorkOrder.request_id w =
        ("WO-" ++ format_05d (List.length (work_orders d) + 1))%string)
  /\ (forall ops d,
        Forall is_create ops ->
        fst (run ops d) =
          map request_id_of
              (seq (List.length (work_orders d) + 1)
                   (List.length (fst (run ops d))))
        /\ NoDup (fst (run ops d))).
Proof.
  split.
  - intros env wo_data u d w d' H.
    now apply create_work_order_success in H.
  - intros ops d Hops. split; [now apply run_creates|].
    rewrite (run_creates ops Hops d). apply NoDup_request_ids.
Qed.

Lemma request_ids_sequential_witness :
  Forall is_create three_creations
  /\ fst (run three_creations db0) = ["WO-00001"; "WO-00002"; "WO-00003"]
  /\ NoDup (fst (run three_creations db0)).
Proof.
  assert (H : Forall is_create three_creations)
    by (repeat constructor).
  split; [exact H|]. split; [vm_compute; reflexivity|].
  exact (proj2 (proj2 request_ids_sequential three_creations db0 H)).
Defined.

(** C4 as stated fails: after a deletion the count of stored orders goes
    down, and the next creation repeats a request id already given. *)
Lemma request_id_repeats_after_delete :
  fst (run create_delete_create db0) = ["WO-00001"; "WO-00002"; "WO-00002"]
  /\ ~ NoDup (fst (run create_delete_create db0)).
Proof.
  assert (E : fst (run create_delete_create db0) =
              ["WO-00001"; "WO-00002"; "WO-00002"])
    by (vm_compute; reflexivity).
  split; [exact E|]. rewrite E. intros H.
  inversion H as [|? ? _ H']. inversion H' as [|? ? Hn _].
  apply Hn. now left.
Qed.

(** ** Updating a work order *)

Lemma may_update_tests (u : User.t) (w : WorkOrder.t) :
  may_update u w ->
  role_eqb (User.role u) CLIENT = false
  /\ role_eqb (User.role u) TECHNICIAN
     && opt_str_neq (WorkOrder.assigned_to_id w) (User.id u) = false.
Proof.
  intros [Hc Ht]. split.
  - destruct (role_eqb (User.role u) CLIENT) eqn:E; [|reflexivity].
    apply role_eqb_eq in E. contradiction.
  - destruct (role_eqb (User.role u) TECHNICIAN) eqn:E; [|reflexivity].
    apply role_eqb_eq in E. rewrite (Ht E). simpl.
    now rewrite String.eqb_refl.
Qed.

Lemma wo_id_is_set_fields (work_order_id : string) (ud : UpdateData.t)
    (x : WorkOrder.t) :
  wo_id_is work_order_id (set_fields ud x) = wo_id_is work_order_id x.
Proof. reflexivity. Qed.

(** What an authorized update of a stored order returns and writes. *)
Lemma update_work_order_authorized
    (env : Env) (work_order_id : string) (updates : WorkOrderUpdate.t)
    (u : User.t) (d : Database) (w : WorkOrder.t) :
  List.find (wo_id_is work_order_id) (work_orders d) = Some w ->
  may_update u w ->
  update_work_order env work_order_id updates u d =
  (inr (Some (set_fields (update_data_of env updates d) w)),
   mkDatabase
     (users d)
     (update_first (wo_id_is work_order_id)
        (set_fields (update_data_of env updates d)) (work_orders d))
     (cost_entries d)
     (notifications d
        ++ assignment_notice env work_order_id updates w d
        ++ status_notice env work_order_id updates w)).
Proof.
  intros Hfind Hmay. apply may_update_tests in Hmay. destruct Hmay as [Hc Ht].
  pose proof (find_update_first (wo_id_is work_order_id)
                (set_fields (update_data_of env updates d)) (work_orders d) w
                (wo_id_is_set_fields work_order_id _) Hfind) as Hafter.
  unfold update_work_order, truthy. run_handler.
  rewrite Hfind, Hc, Ht.
  unfold update_data_of, assignment_notice, status_notice, assignee_lookup in *.
  destruct (WorkOrderUpdate.assigned_to_id updates) as [a|].
  - destruct (a =? ""); cbn [negb]; run_handler.
    + cbn [option_map] in *.
      destruct (WorkOrderUpdate.status updates);
        run_handler; rewrite Hafter; cbn [app];
        rewrite ?app_nil_r; reflexivity.
    + destruct (List.find (user_id_is a) (users d)) as [t|];
        run_handler; cbn [option_map] in *;
        destruct (WorkOrderUpdate.status updates);
        run_handler; rewrite Hafter; cbn [app];
        rewrite <- ?app_assoc, ?app_nil_r; reflexivity.
  - cbn [option_map] in *.
    destruct (WorkOrderUpdate.status updates);
      run_handler; rewrite Hafter; cbn [app];
      rewrite ?app_nil_r; reflexivity.
Qed.

(** Which notifications an authorized update appends: the one titled
    "Work Order Updated", addressed to the order's client, is there
    whenever the body carries a status, whatever the stored status is, and
    only then. *)
Lemma status_notice_cases
    (env : Env) (work_order_id : string) (updates : WorkOrderUpdate.t)
    (w : WorkOrder.t) :
  match WorkOrderUpdate.status updates with
  | Some _ =>
      exists n,
        status_notice env work_order_id updates w = [n]
        /\ Notification.user_id n = WorkOrder.client_id w
        /\ Notification.title n = "Work Order Updated"
  | None => status_notice env work_order_id updates w = []
  end.
Proof.
  unfold status_notice. destruct (WorkOrderUpdate.status updates).
  - eexists. repeat split.
  - reflexivity.
Qed.

Lemma assignment_notice_title
    (env : Env) (work_order_id : string) (updates : WorkOrderUpdate.t)
    (w : WorkOrder.t) (d : Database) (n : Notification.t) :
  In n (assignment_notice env work_order_id updates w d) ->
  Notification.title n = "New Assignment".
Proof.
  unfold assignment_notice.
  destruct (WorkOrderUpdate.assigned_to_id updates);
    [destruct (assignee_lookup updates d)|]; simpl; try tauto.
  intros [<- | []]. reflexivity.
Qed.

(** An authorized update appends a notification titled "Work Order
    Updated" exactly when the body carries a status. *)
Lemma update_notifies_iff_status_given
    (env : Env) (work_order_id : string) (updates : WorkOrderUpdate.t)
    (u : User.t) (d : Database) (w : WorkOrder.t) :
  List.find (wo_id_is work_order_id) (work_orders d) = Some w ->
  may_update u w ->
  exists added,
    notifications (snd (update_work_order env work_order_id updates u d))
      = notifications d ++ added
    /\ ((exists n, In n added /\ Notification.title n = "Work Order Updated")
        <-> WorkOrderUpdate.status updates <> None).
Proof.
  intros Hfind Hmay.
  rewrite (update_work_order_authorized _ _ _ _ _ _ Hfind Hmay).
  cbn [snd notifications]. eexists. split; [reflexivity|].
  pose proof (status_notice_cases env work_order_id updates w) as Hs.
  split.
  - intros [n [Hin Ht]]. apply in_app_or in Hin. destruct Hin as [Hin | Hin].
    + apply assignment_notice_title in Hin. rewrite Hin in Ht. discriminate.
    + destruct (WorkOrderUpdate.status updates); [discriminate|].
      rewrite Hs in Hin. destruct Hin.
  - intros Hgiven.
    destruct (WorkOrderUpdate.status updates); [|contradiction].
    destruct Hs as [n [E [_ Ht]]]. exists n. split; [|exact Ht].
    apply in_or_app. right. rewrite E. now left.
Qed.

(** C5, the code at the failing input: an admin updates a pending order
    with the body [{"status": "pending"}]; the stored status stays
    pending, and still one notification titled "Work Order Updated" is
    appended for the order's client. *)
Theorem update_same_status_notifies :
  WorkOrder.status leak_order = PENDING
  /\ exists w' d' n,
      update_work_order env0 "wo-1" status_pending_again boss db1 =
        (inr (Some w'), d')
      /\ List.find (wo_id_is "wo-1") (work_orders d') = Some w'
      /\ WorkOrder.status w' = PENDING
      /\ notifications d' = notifications db1 ++ [n]
      /\ Notification.user_id n = WorkOrder.client_id leak_order
      /\ Notification.title n = "Work Order Updated".
Proof.
  split; [reflexivity|].
  do 3 eexists. split; [vm_compute; reflexivity|].
  repeat split.
Qed.

(** ** Writing [total_cost] through an update *)

Lemma float_neq (x y : float) : Prim2SF x <> Prim2SF y -> x <> y.
Proof. intros H E. apply H. now rewrite E. Qed.

(** C9.  An authorized update whose body carries a [total_cost] stores
    exactly that value in the order: the order found under the id after
    the update, which is also the one returned, has it as [total_cost],
    and neither the answer nor the work orders written depend on the cost
    entries in the store.  So an update can leave an order whose
    [total_cost] differs from the sum of its cost entries. *)
Theorem update_writes_total_cost_verbatim :
  (forall env work_order_id updates u d w v,
      List.find (wo_id_is work_order_id) (work_orders d) = Some w ->
      may_update u w ->
      WorkOrderUpdate.total_cost updates = Some v ->
      exists w' d',
        update_work_order env work_order_id updates u d = (inr (Some w'), d')
        /\ List.find (wo_id_is work_order_id) (work_orders d') = Some w'
        /\ WorkOrder.total_cost w' = v
        /\ cost_entries d' = cost_entries d
        /\ forall ces,
            let dc := set_docs db_cost_entries ces d in
            fst (update_work_order env work_order_id updates u dc)
              = inr (Some w')
            /\ work_orders
                 (snd (update_work_order env work_order_id updates u dc))
               = work_orders d')
  /\ (exists env work_order_id updates u d w' d',
        update_work_order env work_order_id updates u d = (inr (Some w'), d')
        /\ WorkOrder.total_cost w' <>
           py_sum (map CostEntry.amount
                       (filter (cost_of work_order_id) (cost_entries d')))).
Proof.
  split.
  - intros env work_order_id updates u d w v Hfind Hmay Hv.
    do 2 eexists.
    split; [apply (update_work_order_authorized _ _ _ _ _ _ Hfind Hmay)|].
    cbn [work_orders cost_entries].
    split; [|split; [|split]].
    + apply find_update_first; [reflexivity | exact Hfind].
    + simpl. now rewrite Hv.
    + reflexivity.
    + intros ces.
      rewrite (update_work_order_authorized env work_order_id updates u
                 (set_docs db_cost_entries ces d) w);
        [split; reflexivity | exact Hfind | exact Hmay].
  - exists env0, "wo-1", total_cost_one, boss, db2.
    do 2 eexists. split; [vm_compute; reflexivity|].
    apply float_neq. vm_compute. discriminate.
Qed.

Lemma update_writes_total_cost_verbatim_witness :
  exists w' d',
    update_work_order env0 "wo-1" total_cost_one tech db2 = (inr (Some w'), d')
    /\ List.find (wo_id_is "wo-1") (work_orders d') = Some w'
    /\ WorkOrder.total_cost w' = 1%float
    /\ cost_entries d' = cost_entries db2
    /\ forall ces,
        let dc := set_docs db_cost_entries ces db2 in
        fst (update_work_order env0 "wo-1" total_cost_one tech dc)
          = inr (Some w')
        /\ work_orders (snd (update_work_order env0 "wo-1" total_cost_one tech dc))
           = work_orders d'.
Proof.
  apply (proj1 update_writes_total_cost_verbatim env0 "wo-1" total_cost_one
           tech db2
           (set_total_cost 35.5%float "2024-01-16T09:00:00.00001" leak_order)
           1%float).
  - reflexivity.
  - split; [discriminate | reflexivity].
  - reflexivity.
Defined.

(** ** Cost entries and [total_cost] *)

(** What a successful [create_cost_entry] returns and writes: the new entry
    is appended, and the first order under the id gets as [total_cost] the
    sum over the first 1000 entries of the order. *)
Lemma create_cost_entry_authorized
    (env : Env) (work_order_id : string) (cost_data : CostEntryCreate.t)
    (u : User.t) (d : Database) (w : WorkOrder.t) :
  existsb (role_eqb (User.role u)) [ADMIN; SUPERVISOR; TECHNICIAN] = true ->
  List.find (wo_id_is work_order_id) (work_orders d) = Some w ->
  let entry :=
    CostEntry.mk (uuid4 env 0) work_order_id
      (CostEntryCreate.description cost_data)
      (CostEntryCreate.cost_type cost_data)
      (CostEntryCreate.amount cost_data)
      (User.id u) (User.name u) (utcnow env 0) in
  let total :=
    py_sum (map CostEntry.amount
              (to_list 1000
                 (filter (cost_of work_order_id) (cost_entries d ++ [entry])))) in
  create_cost_entry env work_order_id cost_data u d =
  (inr entry,
   mkDatabase (users d)
     (update_first (wo_id_is work_order_id)
        (set_total_cost total (utcnow env 1)) (work_orders d))
     (cost_entries d ++ [entry])
     (notifications d)).
Proof.
  intros Hrole Hfind entry total.
  unfold create_cost_entry, require_role. rewrite Hrole. cbn [negb].
  run_handler. rewrite Hfind. reflexivity.
Qed.

(** Below the bound of the scan, the stored [total_cost] is the sum over
    all entries of the order. *)
Lemma create_cost_entry_total_below_bound
    (env : Env) (work_order_id : string) (cost_data : CostEntryCreate.t)
    (u : User.t) (d : Database) (w : WorkOrder.t) :
  existsb (role_eqb (User.role u)) [ADMIN; SUPERVISOR; TECHNICIAN] = true ->
  List.find (wo_id_is work_order_id) (work_orders d) = Some w ->
  List.length (filter (cost_of work_order_id) (cost_entries d)) < 1000 ->
  exists c d' w',
    create_cost_entry env work_order_id cost_data u d = (inr c, d')
    /\ List.find (wo_id_is work_order_id) (work_orders d') = Some w'
    /\ WorkOrder.total_cost w' =
       py_sum (map CostEntry.amount
                   (filter (cost_of work_order_id) (cost_entries d'))).
Proof.
  intros Hrole Hfind Hlen.
  do 3 eexists.
  split; [apply (create_cost_entry_authorized _ _ _ _ _ _ Hrole Hfind)|].
  cbn [work_orders cost_entries]. split.
  - apply find_update_first; [reflexivity | exact Hfind].
  - unfold set_total_cost, to_list. cbn [set_fields WorkOrder.total_cost
      UpdateData.body WorkOrderUpdate.total_cost or_keep].
    rewrite firstn_all2; [reflexivity|].
    rewrite filter_app, length_app. unfold cost_of at 2. cbn [filter].
    cbn [CostEntry.work_order_id]. rewrite String.eqb_refl.
    cbn [List.length]. lia.
Qed.

(** Logging 10.0 and 25.5 on an order gives 35.5, and 4.5 more gives 40.0. *)
Example total_cost_after_three_entries :
  let d1 := snd (create_cost_entry (env_at 0) "wo-1" (log_cost 10%float) tech db1) in
  let d2 := snd (create_cost_entry (env_at 1) "wo-1" (log_cost 25.5%float) tech d1) in
  let d3 := snd (create_cost_entry (env_at 2) "wo-1" (log_cost 4.5%float) tech d2) in
  stored_total "wo-1" d2 = Some 35.5%float
  /\ stored_total "wo-1" d3 = Some 40%float.
Proof. split; vm_compute; reflexivity. Qed.

(** C3, the code at the failing input: the 1001st cost entry of an order
    is stored, the amounts of the order's entries now sum to 1001.0, and
    the [total_cost] written on the order is 1000.0 (the scan that feeds
    the sum stops after 1000 entries). *)
Theorem total_cost_misses_entries_beyond_1000 :
  (exists c, fst after_1001st_entry = inr c)
  /\ List.length (filter (cost_of "wo-1")
                         (cost_entries (snd after_1001st_entry))) = 1001
  /\ py_sum (map CostEntry.amount
                 (filter (cost_of "wo-1")
                         (cost_entries (snd after_1001st_entry))))
     = 1001%float
  /\ stored_total "wo-1" (snd after_1001st_entry) = Some 1000%float.
Proof.
  split; [eexists; vm_compute; reflexivity|].
  split; [vm_compute; reflexivity|].
  split; vm_compute; reflexivity.
Qed.

(** ** Dashboard statistics *)

Lemma matches_snoc (q : Query) (c : Clause) (w : WorkOrder.t) :
  matches (q ++ [c]) w = matches q w && holds w c.
Proof.
  unfold matches. rewrite forallb_app. simpl. now rewrite andb_true_r.
Qed.

Lemma filter_both {A} (f g : A -> bool) (l : list A) :
  filter (fun x => f x && g x) l = filter g (filter f l).
Proof.
  induction l as [|x l IH]; simpl; [reflexivity|].
  destruct (f x); simpl; [destruct (g x)|]; congruence.
Qed.

Lemma count_scoped_status (u : User.t) (st : WorkOrderStatus)
    (l : list WorkOrder.t) :
  List.length (filter (matches (role_query u ++ [status_is st])) l) =
  count_status st (filter (visible_to u) l).
Proof.
  unfold count_status. rewrite <- filter_role_query, <- filter_both.
  f_equal. apply filter_ext. intros w. apply matches_snoc.
Qed.

Lemma py_round_zero : py_round 0%float 2 = 0%float.
Proof. reflexivity. Qed.

(** Rounding half-even lands within half a unit of the exact quotient. *)
Lemma round_half_even_nearest (num den : Z) :
  (0 < den)%Z ->
  (2 * Z.abs (num - round_half_even num den * den) <= den)%Z.
Proof.
  intros Hden. unfold round_half_even.
  pose proof (Z.div_mod num den ltac:(lia)) as Hdm.
  pose proof (Z.mod_pos_bound num den Hden) as Hr.
  destruct (Z.compare_spec (2 * (num mod den)) den) as [E | E | E];
    [destruct (Z.even (num / den))| |]; nia.
Qed.

Lemma count_status_partition (l : list WorkOrder.t) :
  count_status PENDING l + count_status IN_PROGRESS l
  + count_status COMPLETED l + count_status APPROVED l
  + count_status CANCELLED l = List.length l.
Proof.
  unfold count_status, has_status.
  induction l as [|w l IH]; simpl; [reflexivity|].
  destruct (WorkOrder.status w); simpl; lia.
Qed.

(** ** Rounding to binary64

    What [SFdiv] and [SFmul] return on the numbers of the rate, from the
    library's definition of rounding. *)

Section Binary64.
Local Open Scope Z_scope.

Ltac fexp_lia := unfold fexp, emin, prec, emax in *; lia.

(** The rounding exponent of binary64. *)
Lemma fexp_eq (e : Z) : fexp prec emax e = Z.max (e - 53) (-1074).
Proof. reflexivity. Qed.

Lemma digits2_pos_bounds (p : positive) :
  2 ^ (Zpos (digits2_pos p) - 1) <= Zpos p < 2 ^ Zpos (digits2_pos p).
Proof.
  induction p as [p IH | p IH |]; cbn [digits2_pos].
  - rewrite Pos2Z.inj_succ.
    replace (Z.succ (Zpos (digits2_pos p)) - 1)
      with (Z.succ (Zpos (digits2_pos p) - 1)) by lia.
    rewrite !Z.pow_succ_r by lia. lia.
  - rewrite Pos2Z.inj_succ.
    replace (Z.succ (Zpos (digits2_pos p)) - 1)
      with (Z.succ (Zpos (digits2_pos p) - 1)) by lia.
    rewrite !Z.pow_succ_r by lia. lia.
  - cbn. lia.
Qed.

(** The number of binary digits of a non-negative integer. *)
Lemma Zdigits2_bounds (m : Z) :
  0 < m ->
  1 <= Zdigits2 m /\ 2 ^ (Zdigits2 m - 1) <= m < 2 ^ Zdigits2 m.
Proof.
  destruct m as [|p|p]; try lia. intros _. cbn [Zdigits2].
  split; [lia | apply digits2_pos_bounds].
Qed.

Lemma Zdigits2_nonneg (m : Z) : 0 <= Zdigits2 m.
Proof. destruct m; cbn; lia. Qed.

Lemma pow2_pos (a : Z) : 0 <= a -> 0 < 2 ^ a.
Proof. intros. apply Z.pow_pos_nonneg; lia. Qed.

Lemma pow2_between (a b x : Z) : 0 <= b -> 2 ^ a <= x < 2 ^ b -> a < b.
Proof.
  intros Hb [H1 H2]. apply (Z.pow_lt_mono_r_iff 2); lia.
Qed.

Lemma Zdigits2_le (m j : Z) : 0 <= j -> 0 <= m < 2 ^ j -> Zdigits2 m <= j.
Proof.
  intros Hj [H0 H]. destruct (Z.eq_dec m 0) as [-> | Hm]; [cbn; lia|].
  destruct (Zdigits2_bounds m ltac:(lia)) as [H1 [H2 _]].
  assert (Zdigits2 m - 1 < j) by (apply (pow2_between _ _ m); lia). lia.
Qed.

Lemma Zdigits2_ge (m j : Z) : 0 <= j -> 2 ^ j <= m -> j + 1 <= Zdigits2 m.
Proof.
  intros Hj H. pose proof (pow2_pos j Hj).
  destruct (Zdigits2_bounds m ltac:(lia)) as [H1 [_ H3]].
  assert (j < Zdigits2 m) by (apply (pow2_between _ _ m); lia). lia.
Qed.

Lemma Zdigits2_mono (a b : Z) : 0 <= a <= b -> Zdigits2 a <= Zdigits2 b.
Proof.
  intros [H0 H]. destruct (Z.eq_dec a 0) as [-> | Ha].
  - apply Zdigits2_nonneg.
  - destruct (Zdigits2_bounds a ltac:(lia)) as [H1 [H2 _]].
    pose proof (Zdigits2_ge b (Zdigits2 a - 1) ltac:(lia) ltac:(lia)). lia.
Qed.

Lemma shr_1_inv (N D : Z) (mrs : shr_record) :
  shr_inv N D mrs -> shr_inv N (2 * D) (shr_1 mrs).
Proof.
  intros (HD & HN & Hm & Hr & Hs).
  pose proof (Z.div_mod N D ltac:(lia)) as Hdm.
  pose proof (Z.mod_pos_bound N D HD) as Hb.
  pose proof (Z.div_pos N D HN HD) as Hq.
  set (R := N mod D) in *. set (q := N / D) in *.
  assert (Hs' : orb (shr_r mrs) (shr_s mrs) = negb (R =? 0)).
  { rewrite Hr, Hs.
    destruct (Z.leb_spec D (2 * R)), (Z.eqb_spec R 0), (Z.eqb_spec (2 * R) D);
      cbn; try reflexivity; lia. }
  assert (Hgen : forall (q' : Z) (b : bool),
             q = 2 * q' + (if b then 1 else 0) ->
             N / (2 * D) = q'
             /\ N mod (2 * D) = (if b then D else 0) + R).
  { intros q' b Hq'.
    assert (E : N = 2 * D * q' + ((if b then D else 0) + R))
      by (destruct b; nia).
    split; symmetry;
      [apply (Z.div_unique N (2 * D) q' ((if b then D else 0) + R))
      |apply (Z.mod_unique N (2 * D) q' ((if b then D else 0) + R))];
      try exact E; left; destruct b; lia. }
  destruct mrs as [m r s]. cbn [shr_m shr_r shr_s] in *.
  unfold shr_inv. cbn [shr_1].
  destruct m as [|[p|p|]|[p|p|]]; cbn [shr_m shr_r shr_s]; try lia.
  - destruct (Hgen 0 false ltac:(lia)) as [E1 E2]. rewrite E1, E2, Hs'.
    repeat split; lia.
  - destruct (Hgen (Zpos p) true ltac:(lia)) as [E1 E2]. rewrite E1, E2, Hs'.
    repeat split; lia.
  - destruct (Hgen (Zpos p) false ltac:(lia)) as [E1 E2]. rewrite E1, E2, Hs'.
    repeat split; lia.
  - destruct (Hgen 0 true ltac:(lia)) as [E1 E2]. rewrite E1, E2, Hs'.
    repeat split; lia.
Qed.

Lemma iter_shr_1_inv (p : positive) :
  forall N D mrs,
    shr_inv N D mrs -> shr_inv N (2 ^ Zpos p * D) (iter_pos shr_1 p mrs).
Proof.
  induction p as [p IH | p IH |]; intros N D mrs H; cbn [iter_pos].
  - replace (2 ^ Zpos p~1 * D) with (2 ^ Zpos p * (2 ^ Zpos p * (2 * D))).
    + apply IH, IH, shr_1_inv, H.
    + replace (Zpos p~1) with (Zpos p + Zpos p + 1) by lia.
      rewrite !Z.pow_add_r by lia. change (2 ^ 1) with 2. ring.
  - replace (2 ^ Zpos p~0 * D) with (2 ^ Zpos p * (2 ^ Zpos p * D)).
    + apply IH, IH, H.
    + replace (Zpos p~0) with (Zpos p + Zpos p) by lia.
      rewrite Z.pow_add_r by lia. ring.
  - apply shr_1_inv, H.
Qed.

(** [shr] by [n] places divides the denominator side by [2 ^ n]. *)
Lemma shr_inv_shift (N D : Z) (mrs : shr_record) (e n : Z) :
  shr_inv N D mrs ->
  shr_inv N (2 ^ Z.max n 0 * D) (fst (shr mrs e n))
  /\ snd (shr mrs e n) = e + Z.max n 0.
Proof.
  intros H. destruct n as [|p|p]; cbn [shr fst snd].
  - change (Z.max 0 0) with 0. change (2 ^ 0) with 1.
    now rewrite Z.mul_1_l, Z.add_0_r.
  - replace (Z.max (Zpos p) 0) with (Zpos p) by lia.
    split; [|reflexivity]. now apply iter_shr_1_inv.
  - replace (Z.max (Zneg p) 0) with 0 by lia. change (2 ^ 0) with 1.
    now rewrite Z.mul_1_l, Z.add_0_r.
Qed.

(** Rounding to nearest lands within half a unit of the exact value. *)
Lemma round_nearest_even_inv (N D : Z) (mrs : shr_record) :
  shr_inv N D mrs ->
  let mr := round_nearest_even (shr_m mrs) (loc_of_shr_record mrs) in
  2 * Z.abs (mr * D - N) <= D /\ N / D <= mr <= N / D + 1.
Proof.
  intros (HD & HN & Hm & Hr & Hs).
  pose proof (Z.div_mod N D ltac:(lia)) as Hdm.
  pose proof (Z.mod_pos_bound N D HD) as Hb.
  destruct mrs as [m r s]. cbn [shr_m shr_r shr_s] in *. subst m.
  set (R := N mod D) in *. set (q := N / D) in *.
  cbn [loc_of_shr_record].
  destruct (Z.leb_spec D (2 * R)), (Z.eqb_spec R 0), (Z.eqb_spec (2 * R) D);
    cbn in Hr, Hs; subst r s; cbn [round_nearest_even]; try lia;
    try destruct (Z.even q); nia.
Qed.

Lemma Zdigits2_div_pow2 (m t : Z) :
  0 <= t -> 0 < m / 2 ^ t -> Zdigits2 (m / 2 ^ t) = Zdigits2 m - t.
Proof.
  intros Ht Hpos. pose proof (pow2_pos t Ht) as H2t.
  assert (Hm : 2 ^ t <= m).
  { destruct (Z.lt_ge_cases m (2 ^ t)) as [Hlt | Hge]; [|exact Hge].
    destruct (Z.lt_ge_cases m 0) as [Hneg | Hnn].
    - pose proof (Z.div_lt_upper_bound m (2 ^ t) 0 H2t ltac:(lia)). lia.
    - rewrite Z.div_small in Hpos by lia. lia. }
  destruct (Zdigits2_bounds m ltac:(lia)) as [Hd1 [Hlo Hhi]].
  set (d := Zdigits2 m) in *.
  assert (Htd : t < d) by (apply (pow2_between _ _ m); lia).
  assert (E1 : 2 ^ (d - 1) = 2 ^ t * 2 ^ (d - 1 - t))
    by (rewrite <- Z.pow_add_r by lia; f_equal; lia).
  assert (E2 : 2 ^ d = 2 ^ t * 2 ^ (d - t))
    by (rewrite <- Z.pow_add_r by lia; f_equal; lia).
  pose proof (Z.div_le_lower_bound m (2 ^ t) (2 ^ (d - 1 - t)) H2t
                ltac:(lia)) as Hl.
  pose proof (Z.div_lt_upper_bound m (2 ^ t) (2 ^ (d - t)) H2t
                ltac:(lia)) as Hu.
  pose proof (Zdigits2_le (m / 2 ^ t) (d - t) ltac:(lia) ltac:(lia)).
  pose proof (Zdigits2_ge (m / 2 ^ t) (d - 1 - t) ltac:(lia) Hl).
  lia.
Qed.

Lemma shr_m_of_loc (m : Z) (l : location) : shr_m (shr_record_of_loc m l) = m.
Proof. destruct l as [|[]]; reflexivity. Qed.

(** [binary_round_aux] on a non-negative value [N / D * 2 ^ e] given with at
    least the precision of the format: the result is the nearest multiple
    [mr] of [2 ^ e'], [e'] being the rounding exponent for the size of the
    value, written with a canonical mantissa. *)
Lemma binary_round_aux_spec (sx : bool) (N D m e : Z) (l : location) :
  shr_inv N D (shr_record_of_loc m l) ->
  e <= fexp prec emax (Zdigits2 m + e) ->
  let e' := fexp prec emax (Zdigits2 m + e) in
  exists mr,
    0 <= mr
    /\ 2 * Z.abs (mr * (2 ^ (e' - e) * D) - N) <= 2 ^ (e' - e) * D
    /\ ((mr = 0 /\ binary_round_aux prec emax sx m e l = S754_zero sx)
        \/ exists m2 e2,
             binary_round_aux prec emax sx m e l =
               (if e2 <=? emax - prec
                then S754_finite sx m2 e2 else S754_infinity sx)
             /\ canonical_mantissa prec emax m2 e2 = true
             /\ ((e2 = e' /\ Zpos m2 = mr)
                 \/ (e2 = e' + 1 /\ 2 * Zpos m2 = mr))).
Proof.
  intros Hinv Hprec e'.
  assert (Hm : m = N / D).
  { destruct Hinv as (_ & _ & H & _). now rewrite shr_m_of_loc in H. }
  assert (HD : 0 < D) by apply Hinv.
  assert (HN : 0 <= N) by apply Hinv.
  assert (Hm0 : 0 <= m) by (subst m; now apply Z.div_pos).
  unfold binary_round_aux, shr_fexp.
  fold e'. set (t := e' - e). assert (Ht : 0 <= t) by (unfold t; lia).
  destruct (shr_inv_shift N D _ e t Hinv) as [Hinv' He1].
  replace (Z.max t 0) with t in * by lia.
  destruct (shr (shr_record_of_loc m l) e t) as [mrs' e1].
  cbn [fst snd] in *. replace (e + t) with e' in He1 by (unfold t; lia).
  subst e1.
  pose proof (pow2_pos t Ht) as H2t.
  destruct (round_nearest_even_inv _ _ _ Hinv') as [Hnear Hmr].
  assert (Hm' : shr_m mrs' = m / 2 ^ t).
  { destruct Hinv' as (_ & _ & H & _). rewrite H, Hm.
    rewrite Z.div_div by lia. f_equal. ring. }
  set (mr := round_nearest_even (shr_m mrs') (loc_of_shr_record mrs')) in *.
  replace (N / (2 ^ t * D)) with (m / 2 ^ t) in Hmr
    by (rewrite Hm, Z.div_div by lia; f_equal; ring).
  set (m' := m / 2 ^ t) in *.
  assert (Hm'0 : 0 <= m') by (apply Z.div_pos; lia).
  (* the shifted mantissa sits at its rounding exponent *)
  assert (HF : fexp prec emax (Zdigits2 m' + e') = e').
  { destruct (Z.eq_dec m' 0) as [E0 | Hne].
    - rewrite E0. cbn [Zdigits2].
      assert (Hlt : m < 2 ^ t).
      { destruct (Z.lt_ge_cases m (2 ^ t)) as [Hlt | Hge]; [exact Hlt|].
        pose proof (Z.div_le_lower_bound m (2 ^ t) 1 H2t ltac:(lia)).
        unfold m' in E0. lia. }
      pose proof (Zdigits2_le m t Ht ltac:(lia)) as Hd.
      unfold e', t in *. fexp_lia.
    - unfold m'. rewrite Zdigits2_div_pow2 by (fold m'; lia).
      replace (Zdigits2 m - t + e') with (Zdigits2 m + e) by (unfold t; lia).
      reflexivity. }
  assert (Hdlo : Zdigits2 m' <= Zdigits2 mr) by (apply Zdigits2_mono; lia).
  assert (Hdhi : Zdigits2 mr <= Zdigits2 m' + 1).
  { apply Zdigits2_le; [pose proof (Zdigits2_nonneg m'); lia|].
    destruct (Z.eq_dec m' 0) as [E0 | Hne].
    - rewrite E0 in *. cbn [Zdigits2]. cbn. lia.
    - destruct (Zdigits2_bounds m' ltac:(lia)) as [H1 [_ H3]].
      rewrite Z.pow_add_r by lia. change (2 ^ 1) with 2. lia. }
  exists mr. split; [lia|]. split; [exact Hnear|].
  set (n2 := fexp prec emax (Zdigits2 mr + e') - e').
  assert (Hn2 : n2 = 0 \/ n2 = 1)
    by (unfold n2, e' in *; fexp_lia).
  destruct Hn2 as [E2 | E2]; rewrite E2.
  - cbn [shr]. rewrite shr_m_of_loc.
    destruct mr as [|p|p] eqn:Emr; [left; split; reflexivity | | lia].
    right. exists p, e'. split; [reflexivity|]. split; [|left; split; reflexivity].
    unfold canonical_mantissa. apply Z.eqb_eq.
    change (Zpos (digits2_pos p)) with (Zdigits2 (Zpos p)).
    unfold n2 in E2. lia.
  - assert (Hd : Zdigits2 mr = Zdigits2 m' + 1)
      by (unfold n2, e' in *; fexp_lia).
    assert (Hd' : 1 <= Zdigits2 m')
      by (unfold n2, e' in *; fexp_lia).
    assert (Hpos : 0 < m') by (destruct m'; cbn in Hd'; lia).
    destruct (Zdigits2_bounds m' Hpos) as [_ [_ Hhi]].
    assert (Hge : 2 ^ Zdigits2 m' <= mr).
    { destruct (Zdigits2_bounds mr ltac:(lia)) as [_ [Hlo _]].
      now replace (Zdigits2 mr - 1) with (Zdigits2 m') in Hlo by lia. }
    assert (Heven : mr = 2 * 2 ^ (Zdigits2 m' - 1)).
    { rewrite <- Z.pow_succ_r by lia.
      replace (Z.succ (Zdigits2 m' - 1)) with (Zdigits2 m') by lia. lia. }
    pose proof (pow2_pos (Zdigits2 m' - 1) ltac:(lia)) as Hp.
    cbn [shr shr_record_of_loc iter_pos].
    destruct mr as [|[p|p|]|p] eqn:Emr; try lia.
    cbn [shr_1 shr_m]. right. exists p, (e' + 1).
    split; [reflexivity|]. split; [|right; split; [reflexivity | lia]].
    unfold canonical_mantissa. apply Z.eqb_eq.
    assert (Hdp : Zdigits2 (Zpos p~0) = Zpos (digits2_pos p) + 1)
      by (cbn [Zdigits2 digits2_pos]; lia).
    unfold n2 in E2. rewrite Hdp in E2.
    replace (Zpos (digits2_pos p) + (e' + 1))
      with (Zpos (digits2_pos p) + 1 + e') by lia. lia.
Qed.

(** The location the division computes from the remainder. *)
Lemma new_location_inv (N D : Z) :
  0 <= N -> 0 < D ->
  shr_inv N D (shr_record_of_loc (N / D) (new_location D (N mod D))).
Proof.
  intros HN HD. pose proof (Z.mod_pos_bound N D HD) as Hb.
  unfold shr_inv. rewrite shr_m_of_loc.
  split; [exact HD|]. split; [exact HN|]. split; [reflexivity|].
  set (R := N mod D) in *.
  unfold new_location, new_location_even, new_location_odd.
  destruct (Z.even D) eqn:Hev.
  - destruct (Z.eqb_spec R 0) as [E | E]; cbn [shr_record_of_loc shr_r shr_s].
    + split; lia.
    + destruct (Z.compare_spec (2 * R) D);
        cbn [shr_record_of_loc shr_r shr_s]; split; lia.
  - assert (Hodd : 2 * R <> D).
    { intros E. rewrite <- E, Z.even_mul in Hev. discriminate. }
    destruct (Z.eqb_spec R 0) as [E | E]; cbn [shr_record_of_loc shr_r shr_s].
    + split; lia.
    + destruct (Z.compare_spec (2 * R + 1) D);
        cbn [shr_record_of_loc shr_r shr_s]; split; lia.
Qed.

Lemma cancel_pow2 (P x y : Z) : 0 < P -> P * x <= P * y -> x <= y.
Proof. intros. nia. Qed.

(** The quotient of two positive integers [k <= n], as [SFdiv] rounds it:
    zero or a valid positive float [m2 / 2 ^ a2], within half a unit of
    its last place of [k / n]. *)
Lemma SFdiv_nat_spec (k n : positive) :
  Zpos k <= Zpos n ->
  exists m2 a2,
    51 <= a2 /\ 0 <= m2
    /\ 2 * Z.abs (m2 * Zpos n - Zpos k * 2 ^ a2) <= Zpos n
    /\ ((m2 = 0
         /\ SFdiv prec emax (S754_finite false k 0) (S754_finite false n 0)
            = S754_zero false)
        \/ exists p,
             Zpos p = m2
             /\ SFdiv prec emax (S754_finite false k 0) (S754_finite false n 0)
                = S754_finite false p (- a2)
             /\ valid_binary (S754_finite false p (- a2)) = true).
Proof.
  intros Hkn.
  destruct (Zdigits2_bounds (Zpos k) ltac:(lia)) as [Hd1 [Hk1 Hk2]].
  destruct (Zdigits2_bounds (Zpos n) ltac:(lia)) as [Hd2 [Hn1 Hn2]].
  set (d1 := Zdigits2 (Zpos k)) in *. set (d2 := Zdigits2 (Zpos n)) in *.
  assert (Hd12 : d1 <= d2) by (apply Zdigits2_mono; lia).
  set (e0 := fexp prec emax (d1 - d2)).
  assert (He0 : -1074 <= e0 <= -53) by (unfold e0; fexp_lia).
  set (s := - e0). set (N := Zpos k * 2 ^ s).
  pose proof (pow2_pos s ltac:(lia)) as H2s.
  assert (Hcore : SFdiv_core_binary prec emax (Zpos k) 0 (Zpos n) 0
                  = (N / Zpos n, e0, new_location (Zpos n) (N mod Zpos n))).
  { unfold SFdiv_core_binary. fold d1 d2.
    replace (d1 + 0 - (d2 + 0)) with (d1 - d2) by lia. fold e0.
    replace (Z.min e0 (0 - 0)) with e0 by lia.
    replace (0 - 0 - e0) with s by (unfold s; lia).
    assert (Hsh : match s with
                  | Zpos _ => Z.shiftl (Zpos k) s
                  | 0 => Zpos k
                  | Zneg _ => 0
                  end = N).
    { unfold N. rewrite <- Z.shiftl_mul_pow2 by lia.
      destruct s eqn:Es; reflexivity || lia. }
    rewrite Hsh. unfold Z.div, Z.modulo.
    now destruct (Z.div_eucl N (Zpos n)). }
  assert (HN : 0 <= N) by (unfold N; nia).
  pose proof (new_location_inv N (Zpos n) HN ltac:(lia)) as Hinv.
  set (q := N / Zpos n) in *.
  assert (Hq0 : 0 <= q) by (apply Z.div_pos; lia).
  assert (Hq2 : q <= 2 ^ s).
  { apply Z.lt_succ_r, Z.div_lt_upper_bound; [lia|]. unfold N. nia. }
  assert (Hdq : Zdigits2 q <= s + 1).
  { apply Zdigits2_le; [lia|]. rewrite Z.pow_add_r by lia.
    change (2 ^ 1) with 2. lia. }
  assert (Hprec : e0 <= fexp prec emax (Zdigits2 q + e0)).
  { destruct (Z.eq_dec e0 (-1074)) as [E | E]; [fexp_lia|].
    assert (Es : s = d2 - d1 + 53) by (unfold s, e0 in *; fexp_lia).
    assert (Hge : 2 ^ 52 <= q).
    { apply Z.div_le_lower_bound; [lia|]. unfold N.
      assert (E2 : 2 ^ (d1 - 1) * 2 ^ s = 2 ^ d2 * 2 ^ 52).
      { rewrite <- !Z.pow_add_r by lia. f_equal. lia. }
      pose proof (pow2_pos 52 ltac:(lia)). nia. }
    pose proof (Zdigits2_ge q 52 ltac:(lia) Hge). fexp_lia. }
  destruct (binary_round_aux_spec false N (Zpos n) q e0 _ Hinv Hprec)
    as (mr & Hmr0 & Hnear & Hres).
  set (e' := fexp prec emax (Zdigits2 q + e0)) in *.
  assert (He' : e0 <= e' <= -52) by (unfold e'; fexp_lia).
  set (a := - e').
  assert (Hbound : 2 * Z.abs (mr * Zpos n - Zpos k * 2 ^ a) <= Zpos n).
  { pose proof (pow2_pos (e' - e0) ltac:(lia)) as HP.
    apply (cancel_pow2 (2 ^ (e' - e0))); [exact HP|].
    assert (E2 : 2 ^ s = 2 ^ (e' - e0) * 2 ^ a).
    { rewrite <- Z.pow_add_r by (unfold a; lia). f_equal. unfold s, a. lia. }
    unfold N in Hnear. rewrite E2 in Hnear.
    replace (2 ^ (e' - e0) * (2 * Z.abs (mr * Zpos n - Zpos k * 2 ^ a)))
      with (2 * Z.abs (2 ^ (e' - e0) * (mr * Zpos n - Zpos k * 2 ^ a))).
    - replace (2 ^ (e' - e0) * (mr * Zpos n - Zpos k * 2 ^ a))
        with (mr * (2 ^ (e' - e0) * Zpos n)
              - Zpos k * (2 ^ (e' - e0) * 2 ^ a)) by ring.
      exact Hnear.
    - rewrite Z.abs_mul, (Z.abs_eq (2 ^ (e' - e0))) by lia. ring. }
  unfold SFdiv. rewrite Hcore. cbn [xorb].
  destruct Hres as [[E0 Hz] | (p & e2 & Hfin & Hcan & Hval)].
  - exists 0, a. split; [unfold a; lia|]. split; [lia|].
    split; [now rewrite <- E0|]. left. split; [reflexivity | exact Hz].
  - assert (He2 : e2 <= -51) by lia.
    assert (Hle : (e2 <=? emax - prec) = true) by (apply Z.leb_le; fexp_lia).
    rewrite Hle in Hfin.
    exists (Zpos p), (- e2). split; [lia|]. split; [lia|]. split.
    + destruct Hval as [[-> <-] | [-> Hp]].
      * exact Hbound.
      * replace (- (e' + 1)) with (a - 1) by (unfold a; lia).
        assert (E2 : 2 ^ a = 2 * 2 ^ (a - 1)).
        { rewrite <- Z.pow_succ_r by (unfold a; lia). f_equal. lia. }
        rewrite E2, <- Hp in Hbound. lia.
    + right. exists p. rewrite Z.opp_involutive.
      split; [reflexivity|]. split; [exact Hfin|].
      unfold valid_binary. cbn [SpecFloat.valid_binary]. unfold bounded.
      now rewrite Hcan, Hle.
Qed.

Lemma round_half_even_nonneg (num den : Z) :
  0 <= num -> 0 < den -> 0 <= round_half_even num den.
Proof.
  intros Hn Hd. unfold round_half_even.
  pose proof (Z.div_pos num den Hn Hd).
  destruct (2 * (num mod den) ?= den); [destruct (Z.even _)| |]; lia.
Qed.

(** The last step of [py_round], from the scaled integer back to a float,
    is the division of that integer by 100: checked on every integer the
    rate can scale to. *)
Lemma py_round_back_table :
  forallb
    (fun i =>
       PrimFloat.Leibniz.eqb
         (match Z.of_nat i with
          | Zpos r =>
              SF2Prim (SFdiv prec emax (S754_finite false r 0)
                             (S754_finite false (Z.to_pos (10 ^ Z.of_nat 2)) 0))
          | _ => SF2Prim (S754_zero false)
          end)
         (hundredths (Z.of_nat i)))
    (seq 0 (Z.to_nat 10001)) = true.
Proof. vm_compute. reflexivity. Qed.

Lemma py_round_back (m : Z) :
  0 <= m <= 10000 ->
  match m with
  | Zpos r =>
      SF2Prim (SFdiv prec emax (S754_finite false r 0)
                     (S754_finite false (Z.to_pos (10 ^ Z.of_nat 2)) 0))
  | _ => SF2Prim (S754_zero false)
  end = hundredths m.
Proof.
  intros Hm. pose proof py_round_back_table as H.
  rewrite forallb_forall in H.
  specialize (H (Z.to_nat m)).
  rewrite Z2Nat.id in H by lia.
  apply Leibniz.eqb_spec, H, in_seq. lia.
Qed.

(** [py_round x 2] on a positive float with a negative exponent: the
    nearest integer number of hundredths, converted back. *)
Lemma py_round_finite (x : float) (m3 : positive) (e3 : Z) :
  Prim2SF x = S754_finite false m3 e3 -> e3 < 0 ->
  exists m,
    0 <= m
    /\ 2 * Z.abs (100 * Zpos m3 - m * 2 ^ (- e3)) <= 2 ^ (- e3)
    /\ py_round x 2 =
       match m with
       | Zpos r =>
           SF2Prim (SFdiv prec emax (S754_finite false r 0)
                          (S754_finite false (Z.to_pos (10 ^ Z.of_nat 2)) 0))
       | _ => SF2Prim (S754_zero false)
       end.
Proof.
  intros Hx He. pose proof (pow2_pos (- e3) ltac:(lia)) as Hden.
  exists (round_half_even (Zpos m3 * 100) (2 ^ (- e3))).
  split; [apply round_half_even_nonneg; lia|]. split.
  - pose proof (round_half_even_nearest (Zpos m3 * 100) (2 ^ (- e3)) Hden).
    lia.
  - unfold py_round. rewrite Hx.
    replace (0 <=? e3) with false by (symmetry; apply Z.leb_gt; lia).
    change (10 ^ Z.of_nat 2) with 100.
    destruct (round_half_even (Zpos m3 * 100) (2 ^ (- e3))); reflexivity.
Qed.

Lemma shr_inv_exact (N : Z) :
  0 <= N -> shr_inv N 1 (shr_record_of_loc N loc_Exact).
Proof.
  intros HN. unfold shr_inv. cbn [shr_record_of_loc shr_m shr_r shr_s].
  rewrite Z.div_1_r, Z.mod_1_r. repeat split; lia.
Qed.

(** The product of a float [p / 2 ^ a2 <= 1] with 100, as [SFmul] rounds
    it: [mr / 2 ^ b], within half a unit of its last place. *)
Lemma SFmul_100_spec (p : positive) (a2 : Z) :
  51 <= a2 -> Zpos p <= 2 ^ a2 ->
  exists mr b,
    46 <= b <= a2 + 46 /\ 0 <= mr
    /\ 2 * Z.abs (mr * 2 ^ (a2 + 46 - b) - Zpos p * (100 * 2 ^ 46))
       <= 2 ^ (a2 + 46 - b)
    /\ ((mr = 0
         /\ SFmul prec emax (S754_finite false p (- a2)) (Prim2SF 100)
            = S754_zero false)
        \/ exists m3 e3,
             SFmul prec emax (S754_finite false p (- a2)) (Prim2SF 100)
               = S754_finite false m3 e3
             /\ e3 < 0
             /\ ((e3 = - b /\ Zpos m3 = mr)
                 \/ (e3 = - b + 1 /\ 2 * Zpos m3 = mr))).
Proof.
  intros Ha Hp.
  change (Prim2SF 100) with (S754_finite false 7036874417766400 (-46)).
  cbn [SFmul xorb]. rewrite Pos2Z.inj_mul.
  change (Zpos 7036874417766400) with (100 * 2 ^ 46).
  set (N := Zpos p * (100 * 2 ^ 46)). set (e := - a2 + -46).
  pose proof (pow2_pos a2 ltac:(lia)) as HA.
  assert (H46 : 2 ^ 46 = 70368744177664) by reflexivity.
  assert (HN : 2 ^ 52 <= N).
  { unfold N. change (2 ^ 52) with (1 * (64 * 2 ^ 46)). nia. }
  assert (HdN : 53 <= Zdigits2 N)
    by (pose proof (Zdigits2_ge N 52 ltac:(lia) HN); lia).
  assert (HdN' : Zdigits2 N <= a2 + 53).
  { apply Zdigits2_le; [lia|]. split; [lia|].
    rewrite Z.pow_add_r by lia. change (2 ^ 53) with (128 * 2 ^ 46).
    unfold N. nia. }
  assert (Hprec : e <= fexp prec emax (Zdigits2 N + e)) by fexp_lia.
  destruct (binary_round_aux_spec false N 1 N e loc_Exact
              (shr_inv_exact N ltac:(lia)) Hprec)
    as (mr & Hmr0 & Hnear & Hres).
  set (e' := fexp prec emax (Zdigits2 N + e)) in *.
  assert (He' : e <= e' <= -46) by (unfold e', e in *; fexp_lia).
  exists mr, (- e'). split; [unfold e in *; lia|]. split; [exact Hmr0|].
  replace (a2 + 46 - - e') with (e' - e) by (unfold e; lia).
  rewrite !Z.mul_1_r in Hnear. split; [exact Hnear|].
  destruct Hres as [[E0 Hz] | (m3 & e3 & Hfin & _ & Hval)].
  - left. split; [exact E0 | exact Hz].
  - right. exists m3, e3.
    replace (e3 <=? emax - prec) with true in Hfin
      by (symmetry; apply Z.leb_le; fexp_lia).
    split; [exact Hfin|]. split; [lia|]. rewrite Z.opp_involutive.
    exact Hval.
Qed.

Lemma abs_scale (c x b : Z) :
  0 <= c -> 2 * Z.abs x <= b -> 2 * Z.abs (c * x) <= c * b.
Proof. intros Hc H. rewrite Z.abs_mul, (Z.abs_eq c) by lia. nia. Qed.

(** The three rounding errors of the rate add up to less than
    [2 ^ -37] hundredths beside the half of the decimal rounding. *)
Lemma rate_error_chain (n k m m2 mr A B T : Z) :
  0 < n -> 0 <= k <= n ->
  2 ^ 51 <= A -> 2 ^ 46 <= B -> 0 < T -> T * B = A * 2 ^ 46 ->
  2 * Z.abs (m2 * n - k * A) <= n ->
  2 * Z.abs (mr * T - m2 * (100 * 2 ^ 46)) <= T ->
  2 * Z.abs (100 * mr - m * B) <= B ->
  2 ^ 37 * Z.abs (m * n - 10000 * k) <= (2 ^ 36 + 1) * n.
Proof.
  intros Hn Hk HA HB HT HTB H1 H2 H3.
  set (M := 100 * 2 ^ 46) in *.
  set (X := m * B - 100 * mr). set (Y := mr * T - m2 * M).
  set (Z3 := m2 * n - k * A). set (W := T * B).
  assert (HX : 2 * Z.abs X <= B) by (unfold X; lia).
  assert (Hid : (m * n - 10000 * k) * W
                = n * T * X + 100 * n * Y + 100 * M * Z3).
  { transitivity (n * T * (m * B) - 100 * 100 * k * (T * B));
      [unfold W; ring|].
    rewrite HTB. unfold X, Y, Z3, M. ring. }
  pose proof (abs_scale (n * T) X B ltac:(nia) HX) as B1.
  pose proof (abs_scale (100 * n) Y T ltac:(lia) H2) as B2.
  pose proof (abs_scale (100 * M) Z3 n ltac:(unfold M; lia) H1) as B3.
  assert (HW : 0 < W) by (unfold W; nia).
  assert (HW1 : T * 2 ^ 46 <= W) by (unfold W; nia).
  assert (HW2 : 2 ^ 51 * 2 ^ 46 <= W) by (unfold W; rewrite HTB; nia).
  assert (Habs : Z.abs ((m * n - 10000 * k) * W)
                 = W * Z.abs (m * n - 10000 * k))
    by (rewrite Z.abs_mul, (Z.abs_eq W) by lia; ring).
  apply (cancel_pow2 W); [exact HW|].
  replace (W * (2 ^ 37 * Z.abs (m * n - 10000 * k)))
    with (2 ^ 37 * Z.abs ((m * n - 10000 * k) * W)) by (rewrite Habs; ring).
  rewrite Hid.
  assert (Hsmall : 2 ^ 36 * (100 * T + 100 * M) <= W)
    by (unfold M; change (2 ^ 36) with 68719476736 in *;
        change (2 ^ 46) with 70368744177664 in *;
        change (2 ^ 51) with 2251799813685248 in *; lia).
  assert (Hn' : n * (2 ^ 36 * (100 * T + 100 * M)) <= n * W)
    by (apply Z.mul_le_mono_nonneg_l; lia).
  replace (n * T * B) with (n * W) in B1 by (unfold W; ring).
  change (2 ^ 37) with (2 ^ 36 * 2).
  change (2 ^ 36) with 68719476736 in *.
  lia.
Qed.

Lemma hundredths_le_10000 (n k m : Z) :
  0 < n -> 0 <= k <= n -> 0 <= m ->
  2 ^ 37 * Z.abs (m * n - 10000 * k) <= (2 ^ 36 + 1) * n ->
  m <= 10000.
Proof.
  intros Hn Hk Hm H. change (2 ^ 37) with 137438953472 in H.
  change (2 ^ 36) with 68719476736 in H. nia.
Qed.

(** The rate of [k] orders out of [n > 0], as the handler computes it:
    some whole number [m] of hundredths, converted to a float, where [m]
    is within a half (and the float errors, below [2 ^ -37]) of
    [10000 * k / n]. *)
Lemma completion_rate_value (k n : nat) :
  (k <= n)%nat -> (0 < n)%nat ->
  exists m,
    py_round (PrimFloat.mul (py_truediv k n) 100%float) 2 = hundredths m
    /\ 0 <= m <= 10000
    /\ 2 ^ 37 * Z.abs (m * Z.of_nat n - 10000 * Z.of_nat k)
       <= (2 ^ 36 + 1) * Z.of_nat n.
Proof.
  intros Hkn Hn. unfold py_truediv, int_as_SF.
  destruct (Z.of_nat n) as [|pn|pn] eqn:En; try lia.
  assert (Hzero : py_round (PrimFloat.mul (SF2Prim (S754_zero false)) 100) 2
                  = hundredths 0) by (vm_compute; reflexivity).
  destruct (Z.of_nat k) as [|pk|pk] eqn:Ek; try lia.
  - cbn [SFdiv xorb]. exists 0. split; [exact Hzero|]. cbn. lia.
  - destruct (SFdiv_nat_spec pk pn ltac:(lia))
      as (m2 & a2 & Ha2 & Hm2 & H1 & Hres).
    assert (HA : 2 ^ 51 <= 2 ^ a2) by (apply Z.pow_le_mono_r; lia).
    destruct Hres as [[E0 Hz] | (p & Ep & Hfin & Hvalid)].
    + rewrite Hz. exists 0. split; [exact Hzero|]. split; [lia|].
      subst m2. change (2 ^ 51) with 2251799813685248 in HA.
      change (2 ^ 37) with 137438953472. change (2 ^ 36) with 68719476736.
      nia.
    + rewrite Hfin. set (x := SF2Prim (S754_finite false p (- a2))).
      assert (Hx : Prim2SF x = S754_finite false p (- a2))
        by (apply Prim2SF_SF2Prim, Hvalid).
      assert (Hmul : Prim2SF (PrimFloat.mul x 100)
                     = SFmul prec emax (S754_finite false p (- a2))
                             (Prim2SF 100))
        by (rewrite mul_spec, Hx; reflexivity).
      assert (Hp : Zpos p <= 2 ^ a2) by nia.
      destruct (SFmul_100_spec p a2 Ha2 Hp)
        as (mr & b & Hb & Hmr & H2 & Hres2).
      rewrite Ep in H2.
      assert (HB : 2 ^ 46 <= 2 ^ b) by (apply Z.pow_le_mono_r; lia).
      pose proof (pow2_pos (a2 + 46 - b) ltac:(lia)) as HT.
      assert (HTB : 2 ^ (a2 + 46 - b) * 2 ^ b = 2 ^ a2 * 2 ^ 46)
        by (rewrite <- !Z.pow_add_r by lia; f_equal; lia).
      assert (Hfinal : forall m,
                 0 <= m ->
                 2 * Z.abs (100 * mr - m * 2 ^ b) <= 2 ^ b ->
                 0 <= m <= 10000
                 /\ 2 ^ 37 * Z.abs (m * Zpos pn - 10000 * Zpos pk)
                    <= (2 ^ 36 + 1) * Zpos pn).
      { intros m Hm0 H3.
        pose proof (rate_error_chain (Zpos pn) (Zpos pk) m m2 mr (2 ^ a2)
                      (2 ^ b) (2 ^ (a2 + 46 - b)) ltac:(lia) ltac:(lia)
                      HA HB HT HTB H1 H2 H3) as Hc.
        split; [|exact Hc]. split; [exact Hm0|].
        apply (hundredths_le_10000 (Zpos pn) (Zpos pk)); lia. }
      destruct Hres2 as [[E0 Hz] | (m3 & e3 & Hfin3 & He3 & Hval)].
      * exists 0. destruct (Hfinal 0) as [_ Hc]; [lia | subst mr; lia|].
        split; [|split; [lia | exact Hc]].
        unfold py_round. rewrite Hmul, Hz.
        rewrite <- (SF2Prim_Prim2SF (PrimFloat.mul x 100)), Hmul, Hz.
        reflexivity.
      * rewrite <- Hmul in Hfin3.
        destruct (py_round_finite _ m3 e3 Hfin3 He3)
          as (m & Hm0 & H3 & Hround).
        assert (H3' : 2 * Z.abs (100 * mr - m * 2 ^ b) <= 2 ^ b).
        { destruct Hval as [[-> <-] | [-> Hm3]].
          - now rewrite Z.opp_involutive in H3.
          - replace (- (- b + 1)) with (b - 1) in H3 by lia.
            assert (E : 2 ^ b = 2 * 2 ^ (b - 1)).
            { rewrite <- Z.pow_succ_r by lia. f_equal. lia. }
            rewrite E, <- Hm3. lia. }
        destruct (Hfinal m Hm0 H3') as [Hrange Hc].
        exists m. split; [|split; [exact Hrange | exact Hc]].
        rewrite Hround. apply py_round_back, Hrange.
Qed.

End Binary64.

(** C8.  For every caller the dashboard leaves the store unchanged and
    reports, over the work orders matching the caller's ownership
    predicate: their number as [total_orders], the numbers of completed
    and approved ones, and as [completion_rate] the float
    (completed + approved) / total_orders * 100 rounded to 2 decimals,
    which is 0 when no order is in scope.  Rounded to 2 decimals: the
    rate is the float of a whole number [m] of hundredths between 0 and
    100.00, and [m / 100] differs from
    100 * (completed + approved) / total_orders by at most 0.005, the
    half unit of the decimal rounding, and a float error below
    [2 ^ -37] hundredths. *)
Theorem dashboard_completion_rate (u : User.t) (d : Database) :
  let scoped := filter (visible_to u) (work_orders d) in
  let total := List.length scoped in
  let finished :=
    count_status COMPLETED scoped + count_status APPROVED scoped in
  exists s,
    get_dashboard_stats u d = (inr s, d)
    /\ total_orders s = total
    /\ completed s = count_status COMPLETED scoped
    /\ approved s = count_status APPROVED scoped
    /\ completion_rate s = completion_rate_of scoped
    /\ completion_rate s =
       (if Nat.eqb (total_orders s) 0
        then 0%float
        else py_round
               (PrimFloat.mul
                  (py_truediv (completed s + approved s) (total_orders s))
                  100%float) 2)
    /\ (scoped = [] -> completion_rate s = 0%float)
    /\ exists m : Z,
         completion_rate s = hundredths m
         /\ (0 <= m <= 10000)%Z
         /\ (2 ^ 37 * Z.abs (m * Z.of_nat total - 10000 * Z.of_nat finished)
             <= (2 ^ 36 + 1) * Z.of_nat total)%Z.
Proof.
  intros scoped total finished. eexists. split.
  - unfold get_dashboard_stats. run_handler.
    rewrite !count_scoped_status, !filter_role_query. fold scoped.
    reflexivity.
  - cbn [total_orders completed approved completion_rate].
    unfold completion_rate_of. fold total finished.
    pose proof (count_status_partition scoped) as Hpart. fold total in Hpart.
    split; [reflexivity|]. split; [reflexivity|]. split; [reflexivity|].
    split; [|split; [|split]].
    + destruct total; [apply py_round_zero | reflexivity].
    + destruct total; [apply py_round_zero | reflexivity].
    + intros E. unfold total. rewrite E. apply py_round_zero.
    + destruct total as [|n'] eqn:Etotal.
      * exists 0%Z. split; [vm_compute; reflexivity|].
        replace finished with 0 by (unfold finished; lia). cbn. lia.
      * cbn [Nat.ltb Nat.leb].
        apply (completion_rate_value finished (S n')); unfold finished; lia.
Qed.

(** Two of the client's three orders are completed or approved: the rate
    is 66.67 (the float nearest to it). *)
Example dashboard_two_of_three :
  option_map completion_rate
    (match fst (get_dashboard_stats alice db3) with
     | inr s => Some s
     | inl _ => None
     end)
  = Some (PrimFloat.div 6667%float 100%float).
Proof. vm_compute. reflexivity. Qed.

(** With no order in scope every count and the rate are 0. *)
Example dashboard_empty_scope :
  fst (get_dashboard_stats alice db0) =
  inr (mkDashboardStats 0 0 0 0 0 0%float 0%float).
Proof. vm_compute. reflexivity. Qed.

(** * Properties of the other routes *)

(** ** Reading one work order *)

Lemma opt_str_neq_visible (o : option string) (s : string) :
  opt_str_neq o s = negb match o with Some a => a =? s | None => false end.
Proof. now destruct o. Qed.

(** The answer of [get_work_order], by cases on the store. *)
Lemma get_work_order_result (work_order_id : string) (u : User.t) (d : Database) :
  get_work_order work_order_id u d =
  (match List.find (wo_id_is work_order_id) (work_orders d) with
   | None => inl (mkHTTPException 404 "Work order not found")
   | Some w =>
       if visible_to u w then inr w
       else inl (mkHTTPException 403 "Access denied")
   end, d).
Proof.
  unfold get_work_order, visible_to. run_handler.
  destruct (List.find _ _) as [w|]; [|reflexivity].
  rewrite opt_str_neq_visible.
  destruct (User.role u); cbn [role_eqb andb];
    try reflexivity.
  - destruct (WorkOrder.assigned_to_id w) as [a|]; [destruct (a =? User.id u)|];
      reflexivity.
  - destruct (WorkOrder.client_id w =? User.id u); reflexivity.
Qed.

Lemma find_is_stored {A} (q : A -> bool) (l : list A) (x : A) :
  List.find q l = Some x -> In x l /\ q x = true.
Proof. apply find_some. Qed.

(** X1.  [get_work_order] answers with an order only when that order is
    stored under the id and the caller's ownership predicate (the one of
    the listing) holds for it; the store is left as it was; and when at
    most 1000 orders are visible to the caller, the order is also in the
    caller's listing. *)
Theorem get_work_order_within_listing
    (work_order_id : string) (u : User.t) (d d' : Database) (w : WorkOrder.t) :
  get_work_order work_order_id u d = (inr w, d') ->
  d' = d
  /\ In w (work_orders d)
  /\ WorkOrder.id w = work_order_id
  /\ visible_to u w = true
  /\ (List.length (filter (visible_to u) (work_orders d)) <= 1000 ->
      exists l, get_work_orders u d = (inr l, d) /\ In w l).
Proof.
  rewrite get_work_order_result.
  destruct (List.find _ _) as [x|] eqn:Hfind; [|discriminate].
  destruct (visible_to u x) eqn:Hvis; [|discriminate].
  intros E. assert (x = w) by congruence. assert (d' = d) by congruence.
  subst x d'. apply find_is_stored in Hfind. destruct Hfind as [Hin Hid].
  apply String.eqb_eq in Hid.
  repeat split; try assumption.
  intros Hle. eexists. split.
  - unfold get_work_orders. run_handler. reflexivity.
  - rewrite filter_role_query. unfold to_list.
    rewrite firstn_all2
      by now rewrite (Permutation_length (sort_desc_perm _ _)).
    apply (Permutation_in _ (Permutation_sym (sort_desc_perm _ _))).
    apply filter_In. now split.
Qed.

Lemma get_work_order_within_listing_witness :
  db1 = db1
  /\ In leak_order (work_orders db1)
  /\ WorkOrder.id leak_order = "wo-1"
  /\ visible_to alice leak_order = true
  /\ (List.length (filter (visible_to alice) (work_orders db1)) <= 1000 ->
      exists l, get_work_orders alice db1 = (inr l, db1) /\ In leak_order l).
Proof.
  apply (get_work_order_within_listing "wo-1" alice db1 db1 leak_order).
  reflexivity.
Defined.

(** X2.  When [get_work_order] fails the store is left as it was, and the
    error is 404 exactly when no order is stored under the id and 403
    exactly when the first order under the id fails the caller's
    ownership predicate. *)
Theorem get_work_order_refusals
    (work_order_id : string) (u : User.t) (d d' : Database) (e : HTTPException) :
  get_work_order work_order_id u d = (inl e, d') ->
  d' = d
  /\ ((status_code e = 404
       /\ List.find (wo_id_is work_order_id) (work_orders d) = None)
      \/ (status_code e = 403
          /\ exists w,
               List.find (wo_id_is work_order_id) (work_orders d) = Some w
               /\ visible_to u w = false)).
Proof.
  rewrite get_work_order_result.
  destruct (List.find _ _) as [x|] eqn:Hfind.
  - destruct (visible_to u x) eqn:Hvis; [discriminate|].
    intros [= <- <-]. split; [reflexivity|]. right. split; [reflexivity|].
    now exists x.
  - intros [= <- <-]. split; [reflexivity|]. now left.
Qed.

Lemma get_work_order_refusals_witness :
  db1 = db1
  /\ ((status_code (mkHTTPException 403 "Access denied") = 404
       /\ List.find (wo_id_is "wo-1") (work_orders db1) = None)
      \/ (status_code (mkHTTPException 403 "Access denied") = 403
          /\ exists w,
               List.find (wo_id_is "wo-1") (work_orders db1) = Some w
               /\ visible_to bob w = false)).
Proof.
  apply (get_work_order_refusals "wo-1" bob
           db1 db1 (mkHTTPException 403 "Access denied")).
  reflexivity.
Defined.

(** ** Creation, deletion and reading compose *)

Lemma find_app_fresh {A} (q : A -> bool) (l : list A) (x : A) :
  existsb q l = false -> q x = true -> List.find q (l ++ [x]) = Some x.
Proof.
  intros Hfresh Hx. induction l as [|y l IH]; simpl in *.
  - now rewrite Hx.
  - apply orb_false_iff in Hfresh. destruct Hfresh as [Hy Hl].
    rewrite Hy. now apply IH.
Qed.

(** X3.  A work order just created can be read back: when no stored order
    had the id drawn for it, [get_work_order] on the new id returns the
    created order, for every caller the order is visible to. *)
Theorem create_then_get_work_order
    (env : Env) (wo_data : WorkOrderCreate.t) (u viewer : User.t)
    (d d' : Database) (w : WorkOrder.t) :
  create_work_order env wo_data u d = (inr w, d') ->
  existsb (wo_id_is (uuid4 env 0)) (work_orders d) = false ->
  visible_to viewer w = true ->
  get_work_order (WorkOrder.id w) viewer d' = (inr w, d').
Proof.
  intros Hc Hfresh Hvis.
  apply create_work_order_success in Hc.
  destruct Hc as [-> [_ [Hid _]]].
  rewrite get_work_order_result. cbn [work_orders].
  rewrite Hid, find_app_fresh; [now rewrite Hvis | exact Hfresh |].
  unfold wo_id_is. rewrite Hid. apply String.eqb_refl.
Qed.

Lemma create_then_get_work_order_witness :
  exists w d',
    create_work_order env0 (leak_request None) boss db0 = (inr w, d')
    /\ get_work_order (WorkOrder.id w) alice d' = (inr w, d').
Proof.
  destruct (create_work_order env0 (leak_request None) boss db0)
    as [[e | w] d'] eqn:E; [vm_compute in E; discriminate|].
  exists w, d'. split; [reflexivity|].
  apply (create_then_get_work_order env0 (leak_request None) boss alice
           db0 d' w E); [reflexivity|].
  apply create_work_order_success in E.
  destruct E as [_ [_ [_ [_ [Hclient _]]]]].
  unfold visible_to. simpl. rewrite Hclient. reflexivity.
Defined.

Lemma delete_first_absent {A} (q : A -> bool) (l : list A) :
  List.find q l = None -> delete_first q l = l.
Proof.
  induction l as [|x l IH]; simpl; [reflexivity|].
  destruct (q x); [discriminate|]. intros H. now rewrite IH.
Qed.

Lemma delete_first_length {A} (q : A -> bool) (l : list A) (x : A) :
  List.find q l = Some x ->
  S (List.length (delete_first q l)) = List.length l.
Proof.
  induction l as [|y l IH]; simpl; [discriminate|].
  destruct (q y); [reflexivity|]. intros H. simpl. now rewrite IH.
Qed.

Lemma delete_first_incl {A} (q : A -> bool) (l : list A) (x : A) :
  In x (delete_first q l) -> In x l.
Proof.
  induction l as [|y l IH]; simpl; [tauto|].
  destruct (q y); simpl; [tauto|]. intros [H | H]; auto.
Qed.

Lemma delete_first_keeps {A} (q : A -> bool) (l : list A) (x : A) :
  In x l -> q x = false -> In x (delete_first q l).
Proof.
  induction l as [|y l IH]; simpl; [tauto|].
  intros [-> | Hin] Hq.
  - rewrite Hq. now left.
  - destruct (q y); [exact Hin|]. right. now apply IH.
Qed.

Lemma find_after_delete_unique (work_order_id : string) (l : list WorkOrder.t) :
  NoDup (map WorkOrder.id l) ->
  List.find (wo_id_is work_order_id)
            (delete_first (wo_id_is work_order_id) l) = None.
Proof.
  induction l as [|x l IH]; simpl; [reflexivity|].
  intros Hnd. inversion Hnd as [|? ? Hnotin Hnd']; subst.
  destruct (wo_id_is work_order_id x) eqn:Ex; simpl.
  - destruct (List.find (wo_id_is work_order_id) l) as [y|] eqn:Ey;
      [|reflexivity].
    apply find_some in Ey. destruct Ey as [Hin Hy].
    unfold wo_id_is in *. apply String.eqb_eq in Ex, Hy.
    exfalso. apply Hnotin. rewrite Ex, <- Hy. now apply in_map.
  - rewrite Ex. now apply IH.
Qed.

(** The answer of [delete_work_order], by cases on the caller's role and
    the store. *)
Lemma delete_work_order_result (work_order_id : string) (u : User.t) (d : Database) :
  delete_work_order work_order_id u d =
  if existsb (role_eqb (User.role u)) [ADMIN; SUPERVISOR]
  then match List.find (wo_id_is work_order_id) (work_orders d) with
       | Some _ =>
           (inr "Work order deleted successfully",
            mkDatabase (users d)
              (delete_first (wo_id_is work_order_id) (work_orders d))
              (cost_entries d) (notifications d))
       | None => (inl (mkHTTPException 404 "Work order not found"), d)
       end
  else (inl (mkHTTPException 403 "Insufficient permissions"), d).
Proof.
  unfold delete_work_order, require_role.
  destruct (existsb _ _); cbn [negb]; run_handler; [|reflexivity].
  rewrite find_existsb.
  destruct (List.find _ _) eqn:Hfind; cbn [Nat.eqb]; run_handler;
    [reflexivity|].
  rewrite (delete_first_absent _ _ Hfind). now destruct d.
Qed.

(** X4.  A successful [delete_work_order] removes exactly one stored order,
    one that had the given id; every order with another id stays, and the
    users, cost entries (also those of the deleted order) and
    notifications are as before.  A failed one leaves the store as it
    was. *)
Theorem delete_work_order_effect
    (work_order_id : string) (u : User.t) (d : Database) :
  match delete_work_order work_order_id u d with
  | (inr _, d') =>
      S (List.length (work_orders d')) = List.length (work_orders d)
      /\ (forall x, In x (work_orders d') -> In x (work_orders d))
      /\ (forall x, In x (work_orders d) -> WorkOrder.id x <> work_order_id ->
                    In x (work_orders d'))
      /\ users d' = users d
      /\ cost_entries d' = cost_entries d
      /\ notifications d' = notifications d
  | (inl _, d') => d' = d
  end.
Proof.
  rewrite delete_work_order_result.
  destruct (existsb _ _); [|reflexivity].
  destruct (List.find _ _) as [w|] eqn:Hfind; [|reflexivity].
  cbn [work_orders users cost_entries notifications].
  repeat split.
  - now apply (delete_first_length _ _ w).
  - intros x. apply delete_first_incl.
  - intros x Hin Hne. apply delete_first_keeps; [exact Hin|].
    unfold wo_id_is. now apply String.eqb_neq.
Qed.

(** X5.  In a store whose work orders have pairwise distinct ids, after a
    successful deletion the id is gone: [get_work_order] on it answers 404
    for every caller. *)
Theorem delete_then_get_work_order
    (work_order_id : string) (u viewer : User.t) (d d' : Database) (m : string) :
  NoDup (map WorkOrder.id (work_orders d)) ->
  delete_work_order work_order_id u d = (inr m, d') ->
  get_work_order work_order_id viewer d' =
    (inl (mkHTTPException 404 "Work order not found"), d').
Proof.
  intros Hnd. rewrite delete_work_order_result.
  destruct (existsb _ _); [|discriminate].
  destruct (List.find _ _) as [w|]; [|discriminate].
  intros [= _ <-]. rewrite get_work_order_result. cbn [work_orders].
  now rewrite find_after_delete_unique.
Qed.

Lemma delete_then_get_work_order_witness :
  get_work_order "wo-1" alice
    (snd (delete_work_order "wo-1" boss db1)) =
  (inl (mkHTTPException 404 "Work order not found"),
   snd (delete_work_order "wo-1" boss db1)).
Proof.
  apply (delete_then_get_work_order "wo-1" boss alice db1 _
           "Work order deleted successfully").
  - simpl. constructor; [tauto | constructor].
  - reflexivity.
Defined.

(** ** Who may update, and what an update keeps *)

(** A technician is refused on a stored order that is not assigned to the
    technician's id. *)
Lemma update_work_order_unassigned_technician
    (env : Env) (work_order_id : string) (updates : WorkOrderUpdate.t)
    (u : User.t) (d : Database) (w : WorkOrder.t) :
  User.role u = TECHNICIAN ->
  List.find (wo_id_is work_order_id) (work_orders d) = Some w ->
  WorkOrder.assigned_to_id w <> Some (User.id u) ->
  update_work_order env work_order_id updates u d =
  (inl (mkHTTPException 403
          "You can only update your assigned work orders"), d).
Proof.
  intros Hrole Hfind Hna. unfold update_work_order. run_handler.
  rewrite Hfind, Hrole. cbn [role_eqb andb].
  destruct (WorkOrder.assigned_to_id w) as [a|]; cbn [opt_str_neq].
  - destruct (a =? User.id u) eqn:E; [|reflexivity].
    apply String.eqb_eq in E. subst a. contradiction.
  - reflexivity.
Qed.

(** X6.  A technician's update of a stored order goes through when the
    order is assigned to the technician's id, and is refused with 403, the
    store left as it was, when it is not. *)
Theorem technician_update_iff_assigned
    (env : Env) (work_order_id : string) (updates : WorkOrderUpdate.t)
    (u : User.t) (d : Database) (w : WorkOrder.t) :
  User.role u = TECHNICIAN ->
  List.find (wo_id_is work_order_id) (work_orders d) = Some w ->
  (WorkOrder.assigned_to_id w = Some (User.id u) ->
   exists w' d',
     update_work_order env work_order_id updates u d = (inr (Some w'), d'))
  /\ (WorkOrder.assigned_to_id w <> Some (User.id u) ->
      update_work_order env work_order_id updates u d =
      (inl (mkHTTPException 403
              "You can only update your assigned work orders"), d)).
Proof.
  intros Hrole Hfind. split.
  - intros Ha. do 2 eexists.
    apply (update_work_order_authorized env work_order_id updates u d w Hfind).
    split; [rewrite Hrole; discriminate | now intros _].
  - now apply update_work_order_unassigned_technician.
Qed.

Lemma technician_update_iff_assigned_witness :
  (WorkOrder.assigned_to_id leak_order = Some (User.id tech) ->
   exists w' d',
     update_work_order env0 "wo-1" status_pending_again tech db1
     = (inr (Some w'), d'))
  /\ (WorkOrder.assigned_to_id leak_order <> Some (User.id tech) ->
      update_work_order env0 "wo-1" status_pending_again tech db1 =
      (inl (mkHTTPException 403
              "You can only update your assigned work orders"), db1)).
Proof.
  apply (technician_update_iff_assigned env0 "wo-1" status_pending_again
           tech db1 leak_order); reflexivity.
Defined.

Lemma map_update_first {A B} (q : A -> bool) (f : A -> A) (key : A -> B)
    (l : list A) :
  (forall x, key (f x) = key x) ->
  map key (update_first q f l) = map key l.
Proof.
  intros Hk. induction l as [|x l IH]; simpl; [reflexivity|].
  destruct (q x); simpl; [now rewrite Hk | now rewrite IH].
Qed.

Lemma update_first_keeps {A} (q : A -> bool) (f : A -> A) (l : list A) (x : A) :
  In x l -> q x = false -> In x (update_first q f l).
Proof.
  induction l as [|y l IH]; simpl; [tauto|].
  intros [-> | Hin] Hq.
  - rewrite Hq. now left.
  - destruct (q y); right; [exact Hin | now apply IH].
Qed.

(** X7.  An authorized update never adds or removes a work order and never
    changes an order's id, request id, client, creator or creation time:
    these columns of the collection are the same before and after; orders
    with another id are untouched, and so are the users and the cost
    entries. *)
Theorem update_work_order_keeps_identity
    (env : Env) (work_order_id : string) (updates : WorkOrderUpdate.t)
    (u : User.t) (d : Database) (w : WorkOrder.t) :
  List.find (wo_id_is work_order_id) (work_orders d) = Some w ->
  may_update u w ->
  let d' := snd (update_work_order env work_order_id updates u d) in
  map WorkOrder.id (work_orders d') = map WorkOrder.id (work_orders d)
  /\ map WorkOrder.request_id (work_orders d')
     = map WorkOrder.request_id (work_orders d)
  /\ map WorkOrder.client_id (work_orders d')
     = map WorkOrder.client_id (work_orders d)
  /\ map WorkOrder.created_by_id (work_orders d')
     = map WorkOrder.created_by_id (work_orders d)
  /\ map WorkOrder.created_at (work_orders d')
     = map WorkOrder.created_at (work_orders d)
  /\ (forall x, In x (work_orders d) -> WorkOrder.id x <> work_order_id ->
                In x (work_orders d'))
  /\ users d' = users d
  /\ cost_entries d' = cost_entries d.
Proof.
  intros Hfind Hmay d'. subst d'.
  rewrite (update_work_order_authorized _ _ _ _ _ _ Hfind Hmay).
  cbn [snd work_orders users cost_entries].
  repeat split; try (apply map_update_first; reflexivity).
  intros x Hin Hne. apply update_first_keeps; [exact Hin|].
  unfold wo_id_is. now apply String.eqb_neq.
Qed.

Lemma update_work_order_keeps_identity_witness :
  let d' := snd (update_work_order env0 "wo-1" total_cost_one boss db2) in
  map WorkOrder.id (work_orders d') = map WorkOrder.id (work_orders db2)
  /\ map WorkOrder.request_id (work_orders d')
     = map WorkOrder.request_id (work_orders db2)
  /\ map WorkOrder.client_id (work_orders d')
     = map WorkOrder.client_id (work_orders db2)
  /\ map WorkOrder.created_by_id (work_orders d')
     = map WorkOrder.created_by_id (work_orders db2)
  /\ map WorkOrder.created_at (work_orders d')
     = map WorkOrder.created_at (work_orders db2)
  /\ (forall x, In x (work_orders db2) -> WorkOrder.id x <> "wo-1" ->
                In x (work_orders d'))
  /\ users d' = users db2
  /\ cost_entries d' = cost_entries db2.
Proof.
  apply (update_work_order_keeps_identity env0 "wo-1" total_cost_one boss db2
           (set_total_cost 35.5%float "2024-01-16T09:00:00.00001" leak_order)).
  - reflexivity.
  - split; [discriminate | discriminate].
Defined.

(** ** Cost entries *)

(** X8.  A cost entry just created is listed: when the order had fewer
    than 100 entries, [get_cost_entries] after a successful
    [create_cost_entry] contains the new entry, whoever asks, and lists
    only entries of that order. *)
Theorem create_then_get_cost_entries
    (env : Env) (work_order_id : string) (cost_data : CostEntryCreate.t)
    (u viewer : User.t) (d d' : Database) (c : CostEntry.t) :
  create_cost_entry env work_order_id cost_data u d = (inr c, d') ->
  List.length (filter (cost_of work_order_id) (cost_entries d)) < 100 ->
  exists l,
    get_cost_entries work_order_id viewer d' = (inr l, d')
    /\ In c l
    /\ (forall x, In x l -> CostEntry.work_order_id x = work_order_id).
Proof.
  intros Hc Hlen.
  assert (Hd : cost_entries d' = cost_entries d ++ [c]
               /\ CostEntry.work_order_id c = work_order_id).
  { revert Hc. unfold create_cost_entry, require_role.
    destruct (negb _); run_handler; [discriminate|].
    destruct (List.find _ _); [|discriminate].
    intros [= <- <-]. split; reflexivity. }
  destruct Hd as [Hd Hc_id].
  assert (Hf : filter (cost_of work_order_id) (cost_entries d')
               = filter (cost_of work_order_id) (cost_entries d) ++ [c]).
  { rewrite Hd, filter_app. cbn [filter]. unfold cost_of at 2.
    now rewrite Hc_id, String.eqb_refl. }
  exists (to_list 100 (sort_desc CostEntry.created_at
                         (filter (cost_of work_order_id) (cost_entries d')))).
  split; [reflexivity|].
  unfold to_list. rewrite firstn_all2.
  - rewrite Hf. split.
    + apply (Permutation_in _ (Permutation_sym (sort_desc_perm _ _))).
      apply in_or_app. right. now left.
    + intros x Hin.
      apply (Permutation_in _ (sort_desc_perm _ _)) in Hin.
      apply in_app_or in Hin. destruct Hin as [Hin | [<- | []]];
        [|exact Hc_id].
      apply filter_In in Hin. destruct Hin as [_ Hq].
      now apply String.eqb_eq in Hq.
  - rewrite (Permutation_length (sort_desc_perm _ _)), Hf, length_app.
    cbn [List.length]. lia.
Qed.

Lemma create_then_get_cost_entries_witness :
  exists c d' l,
    create_cost_entry env0 "wo-1" (log_cost 4.5%float) tech db2 = (inr c, d')
    /\ get_cost_entries "wo-1" alice d' = (inr l, d')
    /\ In c l
    /\ (forall x, In x l -> CostEntry.work_order_id x = "wo-1").
Proof.
  destruct (create_cost_entry env0 "wo-1" (log_cost 4.5%float) tech db2)
    as [[e | c] d'] eqn:E; [vm_compute in E; discriminate|].
  destruct (create_then_get_cost_entries env0 "wo-1" (log_cost 4.5%float)
              tech alice db2 d' c E) as [l Hl].
  - simpl. lia.
  - exists c, d', l. split; [reflexivity | exact Hl].
Defined.

(** X9.  [create_cost_entry] looks only at the caller's role, not at the
    assignment: a technician to whom a stored order is not assigned is
    refused by [update_work_order] (403) but can log a cost on it, which
    rewrites the order's [total_cost]. *)
Theorem unassigned_technician_can_log_cost
    (env : Env) (work_order_id : string) (updates : WorkOrderUpdate.t)
    (cost_data : CostEntryCreate.t) (u : User.t) (d : Database)
    (w : WorkOrder.t) :
  User.role u = TECHNICIAN ->
  List.find (wo_id_is work_order_id) (work_orders d) = Some w ->
  WorkOrder.assigned_to_id w <> Some (User.id u) ->
  List.length (filter (cost_of work_order_id) (cost_entries d)) < 1000 ->
  fst (update_work_order env work_order_id updates u d) =
    inl (mkHTTPException 403 "You can only update your assigned work orders")
  /\ exists c d' w',
      create_cost_entry env work_order_id cost_data u d = (inr c, d')
      /\ List.find (wo_id_is work_order_id) (work_orders d') = Some w'
      /\ WorkOrder.total_cost w' =
         py_sum (map CostEntry.amount
                     (filter (cost_of work_order_id) (cost_entries d)
                      ++ [c])).
Proof.
  intros Hrole Hfind Hna Hlen. split.
  - now rewrite (update_work_order_unassigned_technician env work_order_id
                   updates u d w Hrole Hfind Hna).
  - assert (Hr : existsb (role_eqb (User.role u))
                   [ADMIN; SUPERVISOR; TECHNICIAN] = true)
      by now rewrite Hrole.
    destruct (create_cost_entry_total_below_bound env work_order_id cost_data
                u d w Hr Hfind Hlen) as [c [d' [w' [Hc [Hf Ht]]]]].
    exists c, d', w'. split; [exact Hc|]. split; [exact Hf|].
    rewrite Ht.
    rewrite (create_cost_entry_authorized _ _ _ _ _ _ Hr Hfind) in Hc.
    injection Hc as Hc Hd. subst d'. cbn [cost_entries].
    rewrite filter_app. cbn [filter]. unfold cost_of at 2.
    cbn [CostEntry.work_order_id]. rewrite String.eqb_refl.
    now rewrite Hc.
Qed.

Lemma unassigned_technician_can_log_cost_witness :
  fst (update_work_order env0 "wo-1" total_cost_one tom db2) =
    inl (mkHTTPException 403 "You can only update your assigned work orders")
  /\ exists c d' w',
      create_cost_entry env0 "wo-1" (log_cost 4.5%float) tom db2 = (inr c, d')
      /\ List.find (wo_id_is "wo-1") (work_orders d') = Some w'
      /\ WorkOrder.total_cost w' =
         py_sum (map CostEntry.amount
                     (filter (cost_of "wo-1") (cost_entries db2) ++ [c])).
Proof.
  apply (unassigned_technician_can_log_cost env0 "wo-1" total_cost_one
           (log_cost 4.5%float) tom db2
           (set_total_cost 35.5%float "2024-01-16T09:00:00.00001" leak_order)).
  - reflexivity.
  - reflexivity.
  - discriminate.
  - simpl. lia.
Defined.

(** ** Logging in *)

(** The answer of [login], by cases on the stored user. *)
Lemma login_result (env : Env)
    (verify_password : string -> string -> option bool)
    (credentials : UserLogin.t) (d : Database) :
  login env verify_password credentials d =
  (match List.find (email_is (UserLogin.email credentials)) (users d) with
   | None => inl (mkHTTPException 401 "Invalid credentials")
   | Some usr =>
       match User.password_hash usr with
       | None => inl (mkHTTPException 401 "Invalid credentials")
       | Some hashed =>
           if hashed =? ""
           then inl (mkHTTPException 401 "Invalid credentials")
           else
             match verify_password (UserLogin.password credentials) hashed
             with
             | None => inl (mkHTTPException 500 "Internal Server Error")
             | Some false => inl (mkHTTPException 401 "Invalid credentials")
             | Some true =>
                 if User.is_active usr
                 then inr (mkLoginResponse
                             (jwt_encode env (User.id usr) (User.email usr)
                                         (utcnow env 0))
                             (User.id usr) (User.email usr) (User.name usr)
                             (User.role usr) (User.picture usr))
                 else inl (mkHTTPException 401 "Account is inactive")
             end
       end
   end, d).
Proof.
  unfold login, truthy, email_is. run_handler.
  destruct (List.find _ _) as [usr|]; [|reflexivity].
  destruct (User.password_hash usr) as [h|]; [|reflexivity].
  destruct (h =? ""); cbn [negb]; [reflexivity|].
  destruct (verify_password _ h) as [[|]|]; cbn [negb]; try reflexivity.
  destruct (User.is_active usr); reflexivity.
Qed.

(** X10.  [login] never changes the store.  A failure is a 500 exactly
    when the password check itself raises on the non-empty hash of the
    first stored user with the email, and a 401 otherwise.  A success
    means that this user has a non-empty password hash which the password
    verifies against and is active, and the answer carries that user's
    id, email and role and a token signed for that id and email. *)
Theorem login_outcome (env : Env)
    (verify_password : string -> string -> option bool)
    (credentials : UserLogin.t) (d : Database) :
  let check_raises :=
    exists usr hashed,
      List.find (email_is (UserLogin.email credentials)) (users d) = Some usr
      /\ User.password_hash usr = Some hashed
      /\ hashed <> ""
      /\ verify_password (UserLogin.password credentials) hashed = None in
  snd (login env verify_password credentials d) = d
  /\ (forall e, fst (login env verify_password credentials d) = inl e ->
                (status_code e = 500 /\ check_raises)
                \/ (status_code e = 401 /\ ~ check_raises))
  /\ (forall r, fst (login env verify_password credentials d) = inr r ->
        exists usr hashed,
          List.find (email_is (UserLogin.email credentials)) (users d)
            = Some usr
          /\ User.password_hash usr = Some hashed
          /\ hashed <> ""
          /\ verify_password (UserLogin.password credentials) hashed
             = Some true
          /\ User.is_active usr = true
          /\ login_id r = User.id usr
          /\ login_email r = UserLogin.email credentials
          /\ login_role r = User.role usr
          /\ login_token r =
             jwt_encode env (User.id usr) (User.email usr) (utcnow env 0)).
Proof.
  intros check_raises. rewrite login_result. cbn [fst snd].
  split; [reflexivity|].
  assert (H401 : forall detail e,
             ~ check_raises ->
             inl (mkHTTPException 401 detail) = @inl _ LoginResponse e ->
             (status_code e = 500 /\ check_raises)
             \/ (status_code e = 401 /\ ~ check_raises)).
  { intros detail e Hno [= <-]. right. now split. }
  destruct (List.find _ _) as [usr|] eqn:Hfind.
  2:{ split; [|discriminate]. intros e. apply H401.
      intros [u [h [Hu _]]]. discriminate. }
  destruct (User.password_hash usr) as [h|] eqn:Hh.
  2:{ split; [|discriminate]. intros e. apply H401.
      intros [u [h [Hu [Hp _]]]]. congruence. }
  destruct (h =? "") eqn:Hempty.
  { split; [|discriminate]. intros e. apply H401.
    intros [u [h' [Hu [Hp [Hne _]]]]].
    apply String.eqb_eq in Hempty. congruence. }
  apply String.eqb_neq in Hempty.
  destruct (verify_password _ h) as [[|]|] eqn:Hv.
  - destruct (User.is_active usr) eqn:Ha.
    + split; [discriminate|].
      intros r [= <-]. exists usr, h. cbn.
      apply find_some in Hfind. destruct Hfind as [_ He].
      apply String.eqb_eq in He. repeat split; auto.
    + split; [|discriminate]. intros e. apply H401.
      intros [u [h' [Hu [Hp [_ Hn]]]]]. congruence.
  - split; [|discriminate]. intros e. apply H401.
    intros [u [h' [Hu [Hp [_ Hn]]]]]. congruence.
  - split; [|discriminate]. intros e [= <-]. left. split; [reflexivity|].
    now exists usr, h.
Qed.

(** ** Registration *)

(** What a successful [register] found and wrote. *)
Lemma register_success (env : Env) (user_data : UserCreate.t)
    (d d' : Database) (r : AuthResponse) :
  register env user_data d = (inr r, d') ->
  let user :=
    User.mk (uuid4 env 0) (UserCreate.email user_data)
            (UserCreate.name user_data) (UserCreate.role user_data)
            (Some (hashpw env (UserCreate.password user_data)))
            None true (utcnow env 0) in
  List.find (email_is (UserCreate.email user_data)) (users d) = None
  /\ d' = mkDatabase (users d ++ [user]) (work_orders d) (cost_entries d)
                     (notifications d)
  /\ auth_id r = uuid4 env 0
  /\ auth_role r = UserCreate.role user_data.
Proof.
  unfold register, email_is. run_handler.
  destruct (List.find _ _); [discriminate|].
  intros [= <- <-]. repeat split.
Qed.

Lemma register_failure (env : Env) (user_data : UserCreate.t)
    (d d' : Database) (e : HTTPException) :
  register env user_data d = (inl e, d') -> d' = d.
Proof.
  unfold register. run_handler.
  destruct (List.find _ _); [now intros [= _ <-] | discriminate].
Qed.

Lemma find_none_existsb {A} (q : A -> bool) (l : list A) :
  List.find q l = None -> existsb q l = false.
Proof. intros H. now rewrite find_existsb, H. Qed.

(** X11.  Registration and login compose: after a successful [register],
    [login] with the same email and password succeeds on the new store
    (given that the hash written is not empty and verifies the password,
    as a bcrypt hash does), and it answers with the id and the role of
    the registration; the role is the one the registration request asked
    for. *)
Theorem register_then_login
    (env env' : Env) (verify_password : string -> string -> option bool)
    (user_data : UserCreate.t) (d d' : Database) (r : AuthResponse) :
  register env user_data d = (inr r, d') ->
  hashpw env (UserCreate.password user_data) <> "" ->
  verify_password (UserCreate.password user_data)
                  (hashpw env (UserCreate.password user_data)) = Some true ->
  exists r',
    login env' verify_password
          (UserLogin.mk (UserCreate.email user_data)
                        (UserCreate.password user_data)) d' = (inr r', d')
    /\ login_id r' = auth_id r
    /\ login_role r' = UserCreate.role user_data.
Proof.
  intros Hreg Hne Hv. apply register_success in Hreg.
  destruct Hreg as [Hnone [-> [Hid _]]].
  rewrite login_result. cbn [users UserLogin.email UserLogin.password].
  rewrite find_app_fresh;
    [| now apply find_none_existsb | apply String.eqb_refl].
  cbn [User.password_hash User.is_active].
  apply String.eqb_neq in Hne. rewrite Hne, Hv.
  eexists. split; [reflexivity|]. cbn. now rewrite Hid.
Qed.

Lemma register_then_login_witness :
  exists r d' r',
    register env0 carol_signup db0 = (inr r, d')
    /\ login (env_at 1)
             (fun password hashed =>
                Some (same_text hashed (hashpw env0 password)))
             (UserLogin.mk "carol@example.com" "s3cret") d' = (inr r', d')
    /\ login_id r' = auth_id r
    /\ login_role r' = ADMIN.
Proof.
  destruct (register env0 carol_signup db0) as [[e | r] d'] eqn:E;
    [vm_compute in E; discriminate|].
  destruct (register_then_login env0 (env_at 1)
              (fun password hashed =>
                Some (same_text hashed (hashpw env0 password)))
              carol_signup db0 d' r E) as [r' Hr'].
  - discriminate.
  - reflexivity.
  - exists r, d', r'. split; [reflexivity | exact Hr'].
Defined.

Lemma find_email_none_not_in (e : string) (l : list User.t) :
  List.find (email_is e) l = None -> ~ In e (map User.email l).
Proof.
  intros Hnone Hin. apply in_map_iff in Hin. destruct Hin as [u [He Hin]].
  apply (find_none _ _ Hnone) in Hin. unfold email_is in Hin.
  rewrite He, String.eqb_refl in Hin. discriminate.
Qed.

Lemma NoDup_snoc {A} (l : list A) (x : A) :
  NoDup l -> ~ In x l -> NoDup (l ++ [x]).
Proof.
  intros Hnd Hx. apply NoDup_app; [exact Hnd | repeat constructor; tauto |].
  intros y Hy [<- | []]. exact (Hx Hy).
Qed.

(** X12.  [register] keeps emails unique: if no two stored users share an
    email before, none do after, whether it succeeds or fails; and it
    adds at most one user and removes none. *)
Theorem register_keeps_emails_unique
    (env : Env) (user_data : UserCreate.t) (d : Database) :
  NoDup (map User.email (users d)) ->
  NoDup (map User.email (users (snd (register env user_data d))))
  /\ (forall u, In u (users d) ->
                In u (users (snd (register env user_data d))))
  /\ List.length (users (snd (register env user_data d)))
     <= S (List.length (users d)).
Proof.
  intros Hnd.
  destruct (register env user_data d) as [[e | r] d'] eqn:E; cbn [snd].
  - apply register_failure in E. subst d'. auto.
  - apply register_success in E. destruct E as [Hnone [-> _]].
    cbn [users]. rewrite map_app, length_app. cbn [map List.length User.email].
    split; [|split].
    + apply NoDup_snoc; [exact Hnd | now apply find_email_none_not_in].
    + intros u Hin. apply in_or_app. now left.
    + lia.
Qed.

Lemma register_keeps_emails_unique_witness :
  NoDup (map User.email (users (snd (register env0 carol_signup db0))))
  /\ (forall u, In u (users db0) ->
                In u (users (snd (register env0 carol_signup db0))))
  /\ List.length (users (snd (register env0 carol_signup db0)))
     <= S (List.length (users db0)).
Proof.
  apply (register_keeps_emails_unique env0 carol_signup db0).
  simpl. repeat constructor; simpl; intuition discriminate.
Defined.

(** ** Deactivating a user *)

Lemma deactivate_user_result (user_id : string) (u : User.t) (d : Database) :
  deactivate_user user_id u d =
  if existsb (role_eqb (User.role u)) [ADMIN]
  then match List.find (user_id_is user_id) (users d) with
       | Some _ =>
           (inr "User deactivated successfully",
            mkDatabase (update_first (user_id_is user_id) set_inactive (users d))
                       (work_orders d) (cost_entries d) (notifications d))
       | None => (inl (mkHTTPException 404 "User not found"), d)
       end
  else (inl (mkHTTPException 403 "Insufficient permissions"), d).
Proof.
  unfold deactivate_user, require_role.
  destruct (existsb _ _); cbn [negb]; run_handler; [|reflexivity].
  rewrite find_existsb.
  destruct (List.find _ _) eqn:Hfind; cbn [Nat.eqb]; run_handler;
    [reflexivity|].
  assert (Hsame : update_first (user_id_is user_id) set_inactive (users d)
                  = users d).
  { clear -Hfind. induction (users d) as [|x l IH]; simpl in *; [reflexivity|].
    destruct (user_id_is user_id x); [discriminate|]. now rewrite IH. }
  rewrite Hsame. now destruct d.
Qed.

Lemma find_by_key_after_update {A} (key : A -> string) (q : A -> bool)
    (f : A -> A) (l : list A) (x : A) :
  NoDup (map key l) ->
  (forall y, key (f y) = key y) ->
  List.find q l = Some x ->
  List.find (fun y => key y =? key x) (update_first q f l) = Some (f x).
Proof.
  intros Hnd Hkey. induction l as [|y l IH]; simpl; [discriminate|].
  inversion Hnd as [|? ? Hnotin Hnd']; subst.
  destruct (q y) eqn:Ey.
  - intros [= <-]. simpl. now rewrite Hkey, String.eqb_refl.
  - intros Hfind. simpl.
    destruct (key y =? key x) eqn:Ek.
    + apply String.eqb_eq in Ek. apply find_some in Hfind.
      exfalso. apply Hnotin. rewrite Ek. apply in_map. tauto.
    + auto.
Qed.

(** X13.  Deactivation locks the account: in a store with unique emails,
    after [deactivate_user] succeeded on a stored user, [login] with that
    user's email never succeeds, whatever the password, and the store is
    not changed by the attempt.  The refusal is a 401, except when the
    password check itself raises on the user's non-empty stored hash: that
    exception is not caught, and the answer is a 500. *)
Theorem deactivate_then_login
    (env : Env) (verify_password : string -> string -> option bool)
    (user_id password : string) (admin usr : User.t) (d d' : Database)
    (m : string) :
  NoDup (map User.email (users d)) ->
  List.find (user_id_is user_id) (users d) = Some usr ->
  deactivate_user user_id admin d = (inr m, d') ->
  exists e,
    login env verify_password (UserLogin.mk (User.email usr) password) d'
      = (inl e, d')
    /\ status_code e =
       match User.password_hash usr with
       | Some hashed =>
           if hashed =? "" then 401
           else match verify_password password hashed with
                | None => 500
                | Some _ => 401
                end
       | None => 401
       end.
Proof.
  intros Hnd Hfind. rewrite deactivate_user_result, Hfind.
  destruct (existsb _ _); [|discriminate].
  intros [= _ <-]. rewrite login_result.
  cbn [users UserLogin.email UserLogin.password]. unfold email_is.
  rewrite (find_by_key_after_update User.email _ _ _ usr Hnd); auto.
  cbn [set_inactive User.password_hash User.is_active].
  destruct (User.password_hash usr) as [h|]; [|eexists; split; reflexivity].
  destruct (h =? ""); [eexists; split; reflexivity|].
  destruct (verify_password password h) as [[|]|];
    eexists; split; reflexivity.
Qed.

(** On the sample store Alice's stored hash is not one the library
    accepts, so the check raises and the answer is 500; for an account
    without a password hash (one that signs in with Google) it is 401. *)
Lemma deactivate_then_login_witness :
  (exists e,
     login env0 (fun _ _ => None)
           (UserLogin.mk (User.email alice) "anything")
           (snd (deactivate_user "u-alice" boss db0))
       = (inl e, snd (deactivate_user "u-alice" boss db0))
     /\ status_code e = 500)
  /\ (exists e,
        login env0 (fun _ _ => None)
              (UserLogin.mk (User.email alice) "anything")
              (snd (deactivate_user "u-alice" boss db0_google))
          = (inl e, snd (deactivate_user "u-alice" boss db0_google))
        /\ status_code e = 401).
Proof.
  split.
  - apply (deactivate_then_login env0 (fun _ _ => None) "u-alice"
             "anything" boss alice db0 _ "User deactivated successfully").
    + simpl. repeat constructor; simpl; intuition discriminate.
    + reflexivity.
    + reflexivity.
  - apply (deactivate_then_login env0 (fun _ _ => None) "u-alice"
             "anything" boss (set_password_hash None alice) db0_google _
             "User deactivated successfully").
    + simpl. repeat constructor; simpl; intuition discriminate.
    + reflexivity.
    + reflexivity.
Defined.

(** ** Notifications *)

Lemma map_if_keeps {A} (q : A -> bool) (f : A -> A) (l : list A) (x : A) :
  In x l -> q x = false -> In x (map (fun y => if q y then f y else y) l).
Proof.
  intros Hin Hq. apply in_map_iff. exists x. now rewrite Hq.
Qed.

(** X14.  [mark_all_notifications_read] always succeeds; afterwards every
    notification of the caller is read, every notification of another
    user is in the store as it was, no notification was added or removed,
    and the other collections are unchanged. *)
Theorem mark_all_notifications_read_effect (u : User.t) (d : Database) :
  exists d',
    mark_all_notifications_read u d =
      (inr "All notifications marked as read", d')
    /\ (forall n, In n (notifications d') ->
                  Notification.user_id n = User.id u ->
                  Notification.is_read n = true)
    /\ (forall n, In n (notifications d) ->
                  Notification.user_id n <> User.id u ->
                  In n (notifications d'))
    /\ map Notification.id (notifications d')
       = map Notification.id (notifications d)
    /\ map Notification.user_id (notifications d')
       = map Notification.user_id (notifications d)
    /\ users d' = users d
    /\ work_orders d' = work_orders d
    /\ cost_entries d' = cost_entries d.
Proof.
  eexists. split; [unfold mark_all_notifications_read, update_many;
                   run_handler; reflexivity|].
  cbn [notifications users work_orders cost_entries].
  repeat split.
  - intros n Hin Hown. apply in_map_iff in Hin. destruct Hin as [x [Hx Hin]].
    destruct (notification_of (User.id u) x) eqn:Eq; subst n;
      [reflexivity|].
    unfold notification_of in Eq. apply String.eqb_neq in Eq. contradiction.
  - intros n Hin Hother. apply map_if_keeps; [exact Hin|].
    unfold notification_of. now apply String.eqb_neq.
  - rewrite map_map. apply map_ext. intros x.
    now destruct (notification_of (User.id u) x).
  - rewrite map_map. apply map_ext. intros x.
    now destruct (notification_of (User.id u) x).
Qed.

Lemma update_first_same {A} (q : A -> bool) (f : A -> A) (l : list A) :
  List.find q l = None -> update_first q f l = l.
Proof.
  induction l as [|x l IH]; simpl; [reflexivity|].
  destruct (q x); [discriminate|]. intros H. now rewrite IH.
Qed.

(** X15.  [mark_notification_read] is scoped by id and owner: when the
    caller owns no notification with the id (also when another user owns
    one), the answer is 404 and the store is as it was; otherwise it
    succeeds, the caller's first notification with the id is read
    afterwards, and in both cases every notification of another user is
    in the store as it was. *)
Theorem mark_notification_read_scope
    (notification_id : string) (u : User.t) (d : Database) :
  let d' := snd (mark_notification_read notification_id u d) in
  (forall n, In n (notifications d) ->
             Notification.user_id n <> User.id u -> In n (notifications d'))
  /\ match List.find (is_own_notification notification_id u) (notifications d)
     with
     | None =>
         mark_notification_read notification_id u d =
         (inl (mkHTTPException 404 "Notification not found"), d)
     | Some n =>
         fst (mark_notification_read notification_id u d)
           = inr "Notification marked as read"
         /\ List.find (is_own_notification notification_id u)
                      (notifications d') = Some (set_read n)
         /\ map Notification.id (notifications d')
            = map Notification.id (notifications d)
     end.
Proof.
  assert (E : mark_notification_read notification_id u d =
              (if existsb (is_own_notification notification_id u)
                         (notifications d)
               then inr "Notification marked as read"
               else inl (mkHTTPException 404 "Notification not found"),
               mkDatabase (users d) (work_orders d) (cost_entries d)
                 (update_first (is_own_notification notification_id u)
                               set_read (notifications d)))).
  { unfold mark_notification_read. run_handler.
    fold (is_own_notification notification_id u).
    destruct (existsb _ _); reflexivity. }
  intros d'. subst d'. rewrite E. cbn [snd fst notifications]. split.
  - intros n Hin Hother. apply update_first_keeps; [exact Hin|].
    unfold is_own_notification.
    apply String.eqb_neq in Hother. rewrite Hother. apply andb_false_r.
  - rewrite find_existsb.
    destruct (List.find _ _) as [n|] eqn:Hfind.
    + split; [reflexivity|]. split.
      * now apply find_update_first.
      * now apply map_update_first.
    + rewrite (update_first_same _ _ _ Hfind). now destruct d.
Qed.

Lemma filter_length_app_le {A} (q : A -> bool) (l l' : list A) :
  List.length (filter q (l ++ l')) <= List.length (filter q l) + List.length l'.
Proof.
  rewrite filter_app, length_app.
  pose proof (filter_length_le q l'). lia.
Qed.

(** X16.  The client is told of a new work order: after a successful
    [create_work_order], if the client had fewer than 49 notifications,
    [get_notifications] for a user with the client's id lists a
    notification titled "New Work Order" that links to the new order, and
    it lists only notifications addressed to that user. *)
Theorem create_then_get_notifications
    (env : Env) (wo_data : WorkOrderCreate.t) (u client : User.t)
    (d d' : Database) (w : WorkOrder.t) :
  create_work_order env wo_data u d = (inr w, d') ->
  User.id client = WorkOrderCreate.client_id wo_data ->
  List.length (filter (notification_of (User.id client)) (notifications d))
    < 49 ->
  exists l n,
    get_notifications client d' = (inr l, d')
    /\ In n l
    /\ Notification.title n = "New Work Order"
    /\ Notification.link n = Some ("/work-orders/" ++ WorkOrder.id w)%string
    /\ (forall x, In x l -> Notification.user_id x = User.id client).
Proof.
  intros Hc Hid Hlen.
  apply create_work_order_success in Hc. destruct Hc as [Hd _].
  set (own := filter (notification_of (User.id client)) (notifications d')).
  assert (Hown : List.length own <= 50).
  { unfold own. rewrite Hd. cbn [notifications].
    pose proof (filter_length_app_le (notification_of (User.id client))
                  (notifications d) (creation_notices env wo_data w)) as H.
    assert (List.length (creation_notices env wo_data w) <= 2).
    { unfold creation_notices.
      destruct (WorkOrderCreate.assigned_to_id wo_data) as [a|];
        [destruct (a =? "")|]; simpl; lia. }
    lia. }
  exists (to_list 50 (limit 50 (sort_desc Notification.created_at own))).
  eexists. split; [reflexivity|].
  unfold to_list, limit.
  rewrite !firstn_all2;
    try (rewrite ?firstn_all2;
         rewrite (Permutation_length (sort_desc_perm _ _)); exact Hown).
  split; [|split; [|split]].
  - apply (Permutation_in _ (Permutation_sym (sort_desc_perm _ _))).
    unfold own. apply filter_In. split.
    + rewrite Hd. cbn [notifications]. apply in_or_app. right.
      unfold creation_notices. left. reflexivity.
    + unfold notification_of. cbn [Notification.user_id].
      rewrite Hid. apply String.eqb_refl.
  - reflexivity.
  - reflexivity.
  - intros x Hin. apply (Permutation_in _ (sort_desc_perm _ _)) in Hin.
    unfold own in Hin. apply filter_In in Hin. destruct Hin as [_ Hq].
    now apply String.eqb_eq in Hq.
Qed.

Lemma create_then_get_notifications_witness :
  exists w d' l n,
    create_work_order env0 (leak_request (Some "u-tech")) boss db0 = (inr w, d')
    /\ get_notifications alice d' = (inr l, d')
    /\ In n l
    /\ Notification.title n = "New Work Order"
    /\ Notification.link n = Some ("/work-orders/" ++ WorkOrder.id w)%string
    /\ (forall x, In x l -> Notification.user_id x = User.id alice).
Proof.
  destruct (create_work_order env0 (leak_request (Some "u-tech")) boss db0)
    as [[e | w] d'] eqn:E; [vm_compute in E; discriminate|].
  destruct (create_then_get_notifications env0 (leak_request (Some "u-tech"))
              boss alice db0 d' w E) as [l [n H]].
  - reflexivity.
  - simpl. lia.
  - exists w, d', l, n. split; [reflexivity | exact H].
Defined.

(** * Properties of the routes over the whole store *)

Ltac run_route :=
  cbv beta iota zeta delta
    [route_bind route_ret route_raise on_core store_find_one store_find
     store_insert_one store_delete_many store_update_one_upsert
     sdocs set_sdocs db_comments db_sessions db_preventive_maintenance
     db_company_settings
     bind ret raise find_one find count_documents insert_one update_one
     delete_one create_notification docs set_docs
     db_users db_work_orders db_cost_entries db_notifications];
  cbn [core comments sessions preventive_maintenance company_settings
       users work_orders cost_entries notifications fst snd].

Lemma set_core_same (s : Store) : set_core (core s) s = s.
Proof. now destruct s. Qed.

(** ** Authentication *)

Lemma user_of_cookie_result (auth : AuthEnv) (request : Request) (s : Store) :
  user_of_cookie auth request s = (inr (cookie_user auth request s), s).
Proof.
  unfold user_of_cookie, cookie_user, truthy.
  destruct (cookie_session_token request) as [t|]; [|reflexivity].
  destruct (t =? ""); cbn [negb]; [reflexivity|]. run_route.
  destruct (List.find _ (sessions s)) as [session|]; [|reflexivity].
  destruct (session_live auth _); [|reflexivity].
  now rewrite set_core_same.
Qed.

(** The answer of [get_current_user], by cases on what the request
    presents. *)
Lemma get_current_user_result (auth : AuthEnv) (request : Request) (s : Store) :
  get_current_user auth request s =
  (match cookie_user auth request s with
   | Some u => inr u
   | None =>
       match bearer_token request with
       | Some token =>
           match decode_token auth token with
           | inl e => inl e
           | inr payload_user_id =>
               match match payload_user_id with
                     | Some user_id =>
                         active_user (List.find (user_id_is user_id)
                                                (users (core s)))
                     | None => None
                     end with
               | Some u => inr u
               | None => inl (mkHTTPException 401 "Not authenticated")
               end
           end
       | None => inl (mkHTTPException 401 "Not authenticated")
       end
   end, s).
Proof.
  unfold get_current_user, route_bind at 1.
  rewrite user_of_cookie_result.
  destruct (cookie_user auth request s) as [u|]; [reflexivity|].
  unfold bearer_token, truthy.
  destruct (header_authorization request) as [h|]; [|reflexivity].
  destruct (negb (h =? "") && starts_with_bearer h); [|reflexivity].
  destruct (decode_token auth _) as [e | [user_id|]]; try reflexivity.
  run_route. rewrite set_core_same.
  now destruct (active_user _).
Qed.

Lemma active_user_sound (l : list User.t) (q : User.t -> bool) (u : User.t) :
  active_user (List.find q l) = Some u ->
  In u l /\ q u = true /\ User.is_active u = true.
Proof.
  unfold active_user. destruct (List.find q l) as [x|] eqn:Hfind;
    [|discriminate].
  destruct (User.is_active x) eqn:Ha; [|discriminate].
  intros [= <-]. apply find_some in Hfind. tauto.
Qed.

(** Whoever [get_current_user] returns is stored and active. *)
Lemma get_current_user_returns_active
    (auth : AuthEnv) (request : Request) (s : Store) (u : User.t) :
  fst (get_current_user auth request s) = inr u ->
  In u (users (core s)) /\ User.is_active u = true.
Proof.
  rewrite get_current_user_result. cbn [fst].
  destruct (cookie_user auth request s) as [x|] eqn:Hc.
  - intros [= <-]. unfold cookie_user in Hc.
    destruct (cookie_session_token request) as [t|]; [|discriminate].
    destruct (t =? ""); [discriminate|].
    destruct (List.find _ (sessions s)) as [session|]; [|discriminate].
    destruct (session_live auth _); [|discriminate].
    apply active_user_sound in Hc. tauto.
  - destruct (bearer_token request) as [token|]; [|discriminate].
    destruct (decode_token auth token) as [e | [user_id|]];
      try discriminate.
    destruct (active_user _) as [x|] eqn:Hu; [|discriminate].
    intros [= <-]. apply active_user_sound in Hu. tauto.
Qed.

(** X17.  [get_current_user] never changes the store, and whoever it
    returns is a stored user whose [is_active] flag is set: a cookie or a
    token that points to an unknown or inactive user authenticates
    nobody. *)
Theorem get_current_user_sound (auth : AuthEnv) (request : Request) (s : Store) :
  snd (get_current_user auth request s) = s
  /\ match fst (get_current_user auth request s) with
     | inr u => In u (users (core s)) /\ User.is_active u = true
     | inl _ =>
         cookie_user auth request s = None
         /\ forall user_id,
              option_map (decode_token auth) (bearer_token request)
                = Some (inr (Some user_id)) ->
              active_user (List.find (user_id_is user_id) (users (core s)))
                = None
     end.
Proof.
  split; [now rewrite get_current_user_result|].
  destruct (fst (get_current_user auth request s)) as [e | u] eqn:E.
  - revert E. rewrite get_current_user_result. cbn [fst].
    destruct (cookie_user auth request s); [discriminate|].
    intros E. split; [reflexivity|]. intros user_id Hd. revert E.
    destruct (bearer_token request) as [token|]; [|discriminate].
    cbn [option_map] in Hd. injection Hd as Hd. rewrite Hd.
    now destruct (active_user _).
  - now apply (get_current_user_returns_active auth request s u).
Qed.

(** X18.  The cookie wins: when the request's cookie names a stored live
    session of an active stored user, [get_current_user] returns that
    user whatever the Authorization header holds, also a token that would
    be refused. *)
Theorem get_current_user_cookie_first
    (auth : AuthEnv) (t : string) (header : option string) (s : Store)
    (session : SessionData.t) (u : User.t) :
  t <> "" ->
  List.find (fun x => SessionData.session_token x =? t) (sessions s)
    = Some session ->
  session_live auth (SessionData.expires_at session) = true ->
  List.find (user_id_is (SessionData.user_id session)) (users (core s))
    = Some u ->
  User.is_active u = true ->
  get_current_user auth (mkRequest (Some t) header) s = (inr u, s).
Proof.
  intros Ht Hs Hlive Hu Ha. rewrite get_current_user_result.
  unfold cookie_user. cbn [cookie_session_token].
  apply String.eqb_neq in Ht. rewrite Ht, Hs, Hlive, Hu.
  unfold active_user. now rewrite Ha.
Qed.

Lemma get_current_user_cookie_first_witness :
  get_current_user
    (mkAuthEnv (fun _ => InvalidTokenError) (fun _ => true))
    (mkRequest (Some "tok-alice") (Some "Bearer forged")) store1
  = (inr alice, store1).
Proof.
  apply (get_current_user_cookie_first
           (mkAuthEnv (fun _ => InvalidTokenError) (fun _ => true))
           "tok-alice" (Some "Bearer forged") store1 alice_session alice);
    try reflexivity.
  discriminate.
Defined.

(** ** Logging out *)





(** ** A login token authenticates *)

Lemma split_space_no_space (s : string) :
  has_space s = false -> split_space s = [s].
Proof.
  induction s as [|c s IH]; simpl; [reflexivity|].
  destruct (Ascii.eqb c " "); simpl; [discriminate|].
  intros H. now rewrite (IH H).
Qed.

Lemma bearer_token_of_header (token : string) (cookie : option string) :
  has_space token = false ->
  bearer_token (mkRequest cookie (Some ("Bearer " ++ token)%string))
  = Some token.
Proof.
  intros H. unfold bearer_token. cbn [header_authorization].
  assert (Hb : starts_with_bearer ("Bearer " ++ token) = true).
  { unfold starts_with_bearer. simpl.
    repeat (destruct (ascii_dec _ _) as [_ | Hne]; [|now elim Hne]).
    now destruct token. }
  rewrite Hb. simpl. now rewrite (split_space_no_space token H).
Qed.

Lemma find_by_unique_key {A} (key : A -> string) (l : list A) (x : A) :
  NoDup (map key l) -> In x l ->
  List.find (fun y => key y =? key x) l = Some x.
Proof.
  induction l as [|y l IH]; simpl; [tauto|].
  intros Hnd Hin. inversion Hnd as [|? ? Hnotin Hnd']; subst.
  destruct Hin as [-> | Hin].
  - now rewrite String.eqb_refl.
  - destruct (key y =? key x) eqn:E; [|now apply IH].
    apply String.eqb_eq in E. exfalso. apply Hnotin. rewrite E.
    now apply in_map.
Qed.

(** X20.  The token of a successful [login] authenticates its user: in a
    store whose users have pairwise distinct ids, if the token decodes to
    the id it was signed for and holds no space, a request that presents
    it as [Bearer] token (and no cookie) is answered by
    [get_current_user] with the stored user of the login's email, whose
    id is the one the login returned. *)
Theorem login_token_authenticates
    (env : Env) (verify_password : string -> string -> option bool)
    (auth : AuthEnv) (credentials : UserLogin.t) (s : Store)
    (r : LoginResponse) (d' : Database) :
  NoDup (map User.id (users (core s))) ->
  login env verify_password credentials (core s) = (inr r, d') ->
  jwt_decode auth (login_token r) = Payload (Some (login_id r)) ->
  has_space (login_token r) = false ->
  exists u,
    get_current_user auth
      (mkRequest None (Some ("Bearer " ++ login_token r)%string)) s
      = (inr u, s)
    /\ User.id u = login_id r
    /\ User.email u = UserLogin.email credentials.
Proof.
  intros Hnd Hlogin Hdec Hsp.
  rewrite login_result in Hlogin.
  destruct (List.find _ (users (core s))) as [usr|] eqn:Hfind;
    [|discriminate].
  destruct (User.password_hash usr) as [h|]; [|discriminate].
  destruct (h =? ""); [discriminate|].
  destruct (verify_password _ h) as [[|]|]; try discriminate.
  destruct (User.is_active usr) eqn:Hact; [|discriminate].
  assert (Hr : r = mkLoginResponse
                     (jwt_encode env (User.id usr) (User.email usr)
                                 (utcnow env 0))
                     (User.id usr) (User.email usr) (User.name usr)
                     (User.role usr) (User.picture usr)) by congruence.
  assert (Hid : login_id r = User.id usr) by now rewrite Hr.
  apply find_some in Hfind. destruct Hfind as [Hin He].
  unfold email_is in He. apply String.eqb_eq in He.
  exists usr. rewrite get_current_user_result.
  unfold cookie_user. cbn [cookie_session_token].
  rewrite (bearer_token_of_header _ None Hsp).
  unfold decode_token. rewrite Hdec, Hid.
  unfold user_id_is.
  rewrite (find_by_unique_key User.id _ usr Hnd Hin).
  unfold active_user. rewrite Hact. auto.
Qed.

Lemma login_token_authenticates_witness :
  exists u,
    get_current_user auth0
      (mkRequest None
         (Some ("Bearer " ++ login_token alice_login)%string)) store1
      = (inr u, store1)
    /\ User.id u = login_id alice_login
    /\ User.email u = "alice@example.com".
Proof.
  apply (login_token_authenticates env0 (fun _ _ => Some true) auth0
           (UserLogin.mk "alice@example.com" "pw") store1 alice_login
           (core store1)).
  - simpl. repeat constructor; simpl; intuition discriminate.
  - reflexivity.
  - reflexivity.
  - reflexivity.
Defined.

(** ** A deactivated user cannot authenticate *)

Lemma deactivated_in_store (user_id : string) (l : list User.t) (u : User.t) :
  NoDup (map User.id l) ->
  In u (update_first (user_id_is user_id) set_inactive l) ->
  User.id u = user_id ->
  User.is_active u = false.
Proof.
  induction l as [|y l IH]; simpl; [tauto|].
  intros Hnd Hin Hid. inversion Hnd as [|? ? Hnotin Hnd']; subst.
  destruct (user_id_is (User.id u) y) eqn:Ey.
  - destruct Hin as [<- | Hin]; [reflexivity|].
    unfold user_id_is in Ey. apply String.eqb_eq in Ey.
    exfalso. apply Hnotin. rewrite Ey. now apply in_map.
  - destruct Hin as [<- | Hin].
    + unfold user_id_is in Ey. now rewrite String.eqb_refl in Ey.
    + now apply IH.
Qed.

(** X21.  In a store whose users have pairwise distinct ids, once
    [deactivate_user] has succeeded for an id, no request authenticates as
    a user with that id, whatever cookie or token it presents. *)
Theorem deactivated_user_cannot_authenticate
    (auth : AuthEnv) (request : Request) (s : Store)
    (user_id : string) (admin : User.t) (m : string) (d' : Database)
    (u : User.t) :
  NoDup (map User.id (users (core s))) ->
  deactivate_user user_id admin (core s) = (inr m, d') ->
  fst (get_current_user auth request (set_core d' s)) = inr u ->
  User.id u <> user_id.
Proof.
  intros Hnd Hde Hauth Hid.
  rewrite deactivate_user_result in Hde.
  destruct (existsb _ _); [|discriminate].
  destruct (List.find _ _); [|discriminate].
  injection Hde as _ Hd. subst d'.
  apply get_current_user_returns_active in Hauth.
  destruct Hauth as [Hin Hact]. cbn [set_core core users] in Hin.
  rewrite (deactivated_in_store user_id _ u Hnd Hin Hid) in Hact.
  discriminate.
Qed.

Lemma deactivated_user_cannot_authenticate_witness :
  User.id boss <> "u-alice".
Proof.
  apply (deactivated_user_cannot_authenticate auth0
           (mkRequest (Some "tok-alice") (Some "Bearer u-boss.sig"))
           store1 "u-alice" boss "User deactivated successfully"
           (snd (deactivate_user "u-alice" boss (core store1))) boss).
  - simpl. repeat constructor; simpl; intuition discriminate.
  - reflexivity.
  - vm_compute. reflexivity.
Defined.

(** ** Comments *)

(** X22.  [create_comment] asks only that the work order exists, not who
    the caller is: on a stored order it succeeds for every user, appends
    one comment that carries the caller's id, name and role and leaves
    every other collection (the four core ones, the sessions, the
    preventive-maintenance tasks and the company settings) as it was,
    and, when the order had fewer than 100 comments, [get_comments] lists
    the new comment afterwards; on an absent order it answers 404 and
    leaves the store as it was. *)
Theorem create_comment_effect
    (env : Env) (work_order_id : string) (comment_data : CommentCreate.t)
    (u viewer : User.t) (s : Store) :
  match List.find (wo_id_is work_order_id) (work_orders (core s)) with
  | None =>
      create_comment env work_order_id comment_data u s =
      (inl (mkHTTPException 404 "Work order not found"), s)
  | Some _ =>
      exists c s',
        create_comment env work_order_id comment_data u s = (inr c, s')
        /\ Comment.user_id c = User.id u
        /\ Comment.user_name c = User.name u
        /\ Comment.user_role c = User.role u
        /\ Comment.content c = CommentCreate.content comment_data
        /\ comments s' = comments s ++ [c]
        /\ core s' = core s
        /\ sessions s' = sessions s
        /\ preventive_maintenance s' = preventive_maintenance s
        /\ company_settings s' = company_settings s
        /\ (List.length (filter (comment_of work_order_id) (comments s)) < 100 ->
            exists l, get_comments work_order_id viewer s' = (inr l, s')
                      /\ In c l)
  end.
Proof.
  unfold create_comment. run_route.
  destruct (List.find _ _) as [w|].
  - rewrite set_core_same. run_route.
    do 2 eexists. split; [reflexivity|].
    cbn [comments core sessions preventive_maintenance company_settings
         Comment.user_id Comment.user_name Comment.user_role
         Comment.content].
    repeat split.
    intros Hlen. eexists. split; [unfold get_comments; run_route; reflexivity|].
    rewrite filter_app. cbn [filter]. unfold comment_of at 2.
    cbn [Comment.work_order_id]. rewrite String.eqb_refl.
    unfold to_list. rewrite firstn_all2.
    + apply (Permutation_in _ (Permutation_sym (sort_desc_perm _ _))).
      apply in_or_app. right. now left.
    + rewrite (Permutation_length (sort_desc_perm _ _)), length_app.
      cbn [List.length]. lia.
  - now rewrite set_core_same.
Qed.

(** A client comments on an order of another client, which
    [get_work_order] refuses to show. *)
Example comment_on_foreign_order :
  fst (get_work_order "wo-1" bob db1)
    = inl (mkHTTPException 403 "Access denied")
  /\ exists c s',
      create_comment env0 "wo-1" (CommentCreate.mk "wo-1" "Any news?") bob
                     store1 = (inr c, s')
      /\ Comment.user_id c = "u-bob"
      /\ comments s' = [c].
Proof.
  split; [reflexivity|]. do 2 eexists.
  split; [vm_compute; reflexivity|]. split; reflexivity.
Qed.

(** ** Company settings *)

Lemma is_company_settings_set (updates : CompanySettingsUpdate.t)
    (now : string) (c : CompanySettings.t) :
  is_company_settings (set_settings updates now c) = is_company_settings c.
Proof. vm_compute. reflexivity. Qed.

(** X23.  Settings are created on first read and only then: on a store
    without a settings document [get_settings] answers the default
    document, whose id is "company_settings", company name "My Company",
    colours "#3b82f6" and "#10b981", time zone "UTC", which has no logo
    and is stamped with the time of the read; it stores that document and
    touches no other collection; a later read, by whomever and whenever,
    answers the same document and changes nothing. *)
Theorem get_settings_lazy_default
    (env env' : Env) (u u' : User.t) (s : Store) :
  List.find is_company_settings (company_settings s) = None ->
  let settings :=
    CompanySettings.mk "company_settings" "My Company" None "#3b82f6"
                       "#10b981" "UTC" (utcnow env 0) in
  exists s',
    get_settings env u s = (inr settings, s')
    /\ company_settings s' = company_settings s ++ [settings]
    /\ core s' = core s
    /\ comments s' = comments s
    /\ sessions s' = sessions s
    /\ preventive_maintenance s' = preventive_maintenance s
    /\ get_settings env' u' s' = (inr settings, s').
Proof.
  intros Hnone settings. eexists.
  split; [unfold get_settings; run_route; rewrite Hnone; run_route;
          reflexivity|].
  cbn [company_settings core comments sessions preventive_maintenance].
  repeat split.
  unfold get_settings. run_route.
  rewrite find_app_fresh;
    [reflexivity | now apply find_none_existsb | reflexivity].
Qed.

Lemma get_settings_lazy_default_witness :
  let settings :=
    CompanySettings.mk "company_settings" "My Company" None "#3b82f6"
                       "#10b981" "UTC" (utcnow env0 0) in
  exists s',
    get_settings env0 alice store1 = (inr settings, s')
    /\ company_settings s' = company_settings store1 ++ [settings]
    /\ core s' = core store1
    /\ comments s' = comments store1
    /\ sessions s' = sessions store1
    /\ preventive_maintenance s' = preventive_maintenance store1
    /\ get_settings (env_at 5) bob s' = (inr settings, s').
Proof.
  apply (get_settings_lazy_default env0 (env_at 5) alice bob store1).
  reflexivity.
Defined.

(** X24.  [update_settings] is for admins only and merges: a caller who is
    not an admin gets 403 and the store stays as it was; for an admin the
    update succeeds and touches the settings only, and [get_settings]
    afterwards answers a document with id "company_settings" in which
    each of company name, logo, the two colours and the time zone is the
    value the body gave when it gave one, and otherwise the value of the
    previous document (of the defaults "My Company", no logo, "#3b82f6",
    "#10b981", "UTC" when there was no document), and in which
    [updated_at] is the time of the update; the read changes nothing. *)
Theorem update_then_get_settings
    (env env' : Env) (updates : CompanySettingsUpdate.t)
    (u viewer : User.t) (s : Store) :
  (User.role u <> ADMIN ->
   update_settings env updates u s =
   (inl (mkHTTPException 403 "Insufficient permissions"), s))
  /\ (User.role u = ADMIN ->
      let s' := snd (update_settings env updates u s) in
      let before :=
        match List.find is_company_settings (company_settings s) with
        | Some c => c
        | None =>
            CompanySettings.mk "company_settings" "My Company" None
                               "#3b82f6" "#10b981" "UTC" (utcnow env 0)
        end in
      fst (update_settings env updates u s)
        = inr "Settings updated successfully"
      /\ core s' = core s
      /\ comments s' = comments s
      /\ sessions s' = sessions s
      /\ preventive_maintenance s' = preventive_maintenance s
      /\ exists c,
          get_settings env' viewer s' = (inr c, s')
          /\ CompanySettings.id c = "company_settings"
          /\ CompanySettings.company_name c =
             match CompanySettingsUpdate.company_name updates with
             | Some v => v
             | None => CompanySettings.company_name before
             end
          /\ CompanySettings.logo_url c =
             match CompanySettingsUpdate.logo_url updates with
             | Some v => Some v
             | None => CompanySettings.logo_url before
             end
          /\ CompanySettings.primary_color c =
             match CompanySettingsUpdate.primary_color updates with
             | Some v => v
             | None => CompanySettings.primary_color before
             end
          /\ CompanySettings.secondary_color c =
             match CompanySettingsUpdate.secondary_color updates with
             | Some v => v
             | None => CompanySettings.secondary_color before
             end
          /\ CompanySettings.timezone c =
             match CompanySettingsUpdate.timezone updates with
             | Some v => v
             | None => CompanySettings.timezone before
             end
          /\ CompanySettings.updated_at c = utcnow env 0).
Proof.
  split.
  - intros Hrole. unfold update_settings, require_role. run_route.
    destruct (User.role u); try contradiction; cbn; now rewrite set_core_same.
  - intros Hrole s' before. subst s' before.
    unfold update_settings, require_role. rewrite Hrole. cbn [existsb role_eqb
      orb negb]. run_route. rewrite set_core_same. run_route.
    cbn [fst snd core comments sessions preventive_maintenance
         company_settings].
    do 5 (split; [reflexivity|]).
    unfold get_settings. run_route. rewrite find_existsb.
    cbn [company_settings].
    destruct (List.find is_company_settings (company_settings s)) as [c|]
      eqn:Hfind.
    + rewrite (find_update_first _ _ _ c
                 (is_company_settings_set updates (utcnow env 0)) Hfind).
      eexists. split; [reflexivity|].
      apply find_some in Hfind. destruct Hfind as [_ Hid].
      apply String.eqb_eq in Hid.
      destruct updates as [[?|] [?|] [?|] [?|] [?|]]; cbn;
        repeat split; exact Hid.
    + rewrite find_app_fresh;
        [| now apply find_none_existsb | reflexivity].
      eexists. split; [reflexivity|].
      destruct updates as [[?|] [?|] [?|] [?|] [?|]]; cbn;
        repeat split.
Qed.

(** On the sample store, which has no settings yet, an admin renames the
    company and then sets the time zone: the first read shows the new name
    beside the defaults, the second keeps that name, shows the new time
    zone and the time of the second update. *)
Lemma update_then_get_settings_witness :
  let s1 := snd (update_settings env0 rename_company boss store1) in
  let s2 := snd (update_settings (env_at 1) move_to_dubai boss s1) in
  get_settings (env_at 2) alice s1 =
    (inr (CompanySettings.mk "company_settings" "Acme Facilities" None
            "#3b82f6" "#10b981" "UTC" (utcnow env0 0)), s1)
  /\ get_settings (env_at 2) alice s2 =
     (inr (CompanySettings.mk "company_settings" "Acme Facilities" None
             "#3b82f6" "#10b981" "Asia/Dubai" (utcnow (env_at 1) 0)), s2)
  /\ update_settings env0 rename_company alice store1 =
     (inl (mkHTTPException 403 "Insufficient permissions"), store1).
Proof.
  intros s1 s2.
  destruct (update_then_get_settings env0 (env_at 2) rename_company boss
              alice store1) as [_ H1].
  destruct (update_then_get_settings (env_at 1) (env_at 2) move_to_dubai
              boss alice s1) as [_ H2].
  destruct (update_then_get_settings env0 env0 rename_company alice alice
              store1) as [H3 _].
  specialize (H1 eq_refl). specialize (H2 eq_refl).
  cbv zeta in H1, H2.
  destruct H1 as (_ & _ & _ & _ & _ & c1 & G1 & I1 & N1 & L1 & P1 & S1 & T1
                  & U1).
  destruct H2 as (_ & _ & _ & _ & _ & c2 & G2 & I2 & N2 & L2 & P2 & S2 & T2
                  & U2).
  split; [|split].
  - fold s1 in G1. rewrite G1. destruct c1. cbn in *. now subst.
  - fold s2 in G2. rewrite G2. destruct c2. cbn in *. now subst.
  - apply H3. discriminate.
Defined.

(** After the first update of a fresh store the name is the new one and
    the colours are the defaults. *)
Example settings_after_first_update :
  fst (get_settings (env_at 1) alice
         (snd (update_settings env0 rename_company boss store1)))
  = inr (CompanySettings.mk "company_settings" "Acme Facilities" None
           "#3b82f6" "#10b981" "UTC" (utcnow env0 0)).
Proof. vm_compute. reflexivity. Qed.

(** ** Preventive maintenance *)

(** The notifications [create_preventive_maintenance] appends: one for the
    assignee when the assignee id is a non-empty string. *)
Lemma create_preventive_maintenance_success
    (env : Env) (pm_data : PreventiveMaintenanceCreate.t) (u : User.t)
    (s s' : Store) (pm : PreventiveMaintenance.t) :
  create_preventive_maintenance env pm_data u s = (inr pm, s') ->
  let added :=
    match PreventiveMaintenanceCreate.assigned_to_id pm_data with
    | Some a =>
        if a =? "" then []
        else [Notification.mk (uuid4 env 1) a
                "New Preventive Maintenance Task"
                ("You have been assigned to: "
                   ++ PreventiveMaintenanceCreate.title pm_data)%string
                (Some "/preventive-maintenance") false (utcnow env 1)]
    | None => []
    end in
  s' = mkStore
         (mkDatabase (users (core s)) (work_orders (core s))
                     (cost_entries (core s))
                     (notifications (core s) ++ added))
         (comments s) (sessions s) (preventive_maintenance s ++ [pm])
         (company_settings s)
  /\ PreventiveMaintenance.is_active pm = true
  /\ PreventiveMaintenance.assigned_to_id pm
     = PreventiveMaintenanceCreate.assigned_to_id pm_data
  /\ PreventiveMaintenance.next_due_date pm
     = PreventiveMaintenanceCreate.next_due_date pm_data
  /\ existsb (role_eqb (User.role u)) [ADMIN; SUPERVISOR] = true.
Proof.
  unfold create_preventive_maintenance, require_role, truthy.
  destruct (existsb (role_eqb (User.role u)) [ADMIN; SUPERVISOR]);
    cbn [negb]; run_route; [|discriminate].
  destruct s as [d cs ss pms st]. cbn [core comments sessions
    preventive_maintenance company_settings set_core].
  destruct (PreventiveMaintenanceCreate.assigned_to_id pm_data) as [a|].
  - destruct (a =? ""); cbn [negb]; run_route; cbn [set_core core comments
      sessions preventive_maintenance company_settings];
      intros [= <- <-]; cbn; rewrite ?app_nil_r; destruct d; repeat split.
  - intros [= <- <-]. cbn. rewrite ?app_nil_r. destruct d. repeat split.
Qed.

(** X25.  A successful [create_preventive_maintenance] appends the new
    task, active, to the tasks and touches no user, work order or cost
    entry; it appends exactly one notification, addressed to the assignee
    and linking to the task list, when an assignee id is given, and none
    when it is not ([None] or the empty string). *)
Theorem create_preventive_maintenance_effect
    (env : Env) (pm_data : PreventiveMaintenanceCreate.t) (u : User.t)
    (s s' : Store) (pm : PreventiveMaintenance.t) :
  create_preventive_maintenance env pm_data u s = (inr pm, s') ->
  preventive_maintenance s' = preventive_maintenance s ++ [pm]
  /\ PreventiveMaintenance.is_active pm = true
  /\ users (core s') = users (core s)
  /\ work_orders (core s') = work_orders (core s)
  /\ cost_entries (core s') = cost_entries (core s)
  /\ (PreventiveMaintenanceCreate.assigned_to_id pm_data = None
      \/ PreventiveMaintenanceCreate.assigned_to_id pm_data = Some "" ->
      notifications (core s') = notifications (core s))
  /\ (forall a,
        PreventiveMaintenanceCreate.assigned_to_id pm_data = Some a ->
        a <> "" ->
        exists n,
          notifications (core s') = notifications (core s) ++ [n]
          /\ Notification.user_id n = a
          /\ Notification.link n = Some "/preventive-maintenance"
          /\ Notification.is_read n = false).
Proof.
  intros H. apply create_preventive_maintenance_success in H.
  destruct H as [-> [Hact _]].
  cbn [preventive_maintenance core users work_orders cost_entries
       notifications].
  repeat split; try assumption.
  - intros [E | E]; rewrite E; cbn; now rewrite app_nil_r.
  - intros a E Ha. rewrite E. apply String.eqb_neq in Ha. rewrite Ha.
    eexists. repeat split.
Qed.

Lemma create_preventive_maintenance_effect_witness :
  exists pm s' n,
    create_preventive_maintenance env0 boiler_check boss store1 = (inr pm, s')
    /\ preventive_maintenance s' = [pm]
    /\ notifications (core s') = notifications (core store1) ++ [n]
    /\ Notification.user_id n = "u-tech".
Proof.
  destruct (create_preventive_maintenance env0 boiler_check boss store1)
    as [[e | pm] s'] eqn:E; [vm_compute in E; discriminate|].
  destruct (create_preventive_maintenance_effect env0 boiler_check boss
              store1 s' pm E) as [Hpm [_ [_ [_ [_ [_ Hn]]]]]].
  destruct (Hn "u-tech" eq_refl) as [n [Hn1 [Hn2 _]]]; [discriminate|].
  exists pm, s', n. repeat split; assumption.
Defined.

Lemma insert_asc_perm {A} (key : A -> string) (x : A) (l : list A) :
  Permutation (insert_asc key x l) (x :: l).
Proof.
  induction l as [|y l IH]; simpl; [reflexivity|].
  destruct (String.ltb (key y) (key x)); [|reflexivity].
  rewrite IH. apply perm_swap.
Qed.

Lemma sort_asc_perm {A} (key : A -> string) (l : list A) :
  Permutation (sort_asc key l) l.
Proof.
  induction l as [|x l IH]; simpl; [reflexivity|].
  rewrite insert_asc_perm. now constructor.
Qed.

Lemma insert_asc_ascending {A} (key : A -> string) (x : A) (l : list A) :
  ascending key l -> ascending key (insert_asc key x l).
Proof.
  induction 1 as [|y|y z l Hyz Hd IH]; simpl.
  - constructor.
  - destruct (String.ltb (key y) (key x)) eqn:E.
    + constructor; [now apply ltb_false_swap | constructor].
    + constructor; [exact E | constructor].
  - destruct (String.ltb (key y) (key x)) eqn:E.
    + simpl in IH. destruct (String.ltb (key z) (key x)) eqn:E2.
      * constructor; assumption.
      * constructor; [now apply ltb_false_swap | exact IH].
    + constructor; [exact E|]. now constructor.
Qed.

Lemma sort_asc_ascending {A} (key : A -> string) (l : list A) :
  ascending key (sort_asc key l).
Proof.
  induction l as [|x l IH]; simpl; [constructor|].
  now apply insert_asc_ascending.
Qed.

Lemma ascending_firstn {A} (key : A -> string) (n : nat) (l : list A) :
  ascending key l -> ascending key (firstn n l).
Proof.
  intros H. revert n.
  induction H as [|x|x y l Hxy Hd IH]; intros [|n]; simpl; try constructor.
  - destruct n; constructor.
  - destruct n as [|n]; [constructor|].
    specialize (IH (S n)). simpl in IH. now constructor.
Qed.

(** X26.  [get_preventive_maintenance] is for admins and supervisors: a
    technician or client gets 403; an admin or supervisor gets stored
    tasks only, earliest [next_due_date] first, at most 1000, and all of
    them when at most 1000 are stored.  The store is never changed. *)
Theorem get_preventive_maintenance_listing (u : User.t) (s : Store) :
  match User.role u with
  | ADMIN | SUPERVISOR =>
      exists l,
        get_preventive_maintenance u s = (inr l, s)
        /\ ascending PreventiveMaintenance.next_due_date l
        /\ (forall x, In x l -> In x (preventive_maintenance s))
        /\ List.length l
           = Nat.min 1000 (List.length (preventive_maintenance s))
        /\ (List.length (preventive_maintenance s) <= 1000 ->
            Permutation l (preventive_maintenance s))
  | TECHNICIAN | CLIENT =>
      get_preventive_maintenance u s =
      (inl (mkHTTPException 403 "Insufficient permissions"), s)
  end.
Proof.
  assert (Hok : existsb (role_eqb (User.role u)) [ADMIN; SUPERVISOR] = true ->
    exists l,
      get_preventive_maintenance u s = (inr l, s)
      /\ ascending PreventiveMaintenance.next_due_date l
      /\ (forall x, In x l -> In x (preventive_maintenance s))
      /\ List.length l = Nat.min 1000 (List.length (preventive_maintenance s))
      /\ (List.length (preventive_maintenance s) <= 1000 ->
          Permutation l (preventive_maintenance s))).
  { intros Hrole.
    exists (to_list 1000 (sort_asc PreventiveMaintenance.next_due_date
                            (preventive_maintenance s))).
    split; [|split; [|split; [|split]]].
    - unfold get_preventive_maintenance, require_role. rewrite Hrole.
      cbn [negb]. run_route. now rewrite set_core_same, filter_everything.
    - apply ascending_firstn, sort_asc_ascending.
    - intros x Hin. apply in_to_list in Hin.
      now apply (Permutation_in _ (sort_asc_perm _ _)) in Hin.
    - unfold to_list. rewrite length_firstn.
      now rewrite (Permutation_length (sort_asc_perm _ _)).
    - intros Hle. unfold to_list. rewrite firstn_all2; [apply sort_asc_perm|].
      now rewrite (Permutation_length (sort_asc_perm _ _)). }
  assert (Hno : existsb (role_eqb (User.role u)) [ADMIN; SUPERVISOR] = false ->
    get_preventive_maintenance u s =
    (inl (mkHTTPException 403 "Insufficient permissions"), s)).
  { intros Hrole. unfold get_preventive_maintenance, require_role.
    rewrite Hrole. cbn [negb]. run_route. now rewrite set_core_same. }
  destruct (User.role u); auto.
Qed.

(** ** Reassigning through an update *)

(** X27.  What an authorized update does with a non-empty new assignee id:
    the id is written in any case; when it names a stored user, the order
    also gets that user's name and one "New Assignment" notification goes
    to the id; when it names no stored user, [assigned_to_name] keeps its
    previous value and no assignment notification is sent. *)
Theorem update_work_order_reassignment
    (env : Env) (work_order_id : string) (updates : WorkOrderUpdate.t)
    (u : User.t) (d : Database) (w : WorkOrder.t) (a : string) :
  List.find (wo_id_is work_order_id) (work_orders d) = Some w ->
  may_update u w ->
  WorkOrderUpdate.assigned_to_id updates = Some a ->
  a <> "" ->
  exists w' d' rest,
    update_work_order env work_order_id updates u d = (inr (Some w'), d')
    /\ WorkOrder.assigned_to_id w' = Some a
    /\ (forall n, In n rest -> Notification.title n <> "New Assignment")
    /\ match List.find (user_id_is a) (users d) with
       | Some t =>
           WorkOrder.assigned_to_name w' = Some (User.name t)
           /\ exists n,
               notifications d' = notifications d ++ n :: rest
               /\ Notification.user_id n = a
               /\ Notification.title n = "New Assignment"
       | None =>
           WorkOrder.assigned_to_name w' = WorkOrder.assigned_to_name w
           /\ notifications d' = notifications d ++ rest
       end.
Proof.
  intros Hfind Hmay Ha Hne.
  exists (set_fields (update_data_of env updates d) w).
  eexists. exists (status_notice env work_order_id updates w).
  split; [apply (update_work_order_authorized _ _ _ _ _ _ Hfind Hmay)|].
  apply String.eqb_neq in Hne.
  unfold update_data_of, assignment_notice, assignee_lookup.
  rewrite Ha, Hne. cbn [notifications].
  split; [cbn; now rewrite Ha|]. split.
  - intros n Hin.
    pose proof (status_notice_cases env work_order_id updates w) as Hs.
    destruct (WorkOrderUpdate.status updates).
    + destruct Hs as [m [E [_ Ht]]]. rewrite E in Hin.
      destruct Hin as [<- | []]. rewrite Ht. discriminate.
    + rewrite Hs in Hin. destruct Hin.
  - destruct (List.find (user_id_is a) (users d)) as [t|].
    + split; [reflexivity|]. eexists. split; [reflexivity|]. split; reflexivity.
    + split; reflexivity.
Qed.

Lemma update_work_order_reassignment_witness :
  exists w' d' rest,
    update_work_order env0 "wo-1" (reassign_to "u-gone") boss db1
      = (inr (Some w'), d')
    /\ WorkOrder.assigned_to_id w' = Some "u-gone"
    /\ (forall n, In n rest -> Notification.title n <> "New Assignment")
    /\ match List.find (user_id_is "u-gone") (users db1) with
       | Some t =>
           WorkOrder.assigned_to_name w' = Some (User.name t)
           /\ exists n,
               notifications d' = notifications db1 ++ n :: rest
               /\ Notification.user_id n = "u-gone"
               /\ Notification.title n = "New Assignment"
       | None =>
           WorkOrder.assigned_to_name w' = WorkOrder.assigned_to_name leak_order
           /\ notifications d' = notifications db1 ++ rest
       end.
Proof.
  apply (update_work_order_reassignment env0 "wo-1" (reassign_to "u-gone")
           boss db1 leak_order "u-gone").
  - reflexivity.
  - split; discriminate.
  - reflexivity.
  - discriminate.
Defined.

(** ** When a creation goes through *)

(** X28.  [create_work_order] succeeds exactly when the caller is an admin
    or a supervisor and the client id names a stored user; the order then
    carries the name of the first stored user with that id as
    [client_name], the caller as creator, no cost, and as
    [assigned_to_name] the name of the stored user the assignee id names,
    if any. *)
Theorem create_work_order_outcome
    (env : Env) (wo_data : WorkOrderCreate.t) (u : User.t) (d : Database) :
  ((exists w d', create_work_order env wo_data u d = (inr w, d'))
   <-> (User.role u = ADMIN \/ User.role u = SUPERVISOR)
       /\ exists client,
            List.find (user_id_is (WorkOrderCreate.client_id wo_data))
                      (users d) = Some client)
  /\ (forall w d',
        create_work_order env wo_data u d = (inr w, d') ->
        option_map User.name
          (List.find (user_id_is (WorkOrderCreate.client_id wo_data))
                     (users d)) = Some (WorkOrder.client_name w)
        /\ WorkOrder.created_by_id w = User.id u
        /\ WorkOrder.created_by_name w = User.name u
        /\ WorkOrder.total_cost w = 0%float
        /\ WorkOrder.assigned_to_name w =
           match WorkOrderCreate.assigned_to_id wo_data with
           | Some a =>
               if a =? "" then None
               else option_map User.name (List.find (user_id_is a) (users d))
           | None => None
           end).
Proof.
  split; [split|].
  - intros [w [d' H]]. revert H.
    unfold create_work_order, require_role. run_handler.
    destruct (User.role u); cbn; try discriminate;
      destruct (List.find _ (users d)) as [c|]; try discriminate;
      intros _; (split; [auto | now exists c]).
  - intros [Hrole [client Hc]].
    apply create_work_order_succeeds.
    + destruct Hrole as [-> | ->]; reflexivity.
    + now rewrite find_existsb, Hc.
  - intros w d'. unfold create_work_order, require_role, truthy.
    run_handler.
    destruct (negb _); [discriminate|].
    destruct (List.find _ (users d)) as [client|]; [|discriminate].
    destruct (WorkOrderCreate.assigned_to_id wo_data) as [a|].
    + destruct (a =? ""); run_handler; cbn [negb]; run_handler;
        intros [= <- _]; repeat split.
    + intros [= <- _]. repeat split.
Qed.

(** ** The counts of the dashboard *)

(** X29.  The counts the dashboard reports add up: over the orders in the
    caller's scope, pending, in progress, completed and approved plus the
    cancelled ones (which it does not report) make [total_orders]; so no
    reported count, and no sum of them, exceeds [total_orders]. *)
Theorem dashboard_counts_add_up (u : User.t) (d : Database) :
  exists s,
    get_dashboard_stats u d = (inr s, d)
    /\ pending s + in_progress s + completed s + approved s
       + count_status CANCELLED (filter (visible_to u) (work_orders d))
       = total_orders s
    /\ completed s + approved s <= total_orders s.
Proof.
  eexists. split.
  - unfold get_dashboard_stats. run_handler.
    rewrite !count_scoped_status, !filter_role_query. reflexivity.
  - cbn [pending in_progress completed approved total_orders].
    pose proof (count_status_partition
                  (filter (visible_to u) (work_orders d))) as H.
    split; lia.
Qed.
